(** * wonderland_training: the analytics engine of [app.py]

    A shallow embedding of the training-load engine (per-record metrics,
    periodization calendar, weekly aggregation, risk flags, rolling series
    and readiness score) together with the properties its specification
    states about it.

    Conventions of the embedding:
    - Python [int] is [Z]; Python [float] is read in two ways.  A field
      of a row holds the rational its float stands for ([Q], compared
      with [==]), and the first reading of the engine computes on these
      rationals exactly; it serves the properties that rounding does
      not touch: the windows of dates, the exceptions of the calendar,
      the closed set of flags, the requests.  The second reading,
      [F64] and [Engine64], is binary64 itself: every operation returns
      the exact result rounded to the nearest number of the format,
      with its overflows and its NaN, and [round] and [int] raise on
      them as in Python.  The thresholds of the flags, the rounding of
      the series, the score and the dashboard are stated on it;
    - Python exceptions are values of [exn], carried by the [result] monad;
    - [datetime.date] is the record (year, month, day) with the ordinal
      arithmetic of CPython's [Lib/_pydatetime.py], range checks included;
    - the [Workout] table is the list of its rows; a query is a filter;
      [date.today()] is an argument, [now];
    - note text is ASCII;
    - [Dict[str, str]] of risk flags is a [gmap string string]. *)

From Stdlib Require Import ZArith QArith Qround Qabs Qpower Lia Lqa List Bool.
From Stdlib Require Import String Ascii.
From Stdlib Require Import Floats.
From Stdlib Require Import Sorted Permutation.
From stdpp Require Import gmap strings.

Local Open Scope Z_scope.

(** ** Exceptions as results *)

Inductive exn : Type :=
| ValueError
| OverflowError
| ZeroDivisionError.

Inductive result (A : Type) : Type :=
| Ok (a : A)
| Raise (e : exn).

Arguments Ok {A} a.
Arguments Raise {A} e.

Definition rbind {A B : Type} (m : result A) (k : A -> result B) : result B :=
  match m with
  | Ok a => k a
  | Raise e => Raise e
  end.

Notation "'let*' x ':=' m 'in' k" := (rbind m (fun x => k))
  (at level 10, x pattern, m at level 100, k at level 200).

Definition returns {A : Type} (m : result A) : Prop := exists a, m = Ok a.

(** ** [datetime.date] *)

Module PyDate.

Record date : Type := mkdate { year : Z; month : Z; day : Z }.

Definition MINYEAR : Z := 1.
Definition MAXYEAR : Z := 9999.

(** [_is_leap] *)
Definition is_leap (y : Z) : bool :=
  (y mod 4 =? 0) && (negb (y mod 100 =? 0) || (y mod 400 =? 0)).

(** [_DAYS_IN_MONTH], a table indexed from 1 (index 0 holds -1). *)
Definition DAYS_IN_MONTH (m : Z) : Z :=
  match m with
  | 1 => 31 | 2 => 28 | 3 => 31 | 4 => 30 | 5 => 31 | 6 => 30
  | 7 => 31 | 8 => 31 | 9 => 30 | 10 => 31 | 11 => 30 | 12 => 31
  | _ => -1
  end.

(** [_DAYS_BEFORE_MONTH], the running sums of [_DAYS_IN_MONTH]. *)
Definition DAYS_BEFORE_MONTH (m : Z) : Z :=
  match m with
  | 1 => 0 | 2 => 31 | 3 => 59 | 4 => 90 | 5 => 120 | 6 => 151
  | 7 => 181 | 8 => 212 | 9 => 243 | 10 => 273 | 11 => 304 | 12 => 334
  | _ => -1
  end.

(** [_days_before_year] *)
Definition days_before_year (y : Z) : Z :=
  let y1 := y - 1 in
  y1 * 365 + y1 / 4 - y1 / 100 + y1 / 400.

(** [_days_in_month] *)
Definition days_in_month (y m : Z) : Z :=
  if (m =? 2) && is_leap y then 29 else DAYS_IN_MONTH m.

(** [_days_before_month] *)
Definition days_before_month (y m : Z) : Z :=
  DAYS_BEFORE_MONTH m + (if (2 <? m) && is_leap y then 1 else 0).

(** [_ymd2ord] *)
Definition ymd2ord (y m d : Z) : Z :=
  days_before_year y + days_before_month y m + d.

Definition DI400Y : Z := 146097.
Definition DI100Y : Z := 36524.
Definition DI4Y : Z := 1461.

(** [_ord2ymd] *)
Definition ord2ymd (n : Z) : Z * Z * Z :=
  let n := n - 1 in
  let n400 := n / DI400Y in
  let n := n mod DI400Y in
  let y := n400 * 400 + 1 in
  let n100 := n / DI100Y in
  let n := n mod DI100Y in
  let n4 := n / DI4Y in
  let n := n mod DI4Y in
  let n1 := n / 365 in
  let n := n mod 365 in
  let y := y + (n100 * 100 + n4 * 4 + n1) in
  if (n1 =? 4) || (n100 =? 4) then (y - 1, 12, 31)
  else
    let leapyear := (n1 =? 3) && (negb (n4 =? 24) || (n100 =? 3)) in
    let m := Z.shiftr (n + 50) 5 in
    let preceding :=
      DAYS_BEFORE_MONTH m + (if (2 <? m) && leapyear then 1 else 0) in
    if n <? preceding then
      let m := m - 1 in
      let preceding :=
        preceding - (DAYS_IN_MONTH m + (if (m =? 2) && leapyear then 1 else 0)) in
      (y, m, n - preceding + 1)
    else (y, m, n - preceding + 1).

(** The field check of the constructor, [_check_date_fields]. *)
Definition check_date_fields (y m d : Z) : bool :=
  (MINYEAR <=? y) && (y <=? MAXYEAR) &&
  (1 <=? m) && (m <=? 12) &&
  (1 <=? d) && (d <=? days_in_month y m).

(** [date(y, m, d)] *)
Definition new (y m d : Z) : result date :=
  if check_date_fields y m d then Ok (mkdate y m d) else Raise ValueError.

Definition valid (d : date) : Prop :=
  check_date_fields (year d) (month d) (day d) = true.

(** [date.max.toordinal()], the ordinal of 9999-12-31. *)
Definition MAXORDINAL : Z := 3652059.

Definition toordinal (d : date) : Z := ymd2ord (year d) (month d) (day d).

Definition fromordinal (n : Z) : result date :=
  let '(y, m, d) := ord2ymd n in new y m d.

(** [weekday()]: Monday is 0, Sunday is 6. *)
Definition weekday (d : date) : Z := (toordinal d + 6) mod 7.

(** [isoweekday()]: Monday is 1, Sunday is 7. *)
Definition isoweekday (d : date) : Z :=
  let r := toordinal d mod 7 in if r =? 0 then 7 else r.

(** [d + timedelta(days=k)] *)
Definition add_days (d : date) (k : Z) : result date :=
  let o := toordinal d + k in
  if (0 <? o) && (o <=? MAXORDINAL) then fromordinal o
  else Raise OverflowError.

(** [d - timedelta(days=k)] *)
Definition sub_days (d : date) (k : Z) : result date := add_days d (- k).

(** Comparison of dates is comparison of the triples (year, month, day). *)
Definition ltb (a b : date) : bool :=
  (year a <? year b) ||
  ((year a =? year b) &&
   ((month a <? month b) || ((month a =? month b) && (day a <? day b)))).

Definition eqb (a b : date) : bool :=
  (year a =? year b) && (month a =? month b) && (day a =? day b).

Definition leb (a b : date) : bool := ltb a b || eqb a b.

End PyDate.

Export PyDate.

(** ** Numbers and strings of the Python runtime *)

Local Open Scope Q_scope.

(** [x / y] on floats: a zero divisor raises. *)
Definition truediv (x y : Q) : result Q :=
  if Qeq_bool y 0 then Raise ZeroDivisionError else Ok (x / y).

Definition Qltb (x y : Q) : bool := negb (Qle_bool y x).

(** [sum(xs)]: a left fold that starts from 0. *)
Definition py_sum (xs : list Q) : Q := fold_left Qplus xs 0.

Definition py_sumZ (xs : list Z) : Z := fold_left Z.add xs 0%Z.

(** [max(xs, default=dflt)] *)
Definition py_max_default (xs : list Z) (dflt : Z) : Z :=
  match xs with
  | [] => dflt
  | x :: xs' => fold_left Z.max xs' x
  end.

(** [round(x)]: to the nearest integer, ties to the even one. *)
Definition py_round (x : Q) : Z :=
  let f := Qfloor x in
  match Qcompare (x - inject_Z f) (1 # 2) with
  | Lt => f
  | Gt => (f + 1)%Z
  | Eq => if Z.even f then f else (f + 1)%Z
  end.

(** [round(x, 1)] *)
Definition py_round1 (x : Q) : Q := inject_Z (py_round (x * 10)) / 10.

Local Close Scope Q_scope.

(** [str.lower()] on ASCII text. *)
Definition lower_ascii (c : ascii) : ascii :=
  let n := nat_of_ascii c in
  if (65 <=? n)%nat && (n <=? 90)%nat then ascii_of_nat (n + 32) else c.

Fixpoint lower (s : string) : string :=
  match s with
  | EmptyString => EmptyString
  | String c s' => String (lower_ascii c) (lower s')
  end.

(** [k in s] on strings: [k] occurs in [s] as a substring. *)
Fixpoint str_in (k s : string) : bool :=
  String.prefix k s ||
  match s with
  | EmptyString => false
  | String _ s' => str_in k s'
  end.

(** [d.strftime("%b %d")] in the C locale. *)
Definition month_abbr (m : Z) : string :=
  match m with
  | 1 => "Jan" | 2 => "Feb" | 3 => "Mar" | 4 => "Apr" | 5 => "May"
  | 6 => "Jun" | 7 => "Jul" | 8 => "Aug" | 9 => "Sep" | 10 => "Oct"
  | 11 => "Nov" | _ => "Dec"
  end.

Definition digit (n : Z) : ascii := ascii_of_nat (48 + Z.to_nat n).

Definition strftime_b_d (d : date) : string :=
  (month_abbr (month d) ++
   String " " (String (digit (day d / 10)) (String (digit (day d mod 10)) "")))%string.

(** ** The [Workout] model *)

Module Workout.

Record t : Type := mk {
  id : Z;
  session_date : date;
  type : string;
  duration_min : Z;
  distance_mi : Q;
  incline_pct : Q;
  pack_lb : Q;
  rpe : Z;
  notes : option string
}.

Local Open Scope Q_scope.

Definition vertical_ft (self : t) : Q :=
  distance_mi self * 5280 * (incline_pct self / 100).

Definition load_score (self : t) : Q :=
  let v := vertical_ft self in
  v * (1 + pack_lb self / 50).

Definition session_stress (self : t) : Q :=
  let load_factor := 1 + pack_lb self / 40 in
  inject_Z (duration_min self * Z.max (rpe self) 1) * load_factor.

End Workout.

(** The table is the list of its rows. *)
Abbreviation table := (list Workout.t).

(** ** Periodization *)

Record PhaseTargets : Type := mkPhaseTargets {
  name : string;
  vert_min : Z;
  vert_max : Z;
  long_min : Z;
  long_max : Z;
  pack_min : Z;
  pack_max : Z
}.

Definition phase_for (d : date) : result PhaseTargets :=
  let y := year d in
  let* feb1 := PyDate.new y 2 1 in
  let* apr1 := PyDate.new y 4 1 in
  let* jun1 := PyDate.new y 6 1 in
  let* aug1 := PyDate.new y 8 1 in
  if PyDate.ltb d apr1 then Ok (mkPhaseTargets "Base" 1500 2000 45 60 0 5)
  else if PyDate.ltb d jun1 then Ok (mkPhaseTargets "Build" 3000 4500 60 75 10 20)
  else if PyDate.ltb d aug1 then Ok (mkPhaseTargets "Peak" 6000 9000 75 90 20 35)
  else Ok (mkPhaseTargets "Taper" 2000 3000 45 60 0 15).

(** ** Weekly aggregation *)

Definition week_range (d : date) : result (date * date) :=
  let* start := sub_days d (weekday d) in
  let* end_ := add_days start 7 in
  Ok (start, end_).

Record WeekMetrics : Type := mkWeekMetrics {
  vert : Q;
  stress : Q;
  avg_pack : Q;
  max_long : Z;
  count : Q;
  missed : Q
}.

(** [ORDER BY session_date ASC]; rows of one date keep their order. *)
Fixpoint insert_by_date (w : Workout.t) (rows : table) : table :=
  match rows with
  | [] => [w]
  | r :: rows' =>
      if PyDate.leb (Workout.session_date w) (Workout.session_date r)
      then w :: r :: rows'
      else r :: insert_by_date w rows'
  end.

Definition order_by_date (rows : table) : table :=
  fold_right insert_by_date [] rows.

Definition sum_week_metrics (db : table) (start end_ : date) : result WeekMetrics :=
  let rows :=
    order_by_date
      (List.filter
         (fun w => PyDate.leb start (Workout.session_date w) &&
                   PyDate.ltb (Workout.session_date w) end_) db) in
  let vert := py_sum (map Workout.vertical_ft rows) in
  let stress := py_sum (map Workout.session_stress rows) in
  let* avg_pack :=
    match rows with
    | [] => Ok 0%Q
    | _ :: _ =>
        truediv (py_sum (map Workout.pack_lb rows))
                (inject_Z (Z.of_nat (length rows)))
    end in
  let max_long := py_max_default (map Workout.duration_min rows) 0 in
  let missed := 0%Z in
  Ok {| vert := vert;
        stress := stress;
        avg_pack := avg_pack;
        max_long := max_long;
        count := inject_Z (Z.of_nat (length rows));
        missed := inject_Z missed |}.

(** ** Rolling series *)

Record Series : Type := mkSeries {
  weeks : list string;
  verts : list Z;
  packs : list Q;
  stresses : list Q
}.

(** [range(n - 1, -1, -1)] *)
Definition range_down (n : Z) : list Z :=
  map (fun k => n - 1 - Z.of_nat k) (seq 0 (Z.to_nat n)).

(** The body of the loop of [last_n_weeks_series], run over the offsets
    [offs]; the four lists grow at their ends. *)
Fixpoint series_loop (db : table) (start_this_week : date) (offs : list Z)
    (acc : Series) : result Series :=
  match offs with
  | [] => Ok acc
  | i :: offs' =>
      let* ws := sub_days start_this_week (7 * i) in
      let* we := add_days ws 7 in
      let* m := sum_week_metrics db ws we in
      series_loop db start_this_week offs'
        {| weeks := weeks acc ++ [strftime_b_d ws];
           verts := verts acc ++ [py_round (vert m)];
           packs := packs acc ++ [py_round1 (avg_pack m)];
           stresses := stresses acc ++ [py_round1 (stress m)] |}
  end.

(** [now] is the value of [date.today()]. *)
Definition last_n_weeks_series (db : table) (now : date) (n : Z) : result Series :=
  let today := now in
  let* (start_this_week, _) := week_range today in
  series_loop db start_this_week (range_down n) (mkSeries [] [] [] []).

(** ** Risk flags *)

(** [func.avg(col)] over the selected rows: NULL when there is none. *)
Definition sql_avg (xs : list Z) : option Q :=
  match xs with
  | [] => None
  | _ :: _ => Some (inject_Z (py_sumZ xs) / inject_Z (Z.of_nat (length xs)))%Q
  end.

(** [func.max(col)] over the selected rows: NULL when there is none. *)
Definition sql_max (xs : list Z) : option Z :=
  match xs with
  | [] => None
  | x :: xs' => Some (fold_left Z.max xs' x)
  end.

Definition keywords : list string :=
  ["pain"; "knee"; "foot"; "shin"; "achilles"; "hip"]%string.

(** [n and any(k in n.lower() for k in keywords)] *)
Definition note_hits (n : string) : bool :=
  negb (String.eqb n "") && existsb (fun k => str_in k (lower n)) keywords.

(** [if c: flags[k] = v] *)
Definition flag_if (c : bool) (k v : string) (flags : gmap string string)
    : gmap string string :=
  if c then <[k := v]> flags else flags.

Definition risk_flags (db : table) (today : date) : result (gmap string string) :=
  let* (this_ws, this_we) := week_range today in
  let* prev_ws := sub_days this_ws 7 in
  let* prev_we := sub_days this_we 7 in

  let* this := sum_week_metrics db this_ws this_we in
  let* prev := sum_week_metrics db prev_ws prev_we in

  let flags : gmap string string := ∅ in

  let flags :=
    flag_if (Qltb 0 (vert prev) && Qltb (vert prev * (125 # 100)) (vert this))
      "overuse_vertical" "Vertical increased >25% week-over-week." flags in

  let flags :=
    flag_if (Qltb 5 (avg_pack this - avg_pack prev))
      "overuse_pack" "Average pack increased >5 lb week-over-week." flags in

  let* seven_days_ago := sub_days today 7 in
  let rpe_avg :=
    sql_avg
      (map Workout.rpe
         (List.filter
            (fun w => PyDate.leb seven_days_ago (Workout.session_date w) &&
                      PyDate.leb (Workout.session_date w) today) db)) in
  let flags :=
    flag_if (match rpe_avg with Some avg => Qle_bool 7 avg | None => false end)
      "overuse_rpe" "Average RPE ≥7 over the last 7 days." flags in

  let* tgt := phase_for today in
  let* this_ratio :=
    if negb (vert_min tgt =? 0)
    then truediv (vert this) (inject_Z (Z.max (vert_min tgt) 1)) else Ok 0%Q in
  let* prev_ratio :=
    if negb (vert_min tgt =? 0)
    then truediv (vert prev) (inject_Z (Z.max (vert_min tgt) 1)) else Ok 0%Q in
  let flags :=
    flag_if (Qltb this_ratio (7 # 10) && Qltb prev_ratio (7 # 10))
      "undertraining" "You hit <70% of weekly vertical target for 2 weeks." flags in

  let* fourteen_days_ago := sub_days today 14 in
  let recent_notes :=
    omap Workout.notes
      (List.filter
         (fun w => PyDate.leb fourteen_days_ago (Workout.session_date w)) db) in
  let flags :=
    flag_if (existsb note_hits recent_notes)
      "injury_signal" "Notes mention possible injury signals in the last 14 days."
      flags in

  Ok flags.

(** ** Readiness score *)

(** Lines 197-206 of [readiness_score]: the blend of the two four-week
    means and the longest session, given the phase of [today]. *)
Definition readiness_blend (tgt : PhaseTargets)
    (four_week_avg_vert four_week_avg_pack : Q) (max_long : Z) : result Z :=
  let peak_target : Q :=
    if negb (String.eqb (name tgt) "Peak") then 9000%Q else 9000%Q in
  let goal_pack : Q := 30%Q in
  let* tv := truediv four_week_avg_vert peak_target in
  let* tp := truediv four_week_avg_pack goal_pack in
  let s := (tv * (4 # 10) + tp * (3 # 10) + (inject_Z max_long / 90) * (3 # 10))%Q in
  Ok (Z.max 0 (Z.min 100 (py_round (s * 100)))).

Definition readiness_score (db : table) (now today : date) : result Z :=
  let* series := last_n_weeks_series db now 4 in
  let verts := verts series in
  let packs := packs series in

  let* four_week_avg_vert :=
    truediv (inject_Z (py_sumZ verts))
            (inject_Z (Z.max (Z.of_nat (length verts)) 1)) in
  let* four_week_avg_pack :=
    truediv (py_sum packs) (inject_Z (Z.max (Z.of_nat (length packs)) 1)) in

  let* (start_this_week, _) := week_range today in
  let* start_4 := sub_days start_this_week 28 in
  let max_long :=
    match
      sql_max
        (map Workout.duration_min
           (List.filter
              (fun w => PyDate.leb start_4 (Workout.session_date w) &&
                        PyDate.leb (Workout.session_date w) today) db))
    with
    | Some x => if x =? 0 then 0 else x
    | None => 0
    end in

  let* tgt := phase_for today in
  readiness_blend tgt four_week_avg_vert four_week_avg_pack max_long.

(** ** Vocabulary of the specification

    Windows of the specification are intervals of days; they are stated
    on the day count of the calendar ([toordinal]), while the program
    compares dates field by field. *)

(** Every row carries a date that the constructor of [date] accepts. *)
Definition table_valid (db : table) : Prop :=
  Forall (fun w => valid (Workout.session_date w)) db.

(** The rows dated from day [lo] to day [hi], both included. *)
Definition rows_between (db : table) (lo hi : Z) : table :=
  List.filter
    (fun w => (lo <=? toordinal (Workout.session_date w)) &&
              (toordinal (Workout.session_date w) <=? hi)) db.

(** The day count of the Monday that starts the week of [d]. *)
Definition monday_of (d : date) : Z := toordinal d - (isoweekday d - 1).

(** The dates on which no date computed by the engine leaves the range
    [date.min .. date.max]: those from 0001-01-29 to 9999-12-26. *)
Definition in_service (d : date) : Prop :=
  valid d /\ 29 <= monday_of d /\ monday_of d + 7 <= MAXORDINAL.

Definition mean_rpe (rows : table) : Q :=
  (inject_Z (py_sumZ (map Workout.rpe rows)) /
   inject_Z (Z.of_nat (length rows)))%Q.

Definition longest (rows : table) : Z :=
  py_max_default (map Workout.duration_min rows) 0.

(** The four target bundles of the periodization calendar. *)
Definition base_targets : PhaseTargets := mkPhaseTargets "Base" 1500 2000 45 60 0 5.
Definition build_targets : PhaseTargets := mkPhaseTargets "Build" 3000 4500 60 75 10 20.
Definition peak_targets : PhaseTargets := mkPhaseTargets "Peak" 6000 9000 75 90 20 35.
Definition taper_targets : PhaseTargets := mkPhaseTargets "Taper" 2000 3000 45 60 0 15.

(** [d] lies in the half-open interval of dates from [a] to [b]. *)
Definition date_in (a b d : date) : Prop :=
  PyDate.leb a d = true /\ PyDate.ltb d b = true.

(** The aggregates of a window without rows. *)
Definition zero_metrics : WeekMetrics :=
  {| vert := 0; stress := 0; avg_pack := 0; max_long := 0;
     count := 0; missed := 0 |}.

(** The score as the specification words it: the vertical anchor is the
    constant 9000 whatever the phase. *)
Definition readiness_blend_fixed
    (four_week_avg_vert four_week_avg_pack : Q) (max_long : Z) : result Z :=
  let* tv := truediv four_week_avg_vert 9000%Q in
  let* tp := truediv four_week_avg_pack 30%Q in
  let s := (tv * (4 # 10) + tp * (3 # 10) + (inject_Z max_long / 90) * (3 # 10))%Q in
  Ok (Z.max 0 (Z.min 100 (py_round (s * 100)))).

Definition readiness_score_fixed (db : table) (now today : date) : result Z :=
  let* series := last_n_weeks_series db now 4 in
  let verts := verts series in
  let packs := packs series in
  let* four_week_avg_vert :=
    truediv (inject_Z (py_sumZ verts))
            (inject_Z (Z.max (Z.of_nat (length verts)) 1)) in
  let* four_week_avg_pack :=
    truediv (py_sum packs) (inject_Z (Z.max (Z.of_nat (length packs)) 1)) in
  let* (start_this_week, _) := week_range today in
  let* start_4 := sub_days start_this_week 28 in
  let max_long :=
    match
      sql_max
        (map Workout.duration_min
           (List.filter
              (fun w => PyDate.leb start_4 (Workout.session_date w) &&
                        PyDate.leb (Workout.session_date w) today) db))
    with
    | Some x => if x =? 0 then 0 else x
    | None => 0
    end in
  let* tgt := phase_for today in
  readiness_blend_fixed four_week_avg_vert four_week_avg_pack max_long.

(** The raw blend and its rounding, as a number. *)
Definition blend_value (v p : Q) (l : Z) : Z :=
  Z.max 0
    (Z.min 100
       (py_round
          ((v / 9000 * (4 # 10) + p / 30 * (3 # 10) +
            inject_Z l / 90 * (3 # 10)) * 100)%Q)).

(** The RPE rule as the specification words it: rows of the seven days
    [today - 6 .. today] exist and their mean RPE is at least 7. *)
Definition overuse_rpe_claimed (db : table) (today : date) : Prop :=
  let rows := rows_between db (toordinal today - 6) (toordinal today) in
  rows <> [] /\ (7 <= mean_rpe rows)%Q.

(** The injury rule as the specification words it: a row of the days
    [today - 14 .. today] has a note that mentions a keyword. *)
Definition injury_signal_claimed (db : table) (today : date) : Prop :=
  exists w n,
    In w (rows_between db (toordinal today - 14) (toordinal today)) /\
    Workout.notes w = Some n /\ note_hits n = true.


(** ** The per-record metrics in binary64

    The same three expressions over IEEE 754 double precision numbers,
    the arithmetic Python's [float] has; they serve to evaluate the worked
    example of the specification as the interpreter does. *)

Module Binary64.

Local Open Scope float_scope.

Definition vertical_ft (distance_mi incline_pct : float) : float :=
  distance_mi * 5280 * (incline_pct / 100).

Definition load_score (distance_mi incline_pct pack_lb : float) : float :=
  let v := vertical_ft distance_mi incline_pct in
  v * (1 + pack_lb / 50).

(** The integer product [duration_min * max(rpe, 1)] is converted to a
    float when it meets [load_factor]; the conversion is exact below
    2^53. *)
Definition session_stress (duration_min rpe : Z) (pack_lb : float) : float :=
  let load_factor := 1 + pack_lb / 40 in
  PrimFloat.of_uint63 (Uint63.of_Z (duration_min * Z.max rpe 1)) * load_factor.

End Binary64.

(** ** A checker for bounded ranges of integers

    [all_range p lo f] tests [f] on the [p] integers from [lo] on;
    the calendar round trip below is checked with it on one 400-year
    cycle. *)

Fixpoint all_range (p : positive) (lo : Z) (f : Z -> bool) : bool :=
  match p with
  | xH => f lo
  | xO p' => all_range p' lo f && all_range p' (lo + Zpos p') f
  | xI p' =>
      all_range p' lo f && all_range p' (lo + Zpos p') f && f (lo + Zpos p'~0)
  end.

Definition cycle_day_ok (n : Z) : bool :=
  let '(y, m, d) := ord2ymd n in
  (1 <=? y) && (y <=? 400) && ((145731 <? n) || (y <=? 399)) &&
  (1 <=? m) && (m <=? 12) && (1 <=? d) && (d <=? days_in_month y m) &&
  (ymd2ord y m d =? n).

(** ** Vocabulary of the further properties *)

(** The rows of the week that starts on day [mon]. *)
Definition week_rows (db : table) (mon : Z) : table :=
  rows_between db mon (mon + 6).

(** The mean pack weight of some rows, 0 when there is none. *)
Definition mean_pack (rows : table) : Q :=
  match rows with
  | [] => 0%Q
  | _ :: _ =>
      (py_sum (map Workout.pack_lb rows) / inject_Z (Z.of_nat (length rows)))%Q
  end.

(** The aggregates of some rows, in the order of the table. *)
Definition total_vert (rows : table) : Q := py_sum (map Workout.vertical_ft rows).
Definition total_stress (rows : table) : Q := py_sum (map Workout.session_stress rows).


(** The field invariants that [log_workout_submit] checks before a row
    is stored. *)
Definition row_ok (w : Workout.t) : Prop :=
  In (Workout.type w) ["incline"; "flat"; "strength"; "recovery"]%string /\
  0 < Workout.duration_min w /\
  1 <= Workout.rpe w <= 10 /\
  (0 <= Workout.distance_mi w)%Q /\ (0 <= Workout.incline_pct w)%Q /\
  (0 <= Workout.pack_lb w)%Q.

Definition table_ok (db : table) : Prop := Forall row_ok db.

(** The date of a day count of the supported range. *)
Definition date_of (n : Z) : date :=
  match fromordinal n with
  | Ok d => d
  | Raise _ => mkdate 1 1 1
  end.

(** The snapshot of the week that starts on day [mon], as the series
    reports it. *)
Definition week_label (mon : Z) : string := strftime_b_d (date_of mon).
(** [int(x)] on a float: truncation toward zero. *)
Definition py_int (x : Q) : Z :=
  if Qle_bool 0 x then Qfloor x else Qceiling x.

(** ** Binary64 arithmetic

    Python's [float] is IEEE 754 double precision.  A number of that
    format is a rational, or one of the two infinities, or not a number;
    every operation returns the exact result rounded to the nearest
    number of the format, ties to the even significand.  The two zeros
    are not told apart: no operation of the engine depends on the sign
    of a zero. *)

Module F64.

Inductive t : Type :=
| Fin (q : Q)
| PInf
| NInf
| NaN.

Local Open Scope Q_scope.

(** [2 ^ e], for every integer [e]. *)
Definition pow2 (e : Z) : Q := 2 ^ e.

(** The exponent of the binade of [x]: [2 ^ ilog2 x <= |x| < 2 ^ (ilog2 x + 1)]
    for [x] other than 0. *)
Definition ilog2 (x : Q) : Z :=
  let a := Z.abs (Qnum x) in
  if (a =? 0)%Z then 0%Z
  else
    let k := (Z.log2 a - Z.log2 (Zpos (Qden x)))%Z in
    if Qle_bool (pow2 k) (Qabs x) then k else (k - 1)%Z.

(** The exponent of the unit in the last place: 53 significant bits,
    and no exponent below that of the subnormal numbers. *)
Definition ulp_exp (x : Q) : Z := Z.max (ilog2 x - 52) (-1074).

(** [x] rounded to the nearest multiple of [2 ^ e], ties to even. *)
Definition round_to (e : Z) (x : Q) : Q :=
  inject_Z (py_round (x / pow2 e)) * pow2 e.

(** The nearest number with 53 significant bits, whatever its size. *)
Definition nearest (x : Q) : Q := round_to (ulp_exp x) x.

(** Rounding to the format; what reaches [2 ^ 1024] overflows. *)
Definition rnd (x : Q) : t :=
  let y := nearest x in
  if Qle_bool (pow2 1024) y then PInf
  else if Qle_bool y (- pow2 1024) then NInf
  else Fin (Qred y).

Definition of_Q (x : Q) : t := rnd x.

Definition is_zero (x : t) : bool :=
  match x with
  | Fin q => Qeq_bool q 0
  | _ => false
  end.

(** The sign of a number other than zero and NaN: [true] when negative. *)
Definition negative (x : t) : bool :=
  match x with
  | Fin q => negb (Qle_bool 0 q)
  | NInf => true
  | _ => false
  end.

Definition inf (neg : bool) : t := if neg then NInf else PInf.

Definition add (x y : t) : t :=
  match x, y with
  | NaN, _ | _, NaN => NaN
  | PInf, NInf | NInf, PInf => NaN
  | PInf, _ | _, PInf => PInf
  | NInf, _ | _, NInf => NInf
  | Fin a, Fin b => rnd (a + b)
  end.

Definition opp (x : t) : t :=
  match x with
  | Fin a => Fin (- a)
  | PInf => NInf
  | NInf => PInf
  | NaN => NaN
  end.

Definition sub (x y : t) : t := add x (opp y).

Definition mul (x y : t) : t :=
  match x, y with
  | NaN, _ | _, NaN => NaN
  | Fin a, Fin b => rnd (a * b)
  | _, _ =>
      if is_zero x || is_zero y then NaN
      else inf (xorb (negative x) (negative y))
  end.

(** The quotient of two numbers, the divisor not being zero. *)
Definition quot (x y : t) : t :=
  match x, y with
  | NaN, _ | _, NaN => NaN
  | Fin a, Fin b => rnd (a / b)
  | Fin _, _ => Fin 0
  | _, Fin _ => inf (xorb (negative x) (negative y))
  | _, _ => NaN
  end.

(** [x < y] and [x <= y]; every comparison with NaN is false. *)
Definition ltb (x y : t) : bool :=
  match x, y with
  | NaN, _ | _, NaN => false
  | _, NInf => false
  | NInf, _ => true
  | PInf, _ => false
  | _, PInf => true
  | Fin a, Fin b => negb (Qle_bool b a)
  end.

Definition leb (x y : t) : bool :=
  match x, y with
  | NaN, _ | _, NaN => false
  | NInf, _ => true
  | _, NInf => false
  | _, PInf => true
  | PInf, _ => false
  | Fin a, Fin b => Qle_bool a b
  end.

End F64.

(** ** The engine in binary64

    The functions of [app.py] that compute with floats, over the numbers
    of [F64].  The [Workout] table is the one above: a field of type [Q]
    holds the number that was entered, and the engine reads the float
    nearest to it, which is what the store keeps. *)

Module Engine64.

Import F64.

(** [x / y] on floats *)
Definition truediv (x y : F64.t) : result F64.t :=
  if is_zero y then Raise ZeroDivisionError else Ok (quot x y).

(** The conversion of an [int] that meets a float in an operation. *)
Definition of_int (n : Z) : result F64.t :=
  match rnd (inject_Z n) with
  | Fin q => Ok (Fin q)
  | _ => Raise OverflowError
  end.

(** [round(x)]: infinities and NaN have no nearest integer. *)
Definition round (x : F64.t) : result Z :=
  match x with
  | Fin q => Ok (py_round q)
  | NaN => Raise ValueError
  | _ => Raise OverflowError
  end.

(** [round(x, 1)]: the decimal with one digit after the point nearest
    to [x], ties to the even digit, then the float nearest to that
    decimal; infinities and NaN are returned as they are. *)
Definition round1 (x : F64.t) : F64.t :=
  match x with
  | Fin q => rnd (inject_Z (py_round (q * 10)) / 10)
  | _ => x
  end.

(** [int(x)]: towards zero. *)
Definition int (x : F64.t) : result Z :=
  match x with
  | Fin q => Ok (py_int q)
  | NaN => Raise ValueError
  | _ => Raise OverflowError
  end.

(** [sum(xs)]: a left fold from 0, one rounding per addition. *)
Definition sum (xs : list F64.t) : F64.t := fold_left add xs (Fin 0).

(** [a / b] on two [int]: the quotient rounded once. *)
Definition int_truediv (a b : Z) : result F64.t :=
  if (b =? 0)%Z then Raise ZeroDivisionError
  else
    match rnd (inject_Z a / inject_Z b) with
    | Fin q => Ok (Fin q)
    | _ => Raise OverflowError
    end.

(** Running [f] over a list, up to the first exception. *)
Fixpoint mapM {A B : Type} (f : A -> result B) (l : list A) : result (list B) :=
  match l with
  | [] => Ok []
  | a :: l' =>
      let* b := f a in
      let* bs := mapM f l' in
      Ok (b :: bs)
  end.

(** *** The [Workout] methods *)

Definition vertical_ft (self : Workout.t) : F64.t :=
  mul (mul (of_Q (Workout.distance_mi self)) (of_Q 5280))
      (quot (of_Q (Workout.incline_pct self)) (of_Q 100)).

Definition load_score (self : Workout.t) : F64.t :=
  let v := vertical_ft self in
  mul v (add (of_Q 1) (quot (of_Q (Workout.pack_lb self)) (of_Q 50))).

Definition session_stress (self : Workout.t) : result F64.t :=
  let load_factor := add (of_Q 1) (quot (of_Q (Workout.pack_lb self)) (of_Q 40)) in
  let* n := of_int (Workout.duration_min self * Z.max (Workout.rpe self) 1) in
  Ok (mul n load_factor).

(** *** Weekly aggregation *)

Record WeekMetrics : Type := mkWeekMetrics {
  vert : F64.t;
  stress : F64.t;
  avg_pack : F64.t;
  max_long : Z;
  count : F64.t;
  missed : F64.t
}.

Definition sum_week_metrics (db : table) (start end_ : date) : result WeekMetrics :=
  let rows :=
    order_by_date
      (List.filter
         (fun w => PyDate.leb start (Workout.session_date w) &&
                   PyDate.ltb (Workout.session_date w) end_) db) in
  let vert := sum (map vertical_ft rows) in
  let* stresses := mapM session_stress rows in
  let stress := sum stresses in
  let* avg_pack :=
    match rows with
    | [] => Ok (Fin 0)
    | _ :: _ =>
        let* n := of_int (Z.of_nat (length rows)) in
        truediv (sum (map (fun w => of_Q (Workout.pack_lb w)) rows)) n
    end in
  let max_long := py_max_default (map Workout.duration_min rows) 0 in
  let missed := 0%Z in
  let* count := of_int (Z.of_nat (length rows)) in
  let* missed := of_int missed in
  Ok {| vert := vert;
        stress := stress;
        avg_pack := avg_pack;
        max_long := max_long;
        count := count;
        missed := missed |}.

(** *** Rolling series *)

Record Series : Type := mkSeries {
  weeks : list string;
  verts : list Z;
  packs : list F64.t;
  stresses : list F64.t
}.

Fixpoint series_loop (db : table) (start_this_week : date) (offs : list Z)
    (acc : Series) : result Series :=
  match offs with
  | [] => Ok acc
  | i :: offs' =>
      let* ws := sub_days start_this_week (7 * i) in
      let* we := add_days ws 7 in
      let* m := sum_week_metrics db ws we in
      let* v := round (vert m) in
      series_loop db start_this_week offs'
        {| weeks := weeks acc ++ [strftime_b_d ws];
           verts := verts acc ++ [v];
           packs := packs acc ++ [round1 (avg_pack m)];
           stresses := stresses acc ++ [round1 (stress m)] |}
  end.

Definition last_n_weeks_series (db : table) (now : date) (n : Z) : result Series :=
  let today := now in
  let* (start_this_week, _) := week_range today in
  series_loop db start_this_week (range_down n) (mkSeries [] [] [] []).

(** *** Risk flags *)

(** [func.avg(col)]: SQLite divides the sum by the number of rows in
    double precision; the sum of the column and the number of rows are
    exact there, being integers below [2 ^ 53]. *)
Definition sql_avg (xs : list Z) : option F64.t :=
  match xs with
  | [] => None
  | _ :: _ => Some (rnd (inject_Z (py_sumZ xs) / inject_Z (Z.of_nat (length xs))))
  end.

Definition risk_flags (db : table) (today : date) : result (gmap string string) :=
  let* (this_ws, this_we) := week_range today in
  let* prev_ws := sub_days this_ws 7 in
  let* prev_we := sub_days this_we 7 in

  let* this := sum_week_metrics db this_ws this_we in
  let* prev := sum_week_metrics db prev_ws prev_we in

  let flags : gmap string string := ∅ in

  let flags :=
    flag_if (ltb (Fin 0) (vert prev) &&
             ltb (mul (vert prev) (of_Q (125 # 100))) (vert this))
      "overuse_vertical" "Vertical increased >25% week-over-week." flags in

  let flags :=
    flag_if (ltb (of_Q 5) (sub (avg_pack this) (avg_pack prev)))
      "overuse_pack" "Average pack increased >5 lb week-over-week." flags in

  let* seven_days_ago := sub_days today 7 in
  let rpe_avg :=
    sql_avg
      (map Workout.rpe
         (List.filter
            (fun w => PyDate.leb seven_days_ago (Workout.session_date w) &&
                      PyDate.leb (Workout.session_date w) today) db)) in
  let flags :=
    flag_if (match rpe_avg with Some avg => leb (of_Q 7) avg | None => false end)
      "overuse_rpe" "Average RPE ≥7 over the last 7 days." flags in

  let* tgt := phase_for today in
  let* this_ratio :=
    if negb (vert_min tgt =? 0)%Z
    then let* d := of_int (Z.max (vert_min tgt) 1) in truediv (vert this) d
    else Ok (Fin 0) in
  let* prev_ratio :=
    if negb (vert_min tgt =? 0)%Z
    then let* d := of_int (Z.max (vert_min tgt) 1) in truediv (vert prev) d
    else Ok (Fin 0) in
  let flags :=
    flag_if (ltb this_ratio (of_Q (7 # 10)) && ltb prev_ratio (of_Q (7 # 10)))
      "undertraining" "You hit <70% of weekly vertical target for 2 weeks." flags in

  let* fourteen_days_ago := sub_days today 14 in
  let recent_notes :=
    omap Workout.notes
      (List.filter
         (fun w => PyDate.leb fourteen_days_ago (Workout.session_date w)) db) in
  let flags :=
    flag_if (existsb note_hits recent_notes)
      "injury_signal" "Notes mention possible injury signals in the last 14 days."
      flags in

  Ok flags.

(** *** Readiness score *)

(** Lines 197-206 of [readiness_score]. *)
Definition readiness_blend (tgt : PhaseTargets)
    (four_week_avg_vert four_week_avg_pack : F64.t) (max_long : Z) : result Z :=
  let peak_target :=
    if negb (String.eqb (name tgt) "Peak") then of_Q 9000 else of_Q 9000 in
  let goal_pack := of_Q 30 in
  let* tv := truediv four_week_avg_vert peak_target in
  let* tp := truediv four_week_avg_pack goal_pack in
  let* ml := of_int max_long in
  let* tl := truediv ml (of_Q 90) in
  let s :=
    add (add (mul tv (of_Q (4 # 10))) (mul tp (of_Q (3 # 10))))
        (mul tl (of_Q (3 # 10))) in
  let* r := round (mul s (of_Q 100)) in
  Ok (Z.max 0 (Z.min 100 r)).


Definition readiness_score (db : table) (now today : date) : result Z :=
  let* series := last_n_weeks_series db now 4 in
  let verts := verts series in
  let packs := packs series in

  let* four_week_avg_vert :=
    int_truediv (py_sumZ verts) (Z.max (Z.of_nat (length verts)) 1) in
  let* four_week_avg_pack :=
    (let* n := of_int (Z.max (Z.of_nat (length packs)) 1) in
     truediv (sum packs) n) in

  let* (start_this_week, _) := week_range today in
  let* start_4 := sub_days start_this_week 28 in
  let max_long :=
    match
      sql_max
        (map Workout.duration_min
           (List.filter
              (fun w => PyDate.leb start_4 (Workout.session_date w) &&
                        PyDate.leb (Workout.session_date w) today) db))
    with
    | Some x => if (x =? 0)%Z then 0%Z else x
    | None => 0%Z
    end in

  let* tgt := phase_for today in
  readiness_blend tgt four_week_avg_vert four_week_avg_pack max_long.

(** *** The dashboard *)

(** The values handed to the template [dashboard.html]. *)
Record Dashboard : Type := mkDashboard {
  today : date;
  week_start : date;
  week_end : date;
  metrics : WeekMetrics;
  target : PhaseTargets;
  flags : gmap string string;
  readiness : Z;
  weekly_progress : Z;
  series : Series
}.

(** [now], [now_score] and [now_series] are the three readings of
    [date.today()]: in [dashboard] itself, in the series of
    [readiness_score] and in the series of twelve weeks. *)
Definition dashboard (db : table) (now now_score now_series : date)
    : result Dashboard :=
  let today := now in
  let* (ws, we) := week_range today in
  let* metrics := sum_week_metrics db ws we in
  let* tgt := phase_for today in
  let* flags := risk_flags db today in
  let* score := readiness_score db now_score today in
  let* series := last_n_weeks_series db now_series 12 in

  let target_mid := ((vert_min tgt + vert_max tgt) / 2)%Z in
  let* weekly_progress :=
    if (target_mid =? 0)%Z then Ok 0%Z
    else
      let* d := of_int target_mid in
      let* r := truediv (vert metrics) d in
      let* p := int (mul r (of_Q 100)) in
      Ok (Z.min 100 p) in

  let* week_end := sub_days we 1 in
  Ok (mkDashboard today ws week_end metrics tgt flags score weekly_progress
        series).

End Engine64.

(** The float that [readiness_blend] rounds: the blend times 100. *)
Definition raw_blend (v p ml : F64.t) : F64.t :=
  let tv := F64.quot v (F64.Fin 9000) in
  let tp := F64.quot p (F64.Fin 30) in
  let tl := F64.quot ml (F64.Fin 90) in
  F64.mul
    (F64.add
       (F64.add (F64.mul tv (F64.of_Q (4 # 10))) (F64.mul tp (F64.of_Q (3 # 10))))
       (F64.mul tl (F64.of_Q (3 # 10))))
    (F64.Fin 100).

(** A finite float between 0 and [2 ^ k]. *)
Definition within (k : Z) (x : F64.t) : Prop :=
  exists q, x = F64.Fin q /\ (0 <= q <= F64.pow2 k)%Q.

(** Two floats in order, or one of them NaN: the relation operations
    on floats keep from their arguments to their results. *)
Definition nan_or_le (x y : F64.t) : Prop :=
  x = F64.NaN \/ y = F64.NaN \/ F64.leb x y = true.


(** ** Vocabulary of the properties in binary64 *)

(** The integers that a column of SQLite holds: 64 bits, signed. *)
Definition sqlite_integer (n : Z) : bool := (- 2 ^ 63 <=? n) && (n <? 2 ^ 63).

(** A row as the store holds it: it passed the checks of
    [log_workout_submit] and its duration fits its column. *)
Definition row_stored (w : Workout.t) : Prop :=
  row_ok w /\ sqlite_integer (Workout.duration_min w) = true.

(** A table of such rows, fewer than [2 ^ 53] of them. *)
Definition table_stored (db : table) : Prop :=
  Forall row_stored db /\ Z.of_nat (length db) < 2 ^ 53.

(** A row whose distance, incline and pack weight are at most [2 ^ 300]. *)
Definition row_moderate (w : Workout.t) : Prop :=
  (Workout.distance_mi w <= F64.pow2 300 /\
   Workout.incline_pct w <= F64.pow2 300 /\
   Workout.pack_lb w <= F64.pow2 300)%Q.

(** The rows of the week that starts on day [mon], ordered by date as
    [sum_week_metrics] reads them. *)
Definition week_rows_by_date (db : table) (mon : Z) : table :=
  order_by_date (week_rows db mon).

(** The stress of a stored row: the conversion of its integer factor
    cannot overflow. *)
Definition stress64 (w : Workout.t) : F64.t :=
  F64.mul
    (F64.rnd (inject_Z (Workout.duration_min w * Z.max (Workout.rpe w) 1)))
    (F64.add (F64.of_Q 1) (F64.quot (F64.of_Q (Workout.pack_lb w)) (F64.of_Q 40))).

(** The aggregates of some rows, summed in their order. *)
Definition total_vert64 (rows : table) : F64.t :=
  Engine64.sum (map Engine64.vertical_ft rows).

Definition total_stress64 (rows : table) : F64.t :=
  Engine64.sum (map stress64 rows).

Definition mean_pack64 (rows : table) : F64.t :=
  match rows with
  | [] => F64.Fin 0
  | _ :: _ =>
      F64.quot (Engine64.sum (map (fun w => F64.of_Q (Workout.pack_lb w)) rows))
               (F64.rnd (inject_Z (Z.of_nat (length rows))))
  end.

(** The number a finite float stands for. *)
Definition value (x : F64.t) : Q :=
  match x with
  | F64.Fin q => q
  | _ => 0%Q
  end.

Definition finite (x : F64.t) : Prop := exists q, x = F64.Fin q.

(** The snapshot of the week that starts on day [mon], as the series
    reports it when the vertical of the week is finite. *)
Definition week_vert64 (db : table) (mon : Z) : Z :=
  py_round (value (total_vert64 (week_rows_by_date db mon))).
Definition week_pack64 (db : table) (mon : Z) : F64.t :=
  Engine64.round1 (mean_pack64 (week_rows_by_date db mon)).
Definition week_stress64 (db : table) (mon : Z) : F64.t :=
  Engine64.round1 (total_stress64 (week_rows_by_date db mon)).

(** The number of [F64] that a primitive float of the prover stands for. *)
Definition of_float (f : float) : F64.t :=
  match Prim2SF f with
  | S754_zero _ => F64.Fin 0
  | S754_infinity s => if s then F64.NInf else F64.PInf
  | S754_nan => F64.NaN
  | S754_finite s m e =>
      F64.Fin (Qred ((if s then - inject_Z (Zpos m) else inject_Z (Zpos m)) *
                     F64.pow2 e))
  end.

(** ** Logging, deleting and listing workouts *)

(** A response of a view: a redirect to an endpoint after a flashed
    message (text and category), with the table as the request leaves
    it, or the 404 of [get_or_404]. *)
Inductive response : Type :=
| Redirect (db' : table) (flashed : string * string) (endpoint : string)
| NotFound.

(** Raising with the text of the exception, as [except Exception as e]
    sees it. *)
Definition try_bind {A B : Type} (m : string + A) (k : A -> string + B)
    : string + B :=
  match m with
  | inl e => inl e
  | inr a => k a
  end.

Notation "'let+' x ':=' m 'in' k" := (try_bind m (fun x => k))
  (at level 10, x pattern, m at level 100, k at level 200).

(** White space in the sense of [str.strip()], among ASCII characters:
    tab to carriage return, the four separators 28 to 31, and space. *)
Definition is_space (c : ascii) : bool :=
  let n := nat_of_ascii c in
  ((9 <=? n)%nat && (n <=? 13)%nat) || ((28 <=? n)%nat && (n <=? 32)%nat).

Fixpoint lstrip (s : string) : string :=
  match s with
  | EmptyString => EmptyString
  | String c s' => if is_space c then lstrip s' else s
  end.

Fixpoint rstrip (s : string) : string :=
  match s with
  | EmptyString => EmptyString
  | String c s' =>
      match rstrip s' with
      | EmptyString => if is_space c then EmptyString else String c EmptyString
      | r => String c r
      end
  end.

(** [s.strip()] *)
Definition strip (s : string) : string := rstrip (lstrip s).

(** The primary key that the store gives to a new row: one more than
    the largest key in use. *)
Definition next_id (db : table) : Z :=
  1 + fold_right Z.max 0 (map Workout.id db).

Section Requests.

(** The parsers of the standard library, each returning the value or
    the text of the exception it raises:
    [datetime.strptime(s, "%Y-%m-%d").date()], [int(s)], [float(s)]
    (a finite value: NaN and the infinities have no counterpart among
    the rationals); and the text of the error raised by
    [request.form[k]] on a missing field. *)
Variable strptime_date : string -> string + date.
Variable int_of_str : string -> string + Z.
Variable float_of_str : string -> string + Q.
Variable missing_field : string -> string.

(** The text of the exception that [db.session.commit()] raises on a row
    that the store refuses. *)
Variable store_error : Workout.t -> string.

(** [request.form[k]] *)
Definition form_item (form : gmap string string) (k : string) : string + string :=
  match form !! k with
  | Some v => inr v
  | None => inl (missing_field k)
  end.

(** [float(request.form.get(k, 0) or 0)] *)
Definition form_float (form : gmap string string) (k : string) : string + Q :=
  match form !! k with
  | Some v => if String.eqb v "" then inr 0%Q else float_of_str v
  | None => inr 0%Q
  end.

(** [int(request.form.get(k, dflt) or dflt)] *)
Definition form_int_or (form : gmap string string) (k : string) (dflt : Z)
    : string + Z :=
  match form !! k with
  | Some v => if String.eqb v "" then inr dflt else int_of_str v
  | None => inr dflt
  end.

(** [request.form.get("notes", "").strip() or None] *)
Definition form_notes (form : gmap string string) : option string :=
  let s := strip (default ""%string (form !! "notes"%string)) in
  if String.eqb s "" then None else Some s.

(** The body of the [try] block of [log_workout_submit], up to the row
    to store. *)
Definition parse_workout (form : gmap string string) (new_id : Z)
    : string + Workout.t :=
  let+ session_date :=
    (let+ s := form_item form "session_date" in strptime_date s) in
  let+ wtype := form_item form "type" in
  let+ duration_min :=
    (let+ s := form_item form "duration_min" in int_of_str s) in
  let+ distance_mi := form_float form "distance_mi" in
  let+ incline_pct := form_float form "incline_pct" in
  let+ pack_lb := form_float form "pack_lb" in
  let+ rpe := form_int_or form "rpe" 5 in
  let notes := form_notes form in

  if negb (existsb (String.eqb wtype) ["incline"; "flat"; "strength"; "recovery"]%string)
  then inl "Invalid workout type."%string
  else if duration_min <=? 0
  then inl "Duration must be > 0."%string
  else if negb ((1 <=? rpe) && (rpe <=? 10))
  then inl "RPE must be 1-10."%string
  else if Qltb distance_mi 0 || Qltb incline_pct 0 || Qltb pack_lb 0
  then inl "Distance, incline, and pack must be ≥ 0."%string
  else
    inr (Workout.mk new_id session_date wtype duration_min distance_mi
           incline_pct pack_lb rpe notes).

(** [db.session.add(w); db.session.commit()]: the store takes the row
    when its integers fit their columns; otherwise the commit raises
    and the table stays as it was. *)
Definition commit_row (db : table) (w : Workout.t) : string + table :=
  if sqlite_integer (Workout.duration_min w) && sqlite_integer (Workout.rpe w)
  then inr (db ++ [w])
  else inl (store_error w).

Definition log_workout_submit (db : table) (form : gmap string string) : response :=
  match (let+ w := parse_workout form (next_id db) in commit_row db w) with
  | inr db' => Redirect db' ("Saved workout.", "success")%string "workouts"
  | inl e =>
      Redirect db (("Could not save workout: " ++ e)%string, "error"%string)
        "log_workout_form"
  end.

End Requests.

Definition delete_workout (db : table) (workout_id : Z) : response :=
  match List.find (fun w => Workout.id w =? workout_id) db with
  | None => NotFound
  | Some w =>
      Redirect (List.filter (fun r => negb (Workout.id r =? Workout.id w)) db)
        ("Deleted workout.", "success")%string "workouts"
  end.

(** [ORDER BY session_date DESC, id DESC]: [a] comes before [b]. *)
Definition newer (a b : Workout.t) : bool :=
  PyDate.ltb (Workout.session_date b) (Workout.session_date a) ||
  (PyDate.eqb (Workout.session_date a) (Workout.session_date b) &&
   (Workout.id b <? Workout.id a)).

Fixpoint insert_newest (w : Workout.t) (rows : table) : table :=
  match rows with
  | [] => [w]
  | r :: rows' =>
      if newer r w then r :: insert_newest w rows' else w :: r :: rows'
  end.

Definition order_by_newest (rows : table) : table :=
  fold_right insert_newest [] rows.

(** The rows that [workouts] hands to its template. *)
Definition workouts (db : table) : table := firstn 200 (order_by_newest db).

(** A stored note is trimmed: it neither starts nor ends with white
    space. *)
Definition trimmed (n : string) : Prop :=
  (forall c s, n = String c s -> is_space c = false) /\
  (forall r c, n = (r ++ String c "")%string -> is_space c = false).

Definition ids (db : table) : list Z := map Workout.id db.

(** [a] is not older than [b] in the order of the list of workouts: its
    date is not earlier, and on the same date its key is not smaller. *)
Definition not_older (a b : Workout.t) : Prop :=
  PyDate.leb (Workout.session_date b) (Workout.session_date a) = true /\
  (Workout.session_date a = Workout.session_date b ->
   Workout.id b <= Workout.id a).

(** Stand-ins for the parsers on the sample forms of the examples: they
    accept the one literal each that the examples submit. *)
Definition sample_strptime (s : string) : string + date :=
  if String.eqb s "2025-11-04" then inr (mkdate 2025 11 4)
  else inl "time data does not match format '%Y-%m-%d'"%string.

Definition sample_int (s : string) : string + Z :=
  if String.eqb s "90" then inr 90
  else if String.eqb s "7" then inr 7
  else inl "invalid literal for int() with base 10"%string.

Definition sample_float (s : string) : string + Q :=
  if String.eqb s "3.0" then inr 3%Q
  else if String.eqb s "20" then inr 20%Q
  else if String.eqb s "25" then inr 25%Q
  else inl "could not convert string to float"%string.

Definition sample_missing (k : string) : string := "400 Bad Request"%string.

Definition sample_store_error (w : Workout.t) : string :=
  "Python int too large to convert to SQLite INTEGER"%string.

Definition sample_form : gmap string string :=
  <["session_date" := "2025-11-04"]>
  (<["type" := "incline"]>
  (<["duration_min" := "90"]>
  (<["distance_mi" := "3.0"]>
  (<["incline_pct" := "20"]>
  (<["pack_lb" := "25"]>
  (<["rpe" := "7"]>
  (<["notes" := "  felt strong  "]> ∅)))))))%string.

(** ** The settings page *)

(** [d.replace(day=k)] *)
Definition replace_day (d : date) (k : Z) : result date :=
  PyDate.new (year d) (month d) k.

(** [d + relativedelta(months=1)], after [dateutil]: the month is
    advanced with a carry into the year, the day is clipped to the
    length of the new month, the fields are replaced and a zero
    [timedelta] is added. *)
Definition add_month (d : date) : result date :=
  let month1 := month d + 1 in
  let '(y, m) := if 12 <? month1 then (year d + 1, month1 - 12)
                 else (year d, month1) in
  let day1 := Z.min (days_in_month y m) (day d) in
  let* r := PyDate.new y m day1 in
  add_days r 0.

(** The first day of the month [i] months after the month of [d]. *)
Definition month_after (d : date) (i : Z) : date :=
  mkdate (year d + (month d - 1 + i) / 12) ((month d - 1 + i) mod 12 + 1) 1.

(** The phase of a month of the year. *)
Definition phase_of_month (m : Z) : PhaseTargets :=
  if m <? 4 then base_targets
  else if m <? 6 then build_targets
  else if m <? 8 then peak_targets
  else taper_targets.

Section Settings.

(** [d.strftime("%b %Y")], as the C library renders it. *)
Variable strftime_b_Y : date -> string.

(** The loop of [settings], [n] rounds from the date [d]. *)
Fixpoint settings_loop (n : nat) (d : date)
    (phases : list (string * PhaseTargets))
    : result (list (string * PhaseTargets)) :=
  match n with
  | O => Ok phases
  | S n' =>
      let* p := phase_for d in
      let phases := phases ++ [(strftime_b_Y d, p)] in
      let* d1 := add_month d in
      let* d' := replace_day d1 1 in
      settings_loop n' d' phases
  end.

(** The list that [settings] hands to its template; [now] is the
    reading of [date.today()]. *)
Definition settings (now : date) : result (list (string * PhaseTargets)) :=
  let today := now in
  let* d := replace_day today 1 in
  settings_loop 7 d [].

End Settings.

(** * Properties *)

(** ** The result monad *)

Lemma rbind_ok {A B : Type} (m : result A) (k : A -> result B) (b : B) :
  rbind m k = Ok b <-> exists a, m = Ok a /\ k a = Ok b.
Proof.
  destruct m as [a|e]; simpl.
  - split; [intros H; exists a; auto | intros (a' & Ha & Hk); congruence].
  - split; [discriminate | intros (a' & Ha & _); discriminate].
Qed.

(** ** The calendar *)

Ltac bool_to_prop :=
  repeat first
    [ rewrite orb_true_iff | rewrite andb_true_iff | rewrite negb_true_iff
    | rewrite Z.ltb_lt | rewrite Z.leb_le | rewrite Z.eqb_eq ].

Lemma all_range_spec (f : Z -> bool) (p : positive) :
  forall lo, all_range p lo f = true ->
  forall z, lo <= z < lo + Zpos p -> f z = true.
Proof.
  induction p as [p IH | p IH |]; simpl; intros lo H z Hz.
  - apply andb_true_iff in H as [H H3]. apply andb_true_iff in H as [H1 H2].
    destruct (Z_lt_ge_dec z (lo + Zpos p)) as [Hlt | Hge].
    + apply (IH lo H1). lia.
    + destruct (Z.eq_dec z (lo + Zpos p~0)) as [-> | Hne]; [exact H3 |].
      apply (IH _ H2). lia.
  - apply andb_true_iff in H as [H1 H2].
    destruct (Z_lt_ge_dec z (lo + Zpos p)) as [Hlt | Hge].
    + apply (IH lo H1). lia.
    + apply (IH _ H2). lia.
  - replace z with lo by lia. exact H.
Qed.

Lemma cycle_checked : all_range 146097 1 cycle_day_ok = true.
Proof. vm_compute. reflexivity. Qed.

Lemma is_leap_shift (y q : Z) : is_leap (y + 400 * q) = is_leap y.
Proof.
  unfold is_leap.
  replace ((y + 400 * q) mod 4) with (y mod 4)
    by (replace (y + 400 * q) with (y + (100 * q) * 4) by lia;
        now rewrite Z_mod_plus_full).
  replace ((y + 400 * q) mod 100) with (y mod 100)
    by (replace (y + 400 * q) with (y + (4 * q) * 100) by lia;
        now rewrite Z_mod_plus_full).
  replace ((y + 400 * q) mod 400) with (y mod 400)
    by (replace (y + 400 * q) with (y + q * 400) by lia;
        now rewrite Z_mod_plus_full).
  reflexivity.
Qed.

Lemma days_before_year_shift (y q : Z) :
  days_before_year (y + 400 * q) = days_before_year y + 146097 * q.
Proof.
  unfold days_before_year; cbv zeta.
  replace ((y + 400 * q - 1) / 4) with ((y - 1) / 4 + 100 * q)
    by (replace (y + 400 * q - 1) with (y - 1 + (100 * q) * 4) by lia;
        now rewrite Z_div_plus_full).
  replace ((y + 400 * q - 1) / 100) with ((y - 1) / 100 + 4 * q)
    by (replace (y + 400 * q - 1) with (y - 1 + (4 * q) * 100) by lia;
        now rewrite Z_div_plus_full).
  replace ((y + 400 * q - 1) / 400) with ((y - 1) / 400 + q)
    by (replace (y + 400 * q - 1) with (y - 1 + q * 400) by lia;
        now rewrite Z_div_plus_full).
  lia.
Qed.

Lemma days_in_month_shift (y q m : Z) :
  days_in_month (y + 400 * q) m = days_in_month y m.
Proof. unfold days_in_month. now rewrite is_leap_shift. Qed.

Lemma ymd2ord_shift (y q m d : Z) :
  ymd2ord (y + 400 * q) m d = ymd2ord y m d + 146097 * q.
Proof.
  unfold ymd2ord, days_before_month.
  rewrite is_leap_shift, days_before_year_shift. lia.
Qed.

Lemma ord2ymd_shift (n q : Z) :
  ord2ymd (n + 146097 * q) =
  let '(y, m, d) := ord2ymd n in (y + 400 * q, m, d).
Proof.
  unfold ord2ymd; cbv zeta.
  replace (n + 146097 * q - 1) with (n - 1 + q * DI400Y) by (unfold DI400Y; lia).
  rewrite Z_div_plus_full, Z_mod_plus_full by (unfold DI400Y; lia).
  repeat match goal with
         | |- context [if ?c then _ else _] => destruct c
         end; f_equal; try f_equal; lia.
Qed.

(** Every ordinal of the supported range is the ordinal of the valid
    date that [fromordinal] builds for it. *)
Lemma fromordinal_cycle (r q : Z) :
  1 <= r < 1 + 146097 -> 0 <= q -> r + 146097 * q <= MAXORDINAL ->
  exists d, fromordinal (r + 146097 * q) = Ok d /\ valid d /\
            toordinal d = r + 146097 * q.
Proof.
  intros Hr Hq Hn. unfold MAXORDINAL in Hn.
  pose proof (all_range_spec cycle_day_ok _ _ cycle_checked r Hr) as Hc.
  unfold fromordinal. rewrite ord2ymd_shift.
  unfold cycle_day_ok in Hc. destruct (ord2ymd r) as [[y m] d].
  rewrite !andb_true_iff, orb_true_iff, !Z.leb_le, Z.ltb_lt, Z.eqb_eq in Hc.
  assert (Hv : check_date_fields (y + 400 * q) m d = true).
  { unfold check_date_fields, MINYEAR, MAXYEAR. rewrite days_in_month_shift.
    rewrite !andb_true_iff, !Z.leb_le. lia. }
  unfold new. rewrite Hv.
  eexists; split; [reflexivity |]. split; [exact Hv |].
  unfold toordinal; simpl. rewrite ymd2ord_shift. lia.
Qed.

Lemma fromordinal_ok (n : Z) :
  1 <= n <= MAXORDINAL ->
  exists d, fromordinal n = Ok d /\ valid d /\ toordinal d = n.
Proof.
  intros Hn.
  assert (Hnr : n = ((n - 1) mod 146097 + 1) + 146097 * ((n - 1) / 146097))
    by (Z.div_mod_to_equations; lia).
  rewrite Hnr. apply fromordinal_cycle.
  - Z.div_mod_to_equations; lia.
  - Z.div_mod_to_equations; lia.
  - rewrite <- Hnr. lia.
Qed.

Lemma days_before_year_succ (y : Z) :
  days_before_year (y + 1) =
  days_before_year y + 365 + (if is_leap y then 1 else 0).
Proof.
  unfold days_before_year, is_leap; cbv zeta.
  replace (y + 1 - 1) with y by lia.
  destruct (Z.eqb_spec (y mod 4) 0), (Z.eqb_spec (y mod 100) 0),
    (Z.eqb_spec (y mod 400) 0); simpl; Z.div_mod_to_equations; lia.
Qed.

Lemma days_before_year_mono (y k : Z) :
  0 <= k -> days_before_year y + 365 * k <= days_before_year (y + k).
Proof.
  intros Hk. pattern k. apply natlike_ind; [| | exact Hk].
  - replace (y + 0) with y by lia. lia.
  - intros j Hj IH. replace (y + Z.succ j) with (y + j + 1) by lia.
    rewrite days_before_year_succ. destruct (is_leap (y + j)); lia.
Qed.

Lemma month_cases (m : Z) :
  1 <= m <= 12 ->
  m = 1 \/ m = 2 \/ m = 3 \/ m = 4 \/ m = 5 \/ m = 6 \/
  m = 7 \/ m = 8 \/ m = 9 \/ m = 10 \/ m = 11 \/ m = 12.
Proof. lia. Qed.

Lemma valid_fields (d : date) :
  valid d <->
  1 <= year d <= 9999 /\ 1 <= month d <= 12 /\
  1 <= day d <= days_in_month (year d) (month d).
Proof.
  unfold valid, check_date_fields, MINYEAR, MAXYEAR.
  rewrite !andb_true_iff, !Z.leb_le. tauto.
Qed.

(** Within a year: the day of the year lies between 1 and the length of
    the year, and a later month starts after every day of an earlier one. *)
Lemma day_of_year_bounds (y m d : Z) :
  1 <= m <= 12 -> 1 <= d <= days_in_month y m ->
  1 <= days_before_month y m + d <= 365 + (if is_leap y then 1 else 0).
Proof.
  intros Hm Hd. unfold days_before_month, days_in_month in *.
  destruct (is_leap y);
    destruct (month_cases m Hm) as [-> | [-> | [-> | [-> | [-> | [-> |
      [-> | [-> | [-> | [-> | [-> | ->]]]]]]]]]]]; simpl in *; lia.
Qed.

Lemma month_before (y m m' d : Z) :
  1 <= m -> m < m' -> m' <= 12 -> d <= days_in_month y m ->
  days_before_month y m + d <= days_before_month y m'.
Proof.
  intros H1 Hlt H12 Hd. unfold days_before_month, days_in_month in *.
  assert (Hm : 1 <= m <= 12) by lia. assert (Hm' : 1 <= m' <= 12) by lia.
  destruct (is_leap y);
    destruct (month_cases m Hm) as [-> | [-> | [-> | [-> | [-> | [-> |
      [-> | [-> | [-> | [-> | [-> | ->]]]]]]]]]]];
    destruct (month_cases m' Hm') as [-> | [-> | [-> | [-> | [-> | [-> |
      [-> | [-> | [-> | [-> | [-> | ->]]]]]]]]]]]; simpl in *; lia.
Qed.

(** The order of dates is the order of their ordinals. *)
Lemma toordinal_lt (a b : date) :
  valid a -> valid b -> PyDate.ltb a b = true -> toordinal a < toordinal b.
Proof.
  intros Ha Hb. apply valid_fields in Ha as (Hya & Hma & Hda).
  apply valid_fields in Hb as (Hyb & Hmb & Hdb).
  unfold PyDate.ltb, toordinal, ymd2ord. bool_to_prop.
  pose proof (day_of_year_bounds _ _ _ Hma Hda) as Ba.
  pose proof (day_of_year_bounds _ _ _ Hmb Hdb) as Bb.
  intros [Hy | [Hy [Hm | [Hm Hd]]]].
  - pose proof (days_before_year_succ (year a)) as Hs.
    pose proof (days_before_year_mono (year a + 1) (year b - (year a + 1))) as Hmono.
    replace (year a + 1 + (year b - (year a + 1))) with (year b) in Hmono by lia.
    lia.
  - rewrite Hy in *.
    pose proof (month_before (year b) (month a) (month b) (day a)). lia.
  - rewrite Hy, Hm. lia.
Qed.

Lemma ltb_cases (a b : date) :
  PyDate.ltb a b = true \/ a = b \/ PyDate.ltb b a = true.
Proof.
  destruct a as [ya ma da], b as [yb mb db]. unfold PyDate.ltb; simpl.
  bool_to_prop.
  destruct (Z.lt_trichotomy ya yb) as [? | [-> | ?]]; [tauto | | tauto].
  destruct (Z.lt_trichotomy ma mb) as [? | [-> | ?]]; [tauto | | tauto].
  destruct (Z.lt_trichotomy da db) as [? | [-> | ?]]; tauto.
Qed.

Lemma ltb_iff (a b : date) :
  valid a -> valid b ->
  (PyDate.ltb a b = true <-> toordinal a < toordinal b).
Proof.
  intros Ha Hb. split; [now apply toordinal_lt |].
  intros Hlt. destruct (ltb_cases a b) as [H | [-> | H]]; [exact H | lia |].
  apply toordinal_lt in H; [lia | assumption | assumption].
Qed.

Lemma eqb_eq (a b : date) : PyDate.eqb a b = true <-> a = b.
Proof.
  destruct a, b. unfold PyDate.eqb; simpl.
  rewrite !andb_true_iff, !Z.eqb_eq.
  split; [intros [[-> ->] ->]; reflexivity | intros [= -> -> ->]; auto].
Qed.

Lemma toordinal_inj (a b : date) :
  valid a -> valid b -> toordinal a = toordinal b -> a = b.
Proof.
  intros Ha Hb Heq. destruct (ltb_cases a b) as [H | [-> | H]]; [| reflexivity |];
    apply toordinal_lt in H; auto; lia.
Qed.

Lemma leb_iff (a b : date) :
  valid a -> valid b ->
  (PyDate.leb a b = true <-> toordinal a <= toordinal b).
Proof.
  intros Ha Hb. unfold PyDate.leb.
  rewrite orb_true_iff, (ltb_iff a b Ha Hb), eqb_eq. split.
  - intros [H | ->]; lia.
  - intros H. destruct (Z.eq_dec (toordinal a) (toordinal b)) as [He | Hne];
      [right; now apply toordinal_inj | left; lia].
Qed.

Lemma toordinal_range (d : date) : valid d -> 1 <= toordinal d <= MAXORDINAL.
Proof.
  intros Hv. apply valid_fields in Hv as (Hy & Hm & Hd).
  pose proof (day_of_year_bounds _ _ _ Hm Hd) as B.
  pose proof (days_before_year_succ (year d)) as Hs.
  pose proof (days_before_year_mono 1 (year d - 1)) as Hlo.
  pose proof (days_before_year_mono (year d + 1) (9999 - year d)) as Hhi.
  replace (1 + (year d - 1)) with (year d) in Hlo by lia.
  replace (year d + 1 + (9999 - year d)) with 10000 in Hhi by lia.
  change (days_before_year 1) with 0 in Hlo.
  change (days_before_year 10000) with 3652059 in Hhi.
  unfold toordinal, ymd2ord, MAXORDINAL. lia.
Qed.

(** Date arithmetic: inside the supported range the sum is the date of
    the shifted ordinal, outside of it the operation raises. *)
Lemma add_days_ok (d : date) (k : Z) :
  1 <= toordinal d + k <= MAXORDINAL ->
  exists d', add_days d k = Ok d' /\ valid d' /\ toordinal d' = toordinal d + k.
Proof.
  intros H. unfold add_days; cbv zeta.
  replace (0 <? toordinal d + k) with true by (symmetry; apply Z.ltb_lt; lia).
  replace (toordinal d + k <=? MAXORDINAL) with true
    by (symmetry; apply Z.leb_le; lia).
  simpl. now apply fromordinal_ok.
Qed.

Lemma add_days_overflow (d : date) (k : Z) :
  ~ 1 <= toordinal d + k <= MAXORDINAL -> add_days d k = Raise OverflowError.
Proof.
  intros H. unfold add_days; cbv zeta.
  destruct (Z.ltb_spec 0 (toordinal d + k)); simpl; [| reflexivity].
  destruct (Z.leb_spec (toordinal d + k) MAXORDINAL); simpl; [lia | reflexivity].
Qed.

Lemma sub_days_ok (d : date) (k : Z) :
  1 <= toordinal d - k <= MAXORDINAL ->
  exists d', sub_days d k = Ok d' /\ valid d' /\ toordinal d' = toordinal d - k.
Proof. intros H. unfold sub_days. apply add_days_ok. lia. Qed.

Lemma weekday_range (d : date) : 0 <= weekday d <= 6.
Proof. unfold weekday. pose proof (Z.mod_pos_bound (toordinal d + 6) 7). lia. Qed.

Lemma weekday_isoweekday (d : date) : weekday d = isoweekday d - 1.
Proof.
  unfold weekday, isoweekday; cbv zeta.
  destruct (Z.eqb_spec (toordinal d mod 7) 0); Z.div_mod_to_equations; lia.
Qed.

Lemma monday_of_weekday (d : date) : monday_of d = toordinal d - weekday d.
Proof. unfold monday_of. rewrite weekday_isoweekday. reflexivity. Qed.

Lemma monday_of_bounds (d : date) :
  valid d -> 1 <= monday_of d <= toordinal d /\ toordinal d < monday_of d + 7.
Proof.
  intros Hv. pose proof (toordinal_range d Hv) as Hr.
  rewrite monday_of_weekday. unfold weekday.
  Z.div_mod_to_equations; lia.
Qed.

(** The dates in service are those from 0001-01-29 to 9999-12-26. *)
Lemma in_service_dates (d : date) :
  in_service d <->
  valid d /\
  toordinal (mkdate 1 1 29) <= toordinal d <= toordinal (mkdate 9999 12 26).
Proof.
  change (toordinal (mkdate 1 1 29)) with 29.
  change (toordinal (mkdate 9999 12 26)) with 3652054.
  unfold in_service, MAXORDINAL. rewrite monday_of_weekday. unfold weekday.
  split; (intros (Hv & H); split; [exact Hv |]); Z.div_mod_to_equations; lia.
Qed.

(** Near the ends of the range of [date] the date arithmetic of the
    engine raises. *)
Lemma out_of_service_examples :
  risk_flags [] (mkdate 1 1 14) = Raise OverflowError /\
  risk_flags [] (mkdate 9999 12 27) = Raise OverflowError /\
  readiness_score [] (mkdate 2025 11 4) (mkdate 1 1 28) = Raise OverflowError.
Proof. repeat split; vm_compute; reflexivity. Qed.

(** ** Per-record metrics *)

(** C4: the three derived metrics of a record are the formulas of the
    data model, and the worked example (90 min, 3.0 mi, 20 %, 25 lb,
    RPE 7) gives 3168, 4752 and 1023.75. *)
Theorem derived_metrics_formulas :
  (forall w : Workout.t,
     (Workout.vertical_ft w ==
        Workout.distance_mi w * 5280 * (Workout.incline_pct w / 100) /\
      Workout.load_score w ==
        Workout.vertical_ft w * (1 + Workout.pack_lb w / 50) /\
      Workout.session_stress w ==
        inject_Z (Workout.duration_min w) *
        inject_Z (Z.max (Workout.rpe w) 1) *
        (1 + Workout.pack_lb w / 40))%Q) /\
  (forall (i : Z) (day : date) (text : option string),
     let w := Workout.mk i day "incline" 90 3 20 25 7 text in
     (Workout.vertical_ft w == 3168 /\
      Workout.load_score w == 4752 /\
      Workout.session_stress w == 102375 # 100)%Q).
Proof.
  split.
  - intros w. unfold Workout.load_score, Workout.session_stress.
    rewrite inject_Z_mult. repeat split; reflexivity.
  - intros i day text w. repeat split; vm_compute; reflexivity.
Qed.

(** In binary64 the worked example gives the same three values, without
    rounding error: 3168.0, 4752.0 and 1023.75. *)
Lemma worked_example_binary64 :
  (Binary64.vertical_ft 3 20 = 3168 /\
   Binary64.load_score 3 20 25 = 4752 /\
   Binary64.session_stress 90 7 25 = 1023.75)%float.
Proof. repeat split; vm_compute; reflexivity. Qed.

(** ** Periodization *)

Lemma new_first_of_month (y m : Z) :
  1 <= y <= 9999 -> 1 <= m <= 12 -> PyDate.new y m 1 = Ok (mkdate y m 1).
Proof.
  intros Hy Hm. unfold PyDate.new, check_date_fields, MINYEAR, MAXYEAR.
  assert (1 <= days_in_month y m).
  { unfold days_in_month.
    destruct (is_leap y);
      destruct (month_cases m Hm) as [-> | [-> | [-> | [-> | [-> | [-> |
        [-> | [-> | [-> | [-> | [-> | ->]]]]]]]]]]]; simpl; lia. }
  replace (1 <=? y) with true by (symmetry; apply Z.leb_le; lia).
  replace (y <=? 9999) with true by (symmetry; apply Z.leb_le; lia).
  replace (1 <=? m) with true by (symmetry; apply Z.leb_le; lia).
  replace (m <=? 12) with true by (symmetry; apply Z.leb_le; lia).
  replace (1 <=? days_in_month y m) with true by (symmetry; apply Z.leb_le; lia).
  reflexivity.
Qed.

Lemma phase_for_eq (d : date) :
  valid d ->
  phase_for d =
  Ok (if PyDate.ltb d (mkdate (year d) 4 1) then base_targets
      else if PyDate.ltb d (mkdate (year d) 6 1) then build_targets
      else if PyDate.ltb d (mkdate (year d) 8 1) then peak_targets
      else taper_targets).
Proof.
  intros Hv. apply valid_fields in Hv as (Hy & _ & _).
  unfold phase_for; cbv zeta.
  rewrite !new_first_of_month by lia. simpl.
  repeat match goal with |- context [if ?c then _ else _] => destruct c end;
    reflexivity.
Qed.

Lemma ltb_fields (a b : date) :
  PyDate.ltb a b = true <->
  year a < year b \/
  year a = year b /\ (month a < month b \/ month a = month b /\ day a < day b).
Proof. unfold PyDate.ltb. bool_to_prop. reflexivity. Qed.

Lemma leb_fields (a b : date) :
  PyDate.leb a b = true <->
  year a < year b \/
  year a = year b /\ (month a < month b \/ month a = month b /\ day a <= day b).
Proof.
  unfold PyDate.leb, PyDate.ltb, PyDate.eqb. bool_to_prop. lia.
Qed.

(** C5: [phase_for] returns on every date, and within the calendar year
    [y] of the date it is Base on [Jan 1, Apr 1), Build on [Apr 1, Jun 1),
    Peak on [Jun 1, Aug 1) and Taper on [Aug 1, Jan 1 of y+1), with the
    target bundles of the specification; the four intervals follow one
    another and every date of the year lies in exactly one of them. *)
Theorem phase_for_partitions_year (d : date) :
  valid d ->
  let y := year d in
  let jan1 := mkdate y 1 1 in
  let apr1 := mkdate y 4 1 in
  let jun1 := mkdate y 6 1 in
  let aug1 := mkdate y 8 1 in
  let next_jan1 := mkdate (y + 1) 1 1 in
  date_in jan1 next_jan1 d /\
  (exists t, phase_for d = Ok t) /\
  (phase_for d = Ok base_targets <-> date_in jan1 apr1 d) /\
  (phase_for d = Ok build_targets <-> date_in apr1 jun1 d) /\
  (phase_for d = Ok peak_targets <-> date_in jun1 aug1 d) /\
  (phase_for d = Ok taper_targets <-> date_in aug1 next_jan1 d).
Proof.
  intros Hv. cbv zeta.
  rewrite (phase_for_eq d Hv).
  apply valid_fields in Hv as (Hy & Hm & Hd).
  unfold date_in. rewrite !leb_fields, !ltb_fields. simpl.
  split; [lia |]. split; [eexists; reflexivity |].
  destruct (PyDate.ltb d (mkdate (year d) 4 1)) eqn:E1;
    [| destruct (PyDate.ltb d (mkdate (year d) 6 1)) eqn:E2;
       [| destruct (PyDate.ltb d (mkdate (year d) 8 1)) eqn:E3]];
    repeat match goal with
           | H : PyDate.ltb _ _ = true |- _ => apply ltb_fields in H; simpl in H
           | H : PyDate.ltb _ _ = false |- _ =>
               apply not_true_iff_false in H; rewrite ltb_fields in H; simpl in H
           end;
    repeat split; intros; try discriminate; try reflexivity; try lia.
Qed.

Lemma phase_for_partitions_year_witness :
  valid (mkdate 2025 6 15) /\
  date_in (mkdate 2025 6 1) (mkdate 2025 8 1) (mkdate 2025 6 15) /\
  phase_for (mkdate 2025 6 15) = Ok peak_targets.
Proof.
  split; [reflexivity |]. split; [split; reflexivity |].
  destruct (phase_for_partitions_year (mkdate 2025 6 15) eq_refl)
    as (_ & _ & _ & _ & [_ Hpeak] & _).
  apply Hpeak. split; reflexivity.
Defined.

(** ** The week window *)

Lemma week_range_ok (d : date) :
  valid d -> monday_of d + 7 <= MAXORDINAL ->
  exists start end_,
    week_range d = Ok (start, end_) /\ valid start /\ valid end_ /\
    toordinal start = monday_of d /\ toordinal end_ = monday_of d + 7.
Proof.
  intros Hv Hhi. pose proof (monday_of_bounds d Hv) as [Hlo Hd].
  rewrite monday_of_weekday in *.
  destruct (sub_days_ok d (weekday d)) as (s & Hs & Hvs & Hos); [lia |].
  destruct (add_days_ok s 7) as (e & He & Hve & Hoe); [lia |].
  exists s, e. unfold week_range. rewrite Hs; simpl. rewrite He; simpl.
  repeat split; auto; lia.
Qed.

(** On the last five days of year 9999 the end of the week is past
    [date.max] and the addition raises. *)
Lemma week_range_overflow (d : date) :
  valid d -> MAXORDINAL < monday_of d + 7 ->
  week_range d = Raise OverflowError.
Proof.
  intros Hv Hhi. pose proof (monday_of_bounds d Hv) as [Hlo Hd].
  pose proof (toordinal_range d Hv) as Hr.
  rewrite monday_of_weekday in *.
  destruct (sub_days_ok d (weekday d)) as (s & Hs & Hvs & Hos); [lia |].
  unfold week_range. rewrite Hs; simpl.
  rewrite add_days_overflow by lia. reflexivity.
Qed.

(** C6: the week window of [d] starts [isoweekday d - 1] days before [d]
    and ends seven days after its start; the start is a Monday, a Monday
    is its own start, and [d] lies in the half-open window. It holds for
    every date whose week ends within the range of [date]. *)
Theorem week_range_monday_anchored (d : date) :
  valid d -> monday_of d + 7 <= MAXORDINAL ->
  exists start end_,
    week_range d = Ok (start, end_) /\
    sub_days d (isoweekday d - 1) = Ok start /\
    add_days start 7 = Ok end_ /\
    toordinal start = toordinal d - (isoweekday d - 1) /\
    toordinal end_ = toordinal start + 7 /\
    isoweekday start = 1 /\
    (isoweekday d = 1 -> start = d) /\
    PyDate.leb start d = true /\ PyDate.ltb d end_ = true.
Proof.
  intros Hv Hhi.
  destruct (week_range_ok d Hv Hhi) as (s & e & Hw & Hvs & Hve & Hos & Hoe).
  pose proof (monday_of_bounds d Hv) as [Hlo Hd].
  exists s, e. split; [exact Hw |].
  unfold week_range in Hw. rewrite <- weekday_isoweekday.
  destruct (sub_days d (weekday d)) as [s' | ] eqn:Hs; simpl in Hw; [| discriminate].
  destruct (add_days s' 7) as [e' | ] eqn:He; simpl in Hw; [| discriminate].
  injection Hw as -> ->.
  split; [reflexivity |]. split; [exact He |].
  split; [rewrite Hos; apply monday_of_weekday |].
  split; [lia |].
  split.
  { unfold isoweekday; cbv zeta. rewrite Hos, monday_of_weekday. unfold weekday.
    destruct (Z.eqb_spec ((toordinal d - (toordinal d + 6) mod 7) mod 7) 0);
      Z.div_mod_to_equations; lia. }
  split.
  { intros Hmon. apply toordinal_inj; auto. rewrite Hos. unfold monday_of. lia. }
  split; [apply leb_iff; auto; lia | apply ltb_iff; auto; lia].
Qed.

Lemma week_range_monday_anchored_witness :
  exists start end_,
    week_range (mkdate 2025 11 6) = Ok (start, end_) /\
    sub_days (mkdate 2025 11 6) (isoweekday (mkdate 2025 11 6) - 1) = Ok start /\
    add_days start 7 = Ok end_ /\
    toordinal start =
      toordinal (mkdate 2025 11 6) - (isoweekday (mkdate 2025 11 6) - 1) /\
    toordinal end_ = toordinal start + 7 /\
    isoweekday start = 1 /\
    (isoweekday (mkdate 2025 11 6) = 1 -> start = mkdate 2025 11 6) /\
    PyDate.leb start (mkdate 2025 11 6) = true /\
    PyDate.ltb (mkdate 2025 11 6) end_ = true.
Proof.
  apply (week_range_monday_anchored (mkdate 2025 11 6)).
  - reflexivity.
  - vm_compute. discriminate.
Defined.

(** ** Weekly aggregation *)

Lemma truediv_ok (x y : Q) : ~ (y == 0)%Q -> truediv x y = Ok (x / y)%Q.
Proof.
  intros Hy. unfold truediv.
  destruct (Qeq_bool y 0) eqn:E; [| reflexivity].
  apply Qeq_bool_iff in E. contradiction.
Qed.

Lemma inject_Z_pos_nonzero (z : Z) : 0 < z -> ~ (inject_Z z == 0)%Q.
Proof.
  intros Hz He. unfold Qeq in He; simpl in He. lia.
Qed.

Lemma order_by_date_nil_iff (rows : table) : order_by_date rows = [] <-> rows = [].
Proof.
  split; [| intros ->; reflexivity].
  destruct rows as [| w rows]; [reflexivity |]. simpl.
  destruct (order_by_date rows) as [| r rs]; simpl; [discriminate |].
  destruct (PyDate.leb _ _); discriminate.
Qed.

Lemma sum_week_metrics_returns (db : table) (start end_ : date) :
  exists m, sum_week_metrics db start end_ = Ok m.
Proof.
  unfold sum_week_metrics; cbv zeta.
  destruct (order_by_date _) as [| r rs]; [simpl; eexists; reflexivity |].
  cbv beta iota. rewrite truediv_ok; [simpl; eexists; reflexivity |].
  apply inject_Z_pos_nonzero. simpl length. lia.
Qed.

Lemma sum_week_metrics_none (db : table) (start end_ : date) :
  (forall w, In w db -> ~ date_in start end_ (Workout.session_date w)) ->
  sum_week_metrics db start end_ = Ok zero_metrics.
Proof.
  intros Hnone. unfold sum_week_metrics; cbv zeta.
  replace (List.filter _ db) with (@nil Workout.t); [reflexivity |].
  symmetry. induction db as [| w db IH]; [reflexivity |]. simpl.
  destruct (PyDate.leb start (Workout.session_date w) &&
            PyDate.ltb (Workout.session_date w) end_) eqn:E.
  - exfalso. apply andb_true_iff in E. apply (Hnone w); [now left | exact E].
  - apply IH. intros w' Hin. apply Hnone. now right.
Qed.

(** C7: [sum_week_metrics] returns on every table and window (the mean
    pack weight is only divided when a row matched), and a window that
    no row matches has all its aggregates equal to 0. *)
Theorem sum_week_metrics_total_zero_on_empty (db : table) (start end_ : date) :
  (exists m, sum_week_metrics db start end_ = Ok m) /\
  ((forall w, In w db -> ~ date_in start end_ (Workout.session_date w)) ->
   sum_week_metrics db start end_ = Ok zero_metrics).
Proof.
  split; [apply sum_week_metrics_returns | apply sum_week_metrics_none].
Qed.

Lemma sum_week_metrics_total_zero_on_empty_witness :
  let db := [Workout.mk 1 (mkdate 2025 10 20) "flat" 45 2 0 10 5 None] in
  (exists m, sum_week_metrics db (mkdate 2025 11 3) (mkdate 2025 11 10) = Ok m) /\
  sum_week_metrics db (mkdate 2025 11 3) (mkdate 2025 11 10) = Ok zero_metrics.
Proof.
  intros db.
  destruct (sum_week_metrics_total_zero_on_empty db
              (mkdate 2025 11 3) (mkdate 2025 11 10)) as [Ht Hz].
  split; [exact Ht |]. apply Hz.
  intros w [<- | []] [H _]. vm_compute in H. discriminate.
Defined.

(** ** Readiness score *)

Lemma py_round_bounds (x : Q) : Qfloor x <= py_round x <= Qfloor x + 1.
Proof.
  unfold py_round; cbv zeta.
  destruct (Qcompare _ _); [destruct (Z.even _) | |]; lia.
Qed.

Lemma py_round_mono (x y : Q) : (x <= y)%Q -> py_round x <= py_round y.
Proof.
  intros Hxy. pose proof (Qfloor_resp_le x y Hxy) as Hf.
  destruct (Z.eq_dec (Qfloor x) (Qfloor y)) as [He | Hne].
  - unfold py_round; cbv zeta. rewrite <- He.
    destruct (Qcompare_spec (x - inject_Z (Qfloor x)) (1 # 2)) as [Hx | Hx | Hx];
      destruct (Qcompare_spec (y - inject_Z (Qfloor x)) (1 # 2)) as [Hy | Hy | Hy];
      try (destruct (Z.even (Qfloor x))); try lia; exfalso; lra.
  - pose proof (py_round_bounds x). pose proof (py_round_bounds y). lia.
Qed.

Lemma readiness_blend_eq (tgt : PhaseTargets) (v p : Q) (l : Z) :
  readiness_blend tgt v p l = Ok (blend_value v p l).
Proof.
  unfold readiness_blend, blend_value; cbv zeta.
  destruct (negb (String.eqb (name tgt) "Peak")); reflexivity.
Qed.

Lemma readiness_blend_fixed_eq (v p : Q) (l : Z) :
  readiness_blend_fixed v p l = Ok (blend_value v p l).
Proof. reflexivity. Qed.

(** C9: both branches of the conditional that picks the vertical anchor
    are 9000, so the blend does not depend on the phase and
    [readiness_score] equals, on every table and pair of dates, the
    version that uses the constants 9000, 30 and 90 outright. *)
Theorem readiness_score_phase_independent :
  (forall tgt v p l, readiness_blend tgt v p l = readiness_blend_fixed v p l) /\
  (forall tgt tgt' v p l, readiness_blend tgt v p l = readiness_blend tgt' v p l) /\
  (forall db now today,
     readiness_score db now today = readiness_score_fixed db now today).
Proof.
  assert (Hb : forall tgt v p l,
             readiness_blend tgt v p l = readiness_blend_fixed v p l)
    by (intros; now rewrite readiness_blend_eq, readiness_blend_fixed_eq).
  split; [exact Hb |]. split; [intros; now rewrite !Hb |].
  intros db now today. unfold readiness_score, readiness_score_fixed.
  destruct (last_n_weeks_series db now 4) as [series |]; simpl; [| reflexivity].
  destruct (truediv _ _) as [av |]; simpl; [| reflexivity].
  destruct (truediv _ _) as [ap |]; simpl; [| reflexivity].
  destruct (week_range today) as [[ws we] |]; simpl; [| reflexivity].
  destruct (sub_days ws 28) as [start_4 |]; simpl; [| reflexivity].
  destruct (phase_for today) as [tgt |]; simpl; [| reflexivity].
  apply Hb.
Qed.

(** ** Risk flags *)

Lemma lookup_flag_if_ne (c : bool) (k v k' : string) (m : gmap string string) :
  k <> k' -> flag_if c k v m !! k' = m !! k'.
Proof. intros Hne. unfold flag_if. destruct c; [now apply lookup_insert_ne | reflexivity]. Qed.

Lemma lookup_flag_if_eq (c : bool) (k v : string) (m : gmap string string) :
  flag_if c k v m !! k = if c then Some v else m !! k.
Proof. unfold flag_if. destruct c; [apply lookup_insert_eq | reflexivity]. Qed.

Lemma leb_ord (a b : date) :
  valid a -> valid b -> PyDate.leb a b = (toordinal a <=? toordinal b).
Proof.
  intros Ha Hb. apply eq_true_iff_eq. rewrite (leb_iff a b Ha Hb), Z.leb_le.
  reflexivity.
Qed.

Lemma ltb_ord (a b : date) :
  valid a -> valid b -> PyDate.ltb a b = (toordinal a <? toordinal b).
Proof.
  intros Ha Hb. apply eq_true_iff_eq. rewrite (ltb_iff a b Ha Hb), Z.ltb_lt.
  reflexivity.
Qed.

Lemma table_valid_In (db : table) (w : Workout.t) :
  table_valid db -> In w db -> valid (Workout.session_date w).
Proof. unfold table_valid. rewrite List.Forall_forall. auto. Qed.

(** A closed window of the program is the closed interval of days. *)
Lemma filter_closed_window (db : table) (lo hi : date) :
  table_valid db -> valid lo -> valid hi ->
  List.filter
    (fun w => PyDate.leb lo (Workout.session_date w) &&
              PyDate.leb (Workout.session_date w) hi) db =
  rows_between db (toordinal lo) (toordinal hi).
Proof.
  intros Hdb Hlo Hhi. unfold rows_between. apply List.filter_ext_in.
  intros w Hin. pose proof (table_valid_In db w Hdb Hin) as Hw.
  now rewrite !leb_ord.
Qed.

Lemma date_in_ord (a b d : date) :
  valid a -> valid b -> valid d ->
  (date_in a b d <-> toordinal a <= toordinal d < toordinal b).
Proof.
  intros Ha Hb Hd. unfold date_in. now rewrite leb_iff, ltb_iff.
Qed.

Lemma in_service_bounds (d : date) :
  in_service d ->
  valid d /\ 29 <= monday_of d <= toordinal d /\
  toordinal d < monday_of d + 7 /\ monday_of d + 7 <= MAXORDINAL.
Proof.
  intros (Hv & Hlo & Hhi). pose proof (monday_of_bounds d Hv).
  split; [exact Hv | lia].
Qed.

(** What the ratios of the undertraining rule evaluate to. *)
Lemma ratio_ok (x : Q) (tgt : PhaseTargets) :
  (if negb (vert_min tgt =? 0)
   then truediv x (inject_Z (Z.max (vert_min tgt) 1)) else Ok 0%Q) =
  Ok (if negb (vert_min tgt =? 0)
      then (x / inject_Z (Z.max (vert_min tgt) 1))%Q else 0%Q).
Proof.
  destruct (negb _); [| reflexivity].
  apply truediv_ok, inject_Z_pos_nonzero. lia.
Qed.

(** On a date in service [risk_flags] returns; its value is the chain of
    the five conditional insertions, over the windows and aggregates
    listed here. *)
Lemma risk_flags_ok (db : table) (today : date) :
  in_service today ->
  exists this_ws this_we prev_ws prev_we d7 d14 this prev tgt,
    (valid this_ws /\ toordinal this_ws = monday_of today) /\
    (valid this_we /\ toordinal this_we = monday_of today + 7) /\
    (valid prev_ws /\ toordinal prev_ws = monday_of today - 7) /\
    (valid prev_we /\ toordinal prev_we = monday_of today) /\
    (valid d7 /\ toordinal d7 = toordinal today - 7) /\
    (valid d14 /\ toordinal d14 = toordinal today - 14) /\
    sum_week_metrics db this_ws this_we = Ok this /\
    sum_week_metrics db prev_ws prev_we = Ok prev /\
    phase_for today = Ok tgt /\
    risk_flags db today =
    Ok (flag_if
          (existsb note_hits
             (omap Workout.notes
                (List.filter
                   (fun w => PyDate.leb d14 (Workout.session_date w)) db)))
          "injury_signal"
          "Notes mention possible injury signals in the last 14 days."
       (flag_if
          (Qltb (if negb (vert_min tgt =? 0)
                 then (vert this / inject_Z (Z.max (vert_min tgt) 1))%Q
                 else 0%Q) (7 # 10) &&
           Qltb (if negb (vert_min tgt =? 0)
                 then (vert prev / inject_Z (Z.max (vert_min tgt) 1))%Q
                 else 0%Q) (7 # 10))
          "undertraining"
          "You hit <70% of weekly vertical target for 2 weeks."
       (flag_if
          (match
             sql_avg
               (map Workout.rpe
                  (List.filter
                     (fun w => PyDate.leb d7 (Workout.session_date w) &&
                               PyDate.leb (Workout.session_date w) today) db))
           with
           | Some avg => Qle_bool 7 avg
           | None => false
           end)
          "overuse_rpe" "Average RPE ≥7 over the last 7 days."
       (flag_if (Qltb 5 (avg_pack this - avg_pack prev))
          "overuse_pack" "Average pack increased >5 lb week-over-week."
       (flag_if
          (Qltb 0 (vert prev) && Qltb (vert prev * (125 # 100)) (vert this))
          "overuse_vertical" "Vertical increased >25% week-over-week."
          ∅))))).
Proof.
  intros Hs. apply in_service_bounds in Hs as (Hv & Hlo & Hd & Hhi).
  destruct (week_range_ok today Hv Hhi) as (ws & we & Hw & Hvs & Hve & Hos & Hoe).
  destruct (sub_days_ok ws 7) as (pws & Hpws & Hvpws & Hopws); [lia |].
  destruct (sub_days_ok we 7) as (pwe & Hpwe & Hvpwe & Hopwe); [lia |].
  destruct (sub_days_ok today 7) as (d7 & Hd7 & Hvd7 & Hod7); [lia |].
  destruct (sub_days_ok today 14) as (d14 & Hd14 & Hvd14 & Hod14); [lia |].
  destruct (sum_week_metrics_returns db ws we) as (this & Hthis).
  destruct (sum_week_metrics_returns db pws pwe) as (prev & Hprev).
  pose proof (phase_for_eq today Hv) as Hphase.
  exists ws, we, pws, pwe, d7, d14, this, prev.
  eexists. repeat (split; [first [split; [assumption | lia] | eassumption] |]).
  unfold risk_flags.
  rewrite Hw; cbn [rbind]. rewrite Hpws; cbn [rbind]. rewrite Hpwe; cbn [rbind].
  rewrite Hthis; cbn [rbind]. rewrite Hprev; cbn [rbind].
  rewrite Hd7; cbn [rbind]. rewrite Hphase; cbn [rbind].
  rewrite !ratio_ok; cbn [rbind]. rewrite Hd14; cbn [rbind].
  reflexivity.
Qed.

Lemma sql_avg_rows (rows : table) :
  sql_avg (map Workout.rpe rows) =
  match rows with [] => None | _ :: _ => Some (mean_rpe rows) end.
Proof.
  destruct rows as [| r rs]; [reflexivity |].
  unfold sql_avg, mean_rpe.
  rewrite <- (length_map Workout.rpe (r :: rs)). reflexivity.
Qed.

(** C1, as the program has it: on every date in service [risk_flags]
    returns, and the flag [overuse_rpe] is raised exactly when rows dated
    in the eight days [today - 7 .. today] exist and their mean RPE is at
    least 7; without such rows the flag is absent. *)
Theorem overuse_rpe_since_seven_days_ago (db : table) (today : date) :
  in_service today -> table_valid db ->
  exists flags,
    risk_flags db today = Ok flags /\
    let rows := rows_between db (toordinal today - 7) (toordinal today) in
    (flags !! "overuse_rpe" = Some "Average RPE ≥7 over the last 7 days." <->
     rows <> [] /\ (7 <= mean_rpe rows)%Q) /\
    (flags !! "overuse_rpe" = None <->
     ~ (rows <> [] /\ (7 <= mean_rpe rows)%Q)) /\
    (rows = [] -> flags !! "overuse_rpe" = None).
Proof.
  intros Hs Hdb.
  destruct (risk_flags_ok db today Hs)
    as (ws & we & pws & pwe & d7 & d14 & this & prev & tgt &
        _ & _ & _ & _ & [Hvd7 Hod7] & _ & _ & _ & _ & Hrf).
  eexists; split; [exact Hrf |]. cbv zeta.
  rewrite !lookup_flag_if_ne by discriminate.
  rewrite lookup_flag_if_eq.
  rewrite !lookup_flag_if_ne by discriminate. rewrite lookup_empty.
  rewrite (filter_closed_window db d7 today Hdb Hvd7 (proj1 Hs)), Hod7.
  rewrite sql_avg_rows.
  destruct (rows_between db (toordinal today - 7) (toordinal today))
    as [| r rs] eqn:Erows.
  - repeat split; intros; try discriminate; tauto.
  - assert (Hne : r :: rs <> []) by discriminate.
    destruct (Qle_bool 7 (mean_rpe (r :: rs))) eqn:E.
    + apply Qle_bool_iff in E. repeat split; intros; try discriminate; tauto.
    + assert (~ (7 <= mean_rpe (r :: rs))%Q)
        by (intros H; apply Qle_bool_iff in H; congruence).
      repeat split; intros; try discriminate; tauto.
Qed.

Lemma overuse_rpe_since_seven_days_ago_witness :
  let today := mkdate 2025 11 4 in
  let db := [Workout.mk 1 (mkdate 2025 10 28) "incline" 60 2 10 20 9 None] in
  exists flags,
    risk_flags db today = Ok flags /\
    let rows := rows_between db (toordinal today - 7) (toordinal today) in
    (flags !! "overuse_rpe" = Some "Average RPE ≥7 over the last 7 days." <->
     rows <> [] /\ (7 <= mean_rpe rows)%Q) /\
    (flags !! "overuse_rpe" = None <->
     ~ (rows <> [] /\ (7 <= mean_rpe rows)%Q)) /\
    (rows = [] -> flags !! "overuse_rpe" = None).
Proof.
  intros today db. apply (overuse_rpe_since_seven_days_ago db today).
  - split; [reflexivity |]. split; vm_compute; discriminate.
  - repeat constructor.
Defined.

(** C1 fails as worded: a single session of RPE 9 dated seven days before
    [today] is not in [today - 6 .. today], yet the flag is raised. *)
Lemma overuse_rpe_claimed_window_fails :
  let today := mkdate 2025 11 4 in
  let db := [Workout.mk 1 (mkdate 2025 10 28) "incline" 60 2 10 20 9 None] in
  in_service today /\ table_valid db /\
  rows_between db (toordinal today - 6) (toordinal today) = [] /\
  ~ overuse_rpe_claimed db today /\
  exists flags,
    risk_flags db today = Ok flags /\
    flags !! "overuse_rpe" = Some "Average RPE ≥7 over the last 7 days.".
Proof.
  intros today db.
  split; [split; [reflexivity | split; vm_compute; discriminate] |].
  split; [repeat constructor |].
  split; [reflexivity |].
  split; [intros [H _]; apply H; reflexivity |].
  eexists; split; vm_compute; reflexivity.
Qed.

Lemma zero_ratio_below (c : bool) (q : Q) :
  Qltb (if c then (0 / q)%Q else 0%Q) (7 # 10) = true.
Proof.
  unfold Qltb. apply negb_true_iff. destruct (Qle_bool _ _) eqn:E; [| reflexivity].
  apply Qle_bool_iff in E. exfalso.
  destruct c; [unfold Qdiv in E; rewrite Qmult_0_l in E |]; lra.
Qed.

(** C10: on every date in service, when no row is dated in the current
    week or in the week before it, [risk_flags] returns with the flag
    [undertraining] raised; on the empty table it is the only flag, the
    RPE flag being absent there. *)
Theorem undertraining_without_records (db : table) (today : date) :
  in_service today -> table_valid db ->
  (forall w, In w db ->
     ~ monday_of today - 7 <= toordinal (Workout.session_date w)
       < monday_of today + 7) ->
  exists flags,
    risk_flags db today = Ok flags /\
    flags !! "undertraining" =
      Some "You hit <70% of weekly vertical target for 2 weeks." /\
    (db = [] ->
     flags !! "overuse_rpe" = None /\
     flags = {["undertraining" :=
               "You hit <70% of weekly vertical target for 2 weeks."]}).
Proof.
  intros Hs Hdb Hnone.
  destruct (risk_flags_ok db today Hs)
    as (ws & we & pws & pwe & d7 & d14 & this & prev & tgt &
        [Hvws Hows] & [Hvwe Howe] & [Hvpws Hopws] & [Hvpwe Hopwe] &
        _ & _ & Hthis & Hprev & _ & Hrf).
  assert (Ethis : this = zero_metrics).
  { rewrite sum_week_metrics_none in Hthis; [congruence |].
    intros w Hin Hd. apply (Hnone w Hin).
    apply date_in_ord in Hd; eauto using table_valid_In. lia. }
  assert (Eprev : prev = zero_metrics).
  { rewrite sum_week_metrics_none in Hprev; [congruence |].
    intros w Hin Hd. apply (Hnone w Hin).
    apply date_in_ord in Hd; eauto using table_valid_In. lia. }
  subst this prev. eexists; split; [exact Hrf |].
  assert (Hu : (Qltb (if negb (vert_min tgt =? 0)
                      then (vert zero_metrics / inject_Z (Z.max (vert_min tgt) 1))%Q
                      else 0%Q) (7 # 10)) = true) by apply zero_ratio_below.
  split.
  - rewrite lookup_flag_if_ne by discriminate.
    rewrite lookup_flag_if_eq, Hu. reflexivity.
  - intros ->. rewrite Hu. split; reflexivity.
Qed.

Lemma undertraining_without_records_witness :
  let today := mkdate 2025 11 4 in
  let db := [Workout.mk 1 (mkdate 2025 10 20) "flat" 45 2 0 10 5 None] in
  exists flags,
    risk_flags db today = Ok flags /\
    flags !! "undertraining" =
      Some "You hit <70% of weekly vertical target for 2 weeks." /\
    (db = [] ->
     flags !! "overuse_rpe" = None /\
     flags = {["undertraining" :=
               "You hit <70% of weekly vertical target for 2 weeks."]}).
Proof.
  intros today db. apply (undertraining_without_records db today).
  - split; [reflexivity |]. split; vm_compute; discriminate.
  - repeat constructor.
  - intros w [<- | []]. vm_compute. intros [H1 H2]. apply H1. reflexivity.
Defined.

(** *** Note text *)

Lemma prefix_iff (k s : string) :
  String.prefix k s = true <-> exists post, s = (k ++ post)%string.
Proof.
  revert s. induction k as [| c k IH]; intros s.
  - split; [intros _; exists s; reflexivity | intros _; now destruct s].
  - destruct s as [| c' s]; simpl;
      [split; [discriminate | intros [post H]; discriminate] |].
    destruct (Ascii.ascii_dec c c') as [-> | Hne].
    + rewrite IH. split; intros [post H]; exists post; [now rewrite H | now injection H].
    + split; [discriminate | intros [post H]; injection H; congruence].
Qed.

Lemma str_in_iff (k s : string) :
  str_in k s = true <-> exists pre post, s = (pre ++ k ++ post)%string.
Proof.
  induction s as [| c s IH].
  - change (str_in k "") with (String.prefix k "" || false).
    rewrite orb_false_r, prefix_iff. split.
    + intros [post H]. exists ""%string, post. exact H.
    + intros (pre & post & H). destruct pre; [now exists post | discriminate].
  - change (str_in k (String c s)) with (String.prefix k (String c s) || str_in k s).
    rewrite orb_true_iff, IH, prefix_iff. split.
    + intros [[post H] | (pre & post & H)].
      * exists ""%string, post. exact H.
      * exists (String c pre), post. simpl. now rewrite H.
    + intros (pre & post & H). destruct pre as [| c' pre]; simpl in H.
      * left. now exists post.
      * right. exists pre, post. now injection H.
Qed.

Lemma lower_app (a b : string) : lower (a ++ b) = (lower a ++ lower b)%string.
Proof. induction a as [| c a IH]; simpl; [reflexivity | now rewrite IH]. Qed.

Lemma lower_split (s a b : string) :
  lower s = (a ++ b)%string ->
  exists s1 s2, s = (s1 ++ s2)%string /\ lower s1 = a /\ lower s2 = b.
Proof.
  revert s. induction a as [| c a IH]; intros s H; simpl in H.
  - exists ""%string, s. auto.
  - destruct s as [| c' s]; simpl in H; [discriminate |].
    injection H as Hc Hs. destruct (IH s Hs) as (s1 & s2 & -> & H1 & H2).
    exists (String c' s1), s2. simpl. now rewrite Hc, H1, H2.
Qed.

(** A note hits when some stretch of it is, letter case aside, one of
    the keywords. *)
Lemma note_hits_iff (n : string) :
  note_hits n = true <->
  exists k pre mid post,
    In k keywords /\ n = (pre ++ mid ++ post)%string /\ lower mid = k.
Proof.
  unfold note_hits. rewrite andb_true_iff, negb_true_iff, List.existsb_exists.
  split.
  - intros [_ (k & Hk & Hin)]. apply str_in_iff in Hin as (a & b & Hl).
    apply lower_split in Hl as (pre & rest & -> & _ & Hrest).
    apply lower_split in Hrest as (mid & post & -> & Hmid & _).
    exists k, pre, mid, post. auto.
  - intros (k & pre & mid & post & Hk & -> & Hmid). split.
    + destruct pre; [destruct mid; [| reflexivity] | reflexivity].
      simpl in Hmid. subst k. exfalso.
      repeat (destruct Hk as [Hk | Hk]; [discriminate |]). exact Hk.
    + exists k. split; [exact Hk |]. apply str_in_iff.
      exists (lower pre), (lower post). now rewrite !lower_app, Hmid.
Qed.

Lemma recent_notes_hit (db : table) (d14 : date) :
  existsb note_hits
    (omap Workout.notes
       (List.filter (fun w => PyDate.leb d14 (Workout.session_date w)) db)) = true
  <->
  exists w n, In w db /\ PyDate.leb d14 (Workout.session_date w) = true /\
              Workout.notes w = Some n /\ note_hits n = true.
Proof.
  rewrite List.existsb_exists. split.
  - intros (n & Hin & Hhit). apply list_elem_of_In, list_elem_of_omap in Hin.
    destruct Hin as (w & Hw & Hn). apply list_elem_of_In, List.filter_In in Hw.
    exists w, n. tauto.
  - intros (w & n & Hin & Hd & Hn & Hhit). exists n. split; [| exact Hhit].
    apply list_elem_of_In, list_elem_of_omap. exists w. split; [| exact Hn].
    apply list_elem_of_In, List.filter_In. auto.
Qed.

(** What the injury rule of the program looks at: every row dated
    [today - 14] or later, rows dated after [today] included. *)
Lemma injury_signal_since_fourteen_days_ago (db : table) (today : date) :
  in_service today -> table_valid db ->
  exists flags,
    risk_flags db today = Ok flags /\
    (flags !! "injury_signal" =
       Some "Notes mention possible injury signals in the last 14 days." <->
     exists w n, In w db /\
       toordinal today - 14 <= toordinal (Workout.session_date w) /\
       Workout.notes w = Some n /\ note_hits n = true) /\
    (flags !! "injury_signal" = None <->
     ~ exists w n, In w db /\
       toordinal today - 14 <= toordinal (Workout.session_date w) /\
       Workout.notes w = Some n /\ note_hits n = true).
Proof.
  intros Hs Hdb.
  destruct (risk_flags_ok db today Hs)
    as (ws & we & pws & pwe & d7 & d14 & this & prev & tgt &
        _ & _ & _ & _ & _ & [Hvd14 Hod14] & _ & _ & _ & Hrf).
  eexists; split; [exact Hrf |].
  rewrite lookup_flag_if_eq.
  rewrite !lookup_flag_if_ne by discriminate. rewrite lookup_empty.
  assert (Hiff : existsb note_hits
            (omap Workout.notes
               (List.filter
                  (fun w => PyDate.leb d14 (Workout.session_date w)) db)) = true
          <-> exists w n, In w db /\
                toordinal today - 14 <= toordinal (Workout.session_date w) /\
                Workout.notes w = Some n /\ note_hits n = true).
  { rewrite recent_notes_hit. split; intros (w & n & Hin & Hd & Hn & Hhit);
      exists w, n; repeat split; auto.
    - apply leb_iff in Hd; eauto using table_valid_In. lia.
    - apply leb_iff; eauto using table_valid_In. lia. }
  destruct (existsb _ _).
  - split; [tauto |]. split; [discriminate |]. intros H. exfalso. apply H, Hiff.
    reflexivity.
  - split; [split; [discriminate |] | split; [intros _ |]; auto].
    + intros H. apply Hiff in H. discriminate.
    + intros H. apply Hiff in H. discriminate.
Qed.

(** The two dated examples of the injury rule: the note
    "mild right knee soreness" raises the flag when it is 10 days old
    and does not when it is 15 days old. *)
Lemma injury_signal_dated_examples (today : date) (w : Workout.t) :
  in_service today -> valid (Workout.session_date w) ->
  Workout.notes w = Some "mild right knee soreness"%string ->
  exists flags,
    risk_flags [w] today = Ok flags /\
    (toordinal (Workout.session_date w) = toordinal today - 10 ->
     flags !! "injury_signal" =
       Some "Notes mention possible injury signals in the last 14 days.") /\
    (toordinal (Workout.session_date w) = toordinal today - 15 ->
     flags !! "injury_signal" = None).
Proof.
  intros Hs Hv Hn.
  destruct (injury_signal_since_fourteen_days_ago [w] today Hs)
    as (flags & Hrf & Hyes & Hno); [repeat constructor; exact Hv |].
  exists flags. split; [exact Hrf |]. split; intros Hd.
  - apply Hyes. exists w, "mild right knee soreness"%string.
    repeat split; [now left | lia | exact Hn].
  - apply Hno. intros (w' & n & [<- | []] & Hd' & _). lia.
Qed.

(** C3 at a row of tomorrow: no row of the days [today - 14 .. today]
    carries a note, the claimed condition is false, and the flag
    [injury_signal] is raised all the same, because the query of the
    notes has no upper bound on the date. *)
Theorem injury_signal_counts_future_rows :
  let today := mkdate 2025 11 4 in
  let db :=
    [Workout.mk 1 (mkdate 2025 11 5) "recovery" 30 0 0 0 3 (Some "knee"%string)] in
  in_service today /\ table_valid db /\
  rows_between db (toordinal today - 14) (toordinal today) = [] /\
  ~ injury_signal_claimed db today /\
  exists flags,
    risk_flags db today = Ok flags /\
    flags !! "injury_signal" =
      Some "Notes mention possible injury signals in the last 14 days.".
Proof.
  intros today db.
  split; [split; [reflexivity | split; vm_compute; discriminate] |].
  split; [repeat constructor |].
  split; [reflexivity |].
  split; [intros (w & n & Hin & _); exact Hin |].
  eexists; split; vm_compute; reflexivity.
Qed.

(** ** The longest session of the readiness score *)



Lemma sql_max_or_zero (rows : table) :
  match sql_max (map Workout.duration_min rows) with
  | Some x => if x =? 0 then 0 else x
  | None => 0
  end = longest rows.
Proof.
  unfold longest, sql_max, py_max_default.
  destruct (map Workout.duration_min rows) as [| x xs]; [reflexivity |].
  destruct (Z.eqb_spec (fold_left Z.max xs x) 0); congruence.
Qed.

Lemma fold_max_spec (xs : list Z) :
  forall x,
  (x <= fold_left Z.max xs x) /\
  (forall y, In y xs -> y <= fold_left Z.max xs x) /\
  (fold_left Z.max xs x = x \/ In (fold_left Z.max xs x) xs).
Proof.
  induction xs as [| a xs IH]; intros x; simpl.
  - split; [lia |]. split; [tauto | now left].
  - destruct (IH (Z.max x a)) as (H1 & H2 & H3). split; [lia |]. split.
    + intros y [<- | Hy]; [lia | now apply H2].
    + destruct H3 as [H3 | H3]; [| now right; right].
      destruct (Z.max_spec x a) as [[_ Hm] | [_ Hm]]; rewrite Hm in H3 |- *;
        [right; left; symmetry; exact H3 | left; exact H3].
Qed.

(** [longest] is the greatest duration of the rows, and 0 without rows. *)
Lemma longest_spec (rows : table) :
  (rows = [] -> longest rows = 0) /\
  (forall w, In w rows -> Workout.duration_min w <= longest rows) /\
  (rows <> [] -> exists w, In w rows /\ Workout.duration_min w = longest rows).
Proof.
  unfold longest, py_max_default. destruct rows as [| r rs]; simpl.
  - split; [reflexivity |]. split; [tauto | congruence].
  - destruct (fold_max_spec (map Workout.duration_min rs) (Workout.duration_min r))
      as (H1 & H2 & H3).
    split; [discriminate |]. split.
    + intros w [<- | Hw]; [exact H1 | apply H2, List.in_map, Hw].
    + intros _. destruct H3 as [H3 | H3].
      * exists r. auto.
      * apply List.in_map_iff in H3 as (w & Hw & Hin). exists w. auto.
Qed.





(** * Further properties *)

(** ** Sums, maxima and the order of rows *)

Lemma fold_Qplus_acc (l : list Q) :
  forall a, (fold_left Qplus l a == a + fold_left Qplus l 0)%Q.
Proof.
  induction l as [| x l IH]; intros a; simpl.
  - ring.
  - rewrite (IH (a + x)%Q), (IH (0 + x)%Q). ring.
Qed.

Lemma py_sum_cons (x : Q) (l : list Q) : (py_sum (x :: l) == x + py_sum l)%Q.
Proof. unfold py_sum. simpl. rewrite fold_Qplus_acc. ring. Qed.


Lemma py_sum_nonneg (l : list Q) :
  Forall (fun x => (0 <= x)%Q) l -> (0 <= py_sum l)%Q.
Proof.
  induction 1 as [| x l Hx _ IH].
  - unfold py_sum; simpl. lra.
  - rewrite py_sum_cons. lra.
Qed.

Lemma py_max_default_spec (xs : list Z) (dflt : Z) :
  (xs = [] -> py_max_default xs dflt = dflt) /\
  (forall y, In y xs -> y <= py_max_default xs dflt) /\
  (xs <> [] -> In (py_max_default xs dflt) xs).
Proof.
  destruct xs as [| x xs]; simpl.
  - split; [reflexivity |]. split; [tauto | congruence].
  - destruct (fold_max_spec xs x) as (H1 & H2 & H3).
    split; [discriminate |]. split.
    + intros y [<- | Hy]; auto.
    + intros _. destruct H3 as [-> | H3]; auto.
Qed.

Lemma py_max_default_perm (xs ys : list Z) (dflt : Z) :
  Permutation xs ys -> py_max_default xs dflt = py_max_default ys dflt.
Proof.
  intros Hp.
  destruct (py_max_default_spec xs dflt) as (Hx0 & Hx1 & Hx2).
  destruct (py_max_default_spec ys dflt) as (Hy0 & Hy1 & Hy2).
  destruct xs as [| x xs].
  - apply Permutation_nil in Hp. subst ys. reflexivity.
  - assert (Hne : ys <> []).
    { intros ->. apply Permutation_sym, Permutation_nil in Hp. discriminate. }
    specialize (Hx2 ltac:(discriminate)). specialize (Hy2 Hne).
    apply Z.le_antisymm.
    + apply Hy1. now apply (Permutation_in _ Hp).
    + apply Hx1. now apply (Permutation_in _ (Permutation_sym Hp)).
Qed.

Lemma insert_by_date_perm (w : Workout.t) (rows : table) :
  Permutation (insert_by_date w rows) (w :: rows).
Proof.
  induction rows as [| r rows IH]; simpl; [reflexivity |].
  destruct (PyDate.leb _ _); [reflexivity |].
  rewrite IH. apply perm_swap.
Qed.

Lemma order_by_date_perm (rows : table) : Permutation (order_by_date rows) rows.
Proof.
  induction rows as [| w rows IH]; simpl; [reflexivity |].
  rewrite insert_by_date_perm. now constructor.
Qed.




(** The value of [sum_week_metrics] in terms of the rows it selects. *)
Lemma sum_week_metrics_value (db : table) (start end_ : date) :
  exists m rows,
    rows =
      order_by_date
        (List.filter
           (fun w => PyDate.leb start (Workout.session_date w) &&
                     PyDate.ltb (Workout.session_date w) end_) db) /\
    sum_week_metrics db start end_ = Ok m /\
    vert m = total_vert rows /\ stress m = total_stress rows /\
    avg_pack m = mean_pack rows /\ max_long m = longest rows /\
    count m = inject_Z (Z.of_nat (length rows)) /\ missed m = 0%Q.
Proof.
  unfold sum_week_metrics; cbv zeta.
  set (rows := order_by_date _).
  assert (Hdiv : (match rows with
                  | [] => Ok 0%Q
                  | _ :: _ => truediv (py_sum (map Workout.pack_lb rows))
                                (inject_Z (Z.of_nat (length rows)))
                  end) = Ok (mean_pack rows)).
  { unfold mean_pack. destruct rows as [| r rs]; [reflexivity |].
    apply truediv_ok, inject_Z_pos_nonzero. simpl length. lia. }
  rewrite Hdiv. cbn [rbind]. eexists. exists rows.
  split; [reflexivity |]. split; [reflexivity |]. repeat split.
Qed.

(** ** Weekly aggregation, continued *)



Lemma rows_between_split (db : table) (lo mid hi : Z) :
  lo <= mid <= hi + 1 ->
  Permutation (rows_between db lo hi)
    (rows_between db lo (mid - 1) ++ rows_between db mid hi).
Proof.
  intros H. unfold rows_between. induction db as [| w db IH]; simpl; [reflexivity |].
  set (o := toordinal (Workout.session_date w)).
  destruct (Z.leb_spec lo o), (Z.leb_spec o hi), (Z.leb_spec o (mid - 1)),
    (Z.leb_spec mid o); simpl; try lia; try exact IH.
  - now constructor.
  - rewrite IH. apply Permutation_middle.
Qed.

Lemma longest_nonneg (rows : table) :
  Forall (fun w => 0 < Workout.duration_min w) rows -> 0 <= longest rows.
Proof.
  intros Hall. destruct (longest_spec rows) as (L0 & _ & L2).
  destruct rows as [| r rs]; [rewrite L0; [lia | reflexivity] |].
  destruct L2 as (w & Hin & <-); [discriminate |].
  rewrite List.Forall_forall in Hall. specialize (Hall w Hin). lia.
Qed.

Lemma longest_app (l1 l2 : table) :
  Forall (fun w => 0 < Workout.duration_min w) (l1 ++ l2) ->
  longest (l1 ++ l2) = Z.max (longest l1) (longest l2).
Proof.
  intros Hall. apply Forall_app in Hall as [H1 H2].
  pose proof (longest_nonneg l1 H1) as N1.
  pose proof (longest_nonneg l2 H2) as N2.
  destruct (longest_spec (l1 ++ l2)) as (A0 & A1 & A2).
  destruct (longest_spec l1) as (B0 & B1 & B2).
  destruct (longest_spec l2) as (C0 & C1 & C2).
  apply Z.le_antisymm.
  - destruct l1 as [| r1 l1'].
    + simpl. lia.
    + destruct A2 as (w & Hin & <-); [discriminate |].
      apply List.in_app_or in Hin as [Hin | Hin];
        [specialize (B1 w Hin) | specialize (C1 w Hin)]; lia.
  - apply Z.max_lub.
    + destruct l1 as [| r1 l1']; [rewrite B0 by reflexivity |].
      * apply longest_nonneg. simpl. exact H2.
      * destruct B2 as (w & Hin & <-); [discriminate |].
        apply A1, List.in_or_app. now left.
    + destruct l2 as [| r2 l2']; [rewrite C0 by reflexivity |].
      * apply longest_nonneg. apply Forall_app. now split.
      * destruct C2 as (w & Hin & <-); [discriminate |].
        apply A1, List.in_or_app. now right.
Qed.

Lemma table_ok_durations (rows : table) :
  table_ok rows -> Forall (fun w => 0 < Workout.duration_min w) rows.
Proof. apply List.Forall_impl. intros w (_ & H & _). exact H. Qed.

Lemma rows_between_ok (db : table) (lo hi : Z) :
  table_ok db -> table_ok (rows_between db lo hi).
Proof.
  unfold table_ok, rows_between. rewrite !List.Forall_forall.
  intros H w Hin. apply List.filter_In in Hin as [Hin _]. auto.
Qed.



Lemma vertical_ft_nonneg (w : Workout.t) : row_ok w -> (0 <= Workout.vertical_ft w)%Q.
Proof.
  intros (_ & _ & _ & Hd & Hi & _). unfold Workout.vertical_ft.
  apply Qmult_le_0_compat; [apply Qmult_le_0_compat; [exact Hd | discriminate] |].
  unfold Qdiv. apply Qmult_le_0_compat; [exact Hi | discriminate].
Qed.

Lemma session_stress_pos (w : Workout.t) : row_ok w -> (0 < Workout.session_stress w)%Q.
Proof.
  intros (_ & Hdur & Hr & _ & _ & Hp). unfold Workout.session_stress; cbv zeta.
  apply Qmult_lt_0_compat.
  - change 0%Q with (inject_Z 0). rewrite <- Zlt_Qlt. nia.
  - assert (0 <= Workout.pack_lb w / 40)%Q; [| lra].
    unfold Qdiv. apply Qmult_le_0_compat; [exact Hp | discriminate].
Qed.

Lemma order_by_date_ok (rows : table) : table_ok rows -> table_ok (order_by_date rows).
Proof.
  unfold table_ok. rewrite !List.Forall_forall. intros H w Hin.
  apply H. apply (Permutation_in _ (order_by_date_perm rows) Hin).
Qed.

Lemma filter_ok (f : Workout.t -> bool) (rows : table) :
  table_ok rows -> table_ok (List.filter f rows).
Proof.
  unfold table_ok. rewrite !List.Forall_forall. intros H w Hin.
  apply List.filter_In in Hin as [Hin _]. auto.
Qed.

Lemma mean_pack_nonneg (rows : table) : table_ok rows -> (0 <= mean_pack rows)%Q.
Proof.
  intros Hok. unfold mean_pack. destruct rows as [| r rs] eqn:E; [lra |].
  rewrite <- E in *. unfold Qdiv. apply Qmult_le_0_compat.
  - apply py_sum_nonneg, List.Forall_map.
    revert Hok. apply List.Forall_impl. intros w (_ & _ & _ & _ & _ & H). exact H.
  - apply Qinv_le_0_compat. change 0%Q with (inject_Z 0).
    rewrite <- Zle_Qle. lia.
Qed.

(** X4: on a table whose rows satisfy the field invariants, no
    aggregate is negative, and the longest session is 0 exactly when no
    row was counted. *)
Theorem sum_week_metrics_nonnegative (db : table) (start end_ : date) :
  table_ok db ->
  exists m,
    sum_week_metrics db start end_ = Ok m /\
    (0 <= vert m)%Q /\ (0 <= stress m)%Q /\ (0 <= avg_pack m)%Q /\
    0 <= max_long m /\ (0 <= count m)%Q /\
    (max_long m = 0 <-> (count m == 0)%Q) /\
    ((stress m == 0)%Q <-> (count m == 0)%Q).
Proof.
  intros Hok.
  destruct (sum_week_metrics_value db start end_)
    as (m & sel & Hsel & Hm & Hv & Hst & Hpk & Hl & Hc & _).
  assert (Hsok : table_ok sel)
    by (subst sel; apply order_by_date_ok, filter_ok, Hok).
  exists m. split; [exact Hm |]. rewrite Hv, Hst, Hpk, Hl, Hc. clear Hsel.
  split.
  { apply py_sum_nonneg, List.Forall_map. revert Hsok. apply List.Forall_impl.
    intros w. apply vertical_ft_nonneg. }
  assert (Hstress : (0 <= total_stress sel)%Q /\
                    (sel <> [] -> 0 < total_stress sel)%Q).
  { unfold total_stress. clear - Hsok. induction Hsok as [| w l Hw _ [IH1 IH2]].
    - split; [unfold py_sum; simpl; lra | congruence].
    - pose proof (session_stress_pos w Hw). cbn [map].
      split; [| intros _]; rewrite py_sum_cons; lra. }
  split; [tauto |]. split; [now apply mean_pack_nonneg |].
  split; [apply longest_nonneg, table_ok_durations, Hsok |].
  split; [change 0%Q with (inject_Z 0); rewrite <- Zle_Qle; lia |].
  destruct sel as [| r rs].
  - split; split; intros _; reflexivity.
  - assert (Hcount : ~ (inject_Z (Z.of_nat (length (r :: rs))) == 0)%Q)
      by (apply inject_Z_pos_nonzero; simpl length; lia).
    split; split; intros H; try contradiction; exfalso.
    + destruct (longest_spec (r :: rs)) as (_ & _ & L2).
      destruct L2 as (w & Hin & Hw); [discriminate |].
      apply table_ok_durations in Hsok. rewrite List.Forall_forall in Hsok.
      specialize (Hsok w Hin). lia.
    + destruct Hstress as [_ Hpos]. specialize (Hpos ltac:(discriminate)). lra.
Qed.

Lemma sum_week_metrics_nonnegative_witness :
  let db := [Workout.mk 1 (mkdate 2025 11 4) "incline" 90 3 20 25 7 None] in
  exists m,
    sum_week_metrics db (mkdate 2025 11 3) (mkdate 2025 11 10) = Ok m /\
    (0 <= vert m)%Q /\ (0 <= stress m)%Q /\ (0 <= avg_pack m)%Q /\
    0 <= max_long m /\ (0 <= count m)%Q /\
    (max_long m = 0 <-> (count m == 0)%Q) /\
    ((stress m == 0)%Q <-> (count m == 0)%Q).
Proof.
  intros db.
  apply (sum_week_metrics_nonnegative db (mkdate 2025 11 3) (mkdate 2025 11 10)).
  repeat constructor; simpl; auto; vm_compute; discriminate.
Defined.

(** ** Week windows, continued *)

Lemma week_range_inv (d s e : date) :
  valid d -> week_range d = Ok (s, e) ->
  valid s /\ valid e /\ toordinal s = monday_of d /\
  toordinal e = monday_of d + 7 /\ monday_of d + 7 <= MAXORDINAL.
Proof.
  intros Hv Hw.
  destruct (Z_le_gt_dec (monday_of d + 7) MAXORDINAL) as [Hle | Hgt].
  - destruct (week_range_ok d Hv Hle) as (s' & e' & Hw' & H).
    rewrite Hw in Hw'. injection Hw' as <- <-. tauto.
  - rewrite week_range_overflow in Hw by (assumption || lia). discriminate.
Qed.

Lemma week_range_of_monday (d s e : date) :
  valid d -> valid s -> valid e ->
  toordinal s = monday_of d -> toordinal e = monday_of d + 7 ->
  monday_of d + 7 <= MAXORDINAL ->
  week_range d = Ok (s, e).
Proof.
  intros Hv Hs He Hos Hoe Hle.
  destruct (week_range_ok d Hv Hle) as (s' & e' & Hw & Hs' & He' & Hos' & Hoe').
  rewrite Hw. f_equal. f_equal; apply toordinal_inj; auto; lia.
Qed.

Lemma monday_of_window (d : date) (mon : Z) :
  (mon + 6) mod 7 = 0 ->
  (mon <= toordinal d < mon + 7 <-> monday_of d = mon).
Proof.
  intros Hmon. rewrite monday_of_weekday. unfold weekday.
  split; intros H; Z.div_mod_to_equations; lia.
Qed.

Lemma monday_of_is_monday (d : date) : (monday_of d + 6) mod 7 = 0.
Proof.
  rewrite monday_of_weekday. unfold weekday. Z.div_mod_to_equations; lia.
Qed.

(** X5: the dates of a week window are exactly the dates whose window
    it is: [week_range d'] equals [week_range d] if and only if [d'] lies
    in the half-open window of [d]. *)
Theorem week_range_shared_by_its_days (d d' s e : date) :
  valid d -> valid d' -> week_range d = Ok (s, e) ->
  (date_in s e d' <-> week_range d' = Ok (s, e)).
Proof.
  intros Hv Hv' Hw.
  destruct (week_range_inv d s e Hv Hw) as (Hs & He & Hos & Hoe & Hle).
  rewrite (date_in_ord s e d' Hs He Hv'), Hos, Hoe.
  rewrite (monday_of_window d' (monday_of d) (monday_of_is_monday d)).
  split.
  - intros Heq. apply week_range_of_monday; auto; lia.
  - intros Hw'.
    destruct (week_range_inv d' s e Hv' Hw') as (_ & _ & Hos' & _). lia.
Qed.

Lemma week_range_shared_by_its_days_witness :
  date_in (mkdate 2025 11 3) (mkdate 2025 11 10) (mkdate 2025 11 9) <->
  week_range (mkdate 2025 11 9) = Ok (mkdate 2025 11 3, mkdate 2025 11 10).
Proof.
  apply (week_range_shared_by_its_days (mkdate 2025 11 4)); reflexivity.
Defined.

Lemma sub_days_inv (d d' : date) (k : Z) :
  valid d -> sub_days d k = Ok d' ->
  valid d' /\ toordinal d' = toordinal d - k /\ 1 <= toordinal d - k <= MAXORDINAL.
Proof.
  intros Hv H.
  destruct (Z_le_gt_dec 1 (toordinal d - k)) as [Hlo | Hlo];
    [destruct (Z_le_gt_dec (toordinal d - k) MAXORDINAL) as [Hhi | Hhi] |].
  - destruct (sub_days_ok d k) as (d'' & H' & Hv' & Ho); [lia |].
    rewrite H in H'. injection H' as <-. auto.
  - unfold sub_days in H. rewrite add_days_overflow in H by lia. discriminate.
  - unfold sub_days in H. rewrite add_days_overflow in H by lia. discriminate.
Qed.

(** X6: week windows tile the calendar. The start of a window has the
    same window; seven days before its end is its start; and the window
    of the date seven days earlier, as [risk_flags] computes it by
    shifting both bounds back by seven days, is the window that ends
    where this one starts. *)
Theorem week_ranges_tile (d d7 s e : date) :
  valid d -> week_range d = Ok (s, e) -> sub_days d 7 = Ok d7 ->
  week_range s = Ok (s, e) /\
  sub_days e 7 = Ok s /\
  exists prev_ws,
    sub_days s 7 = Ok prev_ws /\
    week_range d7 = Ok (prev_ws, s) /\
    (forall x, valid x -> ~ (date_in prev_ws s x /\ date_in s e x)).
Proof.
  intros Hv Hw H7.
  destruct (week_range_inv d s e Hv Hw) as (Hs & He & Hos & Hoe & Hle).
  destruct (sub_days_inv d d7 7 Hv H7) as (Hv7 & Ho7 & Hr7).
  pose proof (monday_of_bounds d Hv) as [Hlo Hd].
  pose proof (monday_of_is_monday d) as Hmon.
  assert (Hm7 : monday_of d7 = monday_of d - 7).
  { apply monday_of_window; [| rewrite Ho7; lia].
    Z.div_mod_to_equations; lia. }
  assert (Hlo7 : 1 <= monday_of d - 7).
  { pose proof (monday_of_bounds d7 Hv7). lia. }
  assert (Hms : monday_of s = monday_of d)
    by (apply monday_of_window; [exact Hmon | lia]).
  split; [apply week_range_of_monday; auto; lia |].
  split.
  { destruct (sub_days_ok e 7) as (s' & Hs' & Hvs' & Hos'); [lia |].
    rewrite Hs'. f_equal. apply toordinal_inj; auto; lia. }
  destruct (sub_days_ok s 7) as (p & Hp & Hvp & Hop); [lia |].
  exists p. split; [exact Hp |]. split.
  - apply week_range_of_monday; auto; lia.
  - intros x Hx [H1 H2].
    apply date_in_ord in H1; auto. apply date_in_ord in H2; auto. lia.
Qed.

Lemma week_ranges_tile_witness :
  week_range (mkdate 2025 11 3) = Ok (mkdate 2025 11 3, mkdate 2025 11 10) /\
  sub_days (mkdate 2025 11 10) 7 = Ok (mkdate 2025 11 3) /\
  exists prev_ws,
    sub_days (mkdate 2025 11 3) 7 = Ok prev_ws /\
    week_range (mkdate 2025 10 30) = Ok (prev_ws, mkdate 2025 11 3) /\
    (forall x, valid x ->
       ~ (date_in prev_ws (mkdate 2025 11 3) x /\
          date_in (mkdate 2025 11 3) (mkdate 2025 11 10) x)).
Proof.
  apply (week_ranges_tile (mkdate 2025 11 6)); reflexivity.
Defined.

(** ** Risk flags, continued *)

Lemma Qltb_lt (x y : Q) : Qltb x y = true <-> (x < y)%Q.
Proof.
  unfold Qltb. rewrite negb_true_iff. split.
  - intros H. apply Qnot_le_lt. intros Hle. apply Qle_bool_iff in Hle. congruence.
  - intros H. destruct (Qle_bool y x) eqn:E; [| reflexivity].
    apply Qle_bool_iff in E. exfalso. apply (Qlt_not_le _ _ H E).
Qed.

Lemma lookup_flag_if_inv (c : bool) (k v k' v' : string) (m : gmap string string) :
  flag_if c k v m !! k' = Some v' ->
  (k' = k /\ v' = v) \/ m !! k' = Some v'.
Proof.
  unfold flag_if. destruct c; [| now right].
  destruct (decide (k = k')) as [<- | Hne].
  - rewrite lookup_insert_eq. intros [= <-]. now left.
  - rewrite lookup_insert_ne by exact Hne. now right.
Qed.

Lemma phase_for_vert_min (d : date) (tgt : PhaseTargets) :
  valid d -> phase_for d = Ok tgt ->
  In tgt [base_targets; build_targets; peak_targets; taper_targets] /\
  0 < vert_min tgt.
Proof.
  intros Hv H. rewrite (phase_for_eq d Hv) in H. injection H as <-.
  repeat match goal with |- context [if ?c then _ else _] => destruct c end;
    (split; [simpl; tauto | reflexivity]).
Qed.

(** X10: [risk_flags] only ever returns the five keys of the closed set,
    each with its fixed message. *)
Theorem risk_flags_closed_set (db : table) (today : date) :
  in_service today ->
  exists flags,
    risk_flags db today = Ok flags /\
    forall k v, flags !! k = Some v ->
      In (k, v)
        [("overuse_vertical", "Vertical increased >25% week-over-week.");
         ("overuse_pack", "Average pack increased >5 lb week-over-week.");
         ("overuse_rpe", "Average RPE ≥7 over the last 7 days.");
         ("undertraining", "You hit <70% of weekly vertical target for 2 weeks.");
         ("injury_signal",
          "Notes mention possible injury signals in the last 14 days.")]%string.
Proof.
  intros Hs.
  destruct (risk_flags_ok db today Hs)
    as (ws & we & pws & pwe & d7 & d14 & this & prev & tgt &
        _ & _ & _ & _ & _ & _ & _ & _ & _ & Hrf).
  eexists. split; [exact Hrf |]. intros k v H.
  repeat (apply lookup_flag_if_inv in H as [[-> ->] | H]; [simpl; tauto |]).
  rewrite lookup_empty in H. discriminate.
Qed.

Lemma risk_flags_closed_set_witness :
  exists flags,
    risk_flags [] (mkdate 2025 11 4) = Ok flags /\
    forall k v, flags !! k = Some v ->
      In (k, v)
        [("overuse_vertical", "Vertical increased >25% week-over-week.");
         ("overuse_pack", "Average pack increased >5 lb week-over-week.");
         ("overuse_rpe", "Average RPE ≥7 over the last 7 days.");
         ("undertraining", "You hit <70% of weekly vertical target for 2 weeks.");
         ("injury_signal",
          "Notes mention possible injury signals in the last 14 days.")]%string.
Proof.
  apply (risk_flags_closed_set [] (mkdate 2025 11 4)).
  split; [reflexivity |]. split; vm_compute; discriminate.
Defined.

(** ** Rolling series, continued *)

Lemma date_of_toordinal (d : date) : valid d -> date_of (toordinal d) = d.
Proof.
  intros Hv. unfold date_of.
  destruct (fromordinal_ok (toordinal d) (toordinal_range d Hv))
    as (d' & Hd' & Hv' & Ho).
  rewrite Hd'. now apply toordinal_inj.
Qed.

Lemma py_round_comp (x y : Q) : (x == y)%Q -> py_round x = py_round y.
Proof.
  intros H. unfold py_round; cbv zeta.
  rewrite (Qfloor_comp x y H).
  assert (Hc : Qcompare (x - inject_Z (Qfloor y))%Q (1 # 2) =
               Qcompare (y - inject_Z (Qfloor y))%Q (1 # 2))
    by (apply Qcompare_comp; [rewrite H; reflexivity | reflexivity]).
  now rewrite Hc.
Qed.

Lemma py_round_error (x : Q) :
  (- (1 # 2) <= inject_Z (py_round x) - x <= 1 # 2)%Q.
Proof.
  unfold py_round; cbv zeta.
  pose proof (Qfloor_le x) as Hlo. pose proof (Qlt_floor x) as Hhi.
  rewrite inject_Z_plus in Hhi.
  destruct (Qcompare_spec (x - inject_Z (Qfloor x)) (1 # 2)) as [H | H | H];
    [destruct (Z.even (Qfloor x)) | |];
    rewrite ?inject_Z_plus; change (inject_Z 1) with 1%Q in *; split; lra.
Qed.

Lemma range_down_nth (n : Z) (k : nat) :
  (k < Z.to_nat n)%nat ->
  nth_error (range_down n) k = Some (n - 1 - Z.of_nat k).
Proof.
  intros Hk. unfold range_down.
  rewrite List.nth_error_map.
  rewrite (List.nth_error_nth' _ 0%nat) by (now rewrite length_seq).
  rewrite List.seq_nth by exact Hk. reflexivity.
Qed.

Lemma range_down_length (n : Z) : length (range_down n) = Z.to_nat n.
Proof. unfold range_down. now rewrite length_map, length_seq. Qed.

Lemma range_down_In (n i : Z) : In i (range_down n) -> 0 <= i <= n - 1.
Proof.
  unfold range_down. rewrite List.in_map_iff.
  intros (k & <- & Hk). apply List.in_seq in Hk. lia.
Qed.

(** ** Where the engine returns and where it raises *)

Lemma sub_days_overflow (d : date) (k : Z) :
  ~ 1 <= toordinal d - k <= MAXORDINAL -> sub_days d k = Raise OverflowError.
Proof. intros H. unfold sub_days. apply add_days_overflow. lia. Qed.

Lemma last_n_weeks_series_overflow (db : table) (now : date) (n : Z) :
  valid now -> monday_of now + 7 <= MAXORDINAL ->
  1 <= n -> monday_of now - 7 * (n - 1) < 1 ->
  last_n_weeks_series db now n = Raise OverflowError.
Proof.
  intros Hv Hhi Hn Hlo.
  destruct (week_range_ok now Hv Hhi) as (ws & we & Hw & Hvs & Hve & Hos & Hoe).
  unfold last_n_weeks_series; cbv zeta. rewrite Hw; cbn [rbind].
  unfold range_down. destruct (Z.to_nat n) as [| m] eqn:E; [lia |].
  cbn [seq map series_loop].
  rewrite sub_days_overflow; [reflexivity |]. simpl Z.of_nat. lia.
Qed.

Lemma last_n_weeks_series_edges_aux (db : table) (now : date) (n : Z) :
  valid now ->
  (MAXORDINAL < monday_of now + 7 ->
   last_n_weeks_series db now n = Raise OverflowError) /\
  (monday_of now + 7 <= MAXORDINAL -> n <= 0 ->
   last_n_weeks_series db now n = Ok (mkSeries [] [] [] [])).
Proof.
  intros Hv. split.
  - intros Hhi. unfold last_n_weeks_series; cbv zeta.
    now rewrite (week_range_overflow now Hv Hhi).
  - intros Hhi Hn.
    destruct (week_range_ok now Hv Hhi) as (ws & we & Hw & _).
    unfold last_n_weeks_series; cbv zeta. rewrite Hw; cbn [rbind].
    unfold range_down. replace (Z.to_nat n) with 0%nat by lia. reflexivity.
Qed.

(** X13: the edges of [last_n_weeks_series]. For [n <= 0] the loop does
    not run and the four lists are empty; when the oldest of the [n]
    weeks would start before [date.min], or the current week would end
    after [date.max], the call raises [OverflowError]. *)
Theorem last_n_weeks_series_edges (db : table) (now : date) (n : Z) :
  valid now ->
  (MAXORDINAL < monday_of now + 7 ->
   last_n_weeks_series db now n = Raise OverflowError) /\
  (monday_of now + 7 <= MAXORDINAL -> n <= 0 ->
   last_n_weeks_series db now n = Ok (mkSeries [] [] [] [])) /\
  (monday_of now + 7 <= MAXORDINAL -> 1 <= n ->
   monday_of now - 7 * (n - 1) < 1 ->
   last_n_weeks_series db now n = Raise OverflowError).
Proof.
  intros Hv. destruct (last_n_weeks_series_edges_aux db now n Hv) as [H1 H2].
  split; [exact H1 |]. split; [exact H2 |].
  intros Hhi Hn Hlo. now apply last_n_weeks_series_overflow.
Qed.

Lemma last_n_weeks_series_edges_witness :
  last_n_weeks_series [] (mkdate 2025 11 4) 0 = Ok (mkSeries [] [] [] []) /\
  last_n_weeks_series [] (mkdate 1 1 20) 4 = Raise OverflowError.
Proof.
  split.
  - apply (last_n_weeks_series_edges [] (mkdate 2025 11 4) 0);
      [reflexivity | vm_compute; discriminate | lia].
  - apply (last_n_weeks_series_edges [] (mkdate 1 1 20) 4);
      [reflexivity | vm_compute; discriminate | lia | reflexivity].
Defined.

(** X14: [risk_flags] returns on every date from 0001-01-15 to
    9999-12-26 and raises [OverflowError] on every other date; it raises
    nothing else: the divisions of the means and of the ratios are
    guarded. *)
Theorem risk_flags_returns_or_overflows (db : table) (today : date) :
  valid today ->
  (15 <= toordinal today /\ monday_of today + 7 <= MAXORDINAL ->
   exists flags, risk_flags db today = Ok flags) /\
  (~ (15 <= toordinal today /\ monday_of today + 7 <= MAXORDINAL) ->
   risk_flags db today = Raise OverflowError).
Proof.
  intros Hv. pose proof (monday_of_bounds today Hv) as [Hlo Hd].
  pose proof (monday_of_is_monday today) as Hmon.
  pose proof (phase_for_eq today Hv) as Hphase.
  unfold risk_flags.
  destruct (Z_le_gt_dec (monday_of today + 7) MAXORDINAL) as [Hhi | Hhi];
    [| split; [lia | intros _; rewrite (week_range_overflow today Hv) by lia;
                 reflexivity]].
  destruct (week_range_ok today Hv Hhi) as (ws & we & Hw & Hvs & Hve & Hos & Hoe).
  rewrite Hw; cbn [rbind].
  destruct (Z_le_gt_dec 1 (monday_of today - 7)) as [Hp | Hp];
    [| split; [intros [H15 _]; exfalso; Z.div_mod_to_equations; lia
              | intros _; rewrite sub_days_overflow by lia; reflexivity]].
  destruct (sub_days_ok ws 7) as (pws & Hpws & Hvpws & Hopws); [lia |].
  destruct (sub_days_ok we 7) as (pwe & Hpwe & Hvpwe & Hopwe); [lia |].
  destruct (sub_days_ok today 7) as (d7 & Hd7 & Hvd7 & Hod7); [lia |].
  destruct (sum_week_metrics_returns db ws we) as (this & Hthis).
  destruct (sum_week_metrics_returns db pws pwe) as (prev & Hprev).
  rewrite Hpws; cbn [rbind]. rewrite Hpwe; cbn [rbind].
  rewrite Hthis; cbn [rbind]. rewrite Hprev; cbn [rbind].
  rewrite Hd7; cbn [rbind]. rewrite Hphase; cbn [rbind].
  rewrite !ratio_ok; cbn [rbind].
  destruct (Z_le_gt_dec 15 (toordinal today)) as [H15 | H15].
  - destruct (sub_days_ok today 14) as (d14 & Hd14 & _); [lia |].
    rewrite Hd14; cbn [rbind]. split; [intros _; eexists; reflexivity | tauto].
  - rewrite sub_days_overflow by lia. split; [lia | reflexivity].
Qed.

Lemma risk_flags_returns_or_overflows_witness :
  (exists flags, risk_flags [] (mkdate 1 1 15) = Ok flags) /\
  risk_flags [] (mkdate 1 1 14) = Raise OverflowError.
Proof.
  destruct (risk_flags_returns_or_overflows [] (mkdate 1 1 15) eq_refl) as [H _].
  destruct (risk_flags_returns_or_overflows [] (mkdate 1 1 14) eq_refl) as [_ H'].
  split.
  - apply H. split; vm_compute; discriminate.
  - apply H'. intros [H15 _]. vm_compute in H15. apply H15. reflexivity.
Defined.

(** ** Periodization, continued *)

Lemma phase_for_month (d : date) :
  valid d -> phase_for d = Ok (phase_of_month (month d)).
Proof.
  intros Hv. rewrite (phase_for_eq d Hv). unfold phase_of_month.
  assert (Hlt : forall m, PyDate.ltb d (mkdate (year d) m 1) = (month d <? m)).
  { intros m. apply valid_fields in Hv as (_ & _ & Hd).
    apply eq_true_iff_eq. rewrite ltb_fields, Z.ltb_lt. simpl. lia. }
  now rewrite !Hlt.
Qed.

(** X16: the phase depends on the month alone, not on the year or the
    day: January to March is Base, April and May Build, June and July
    Peak, August to December Taper. *)
Theorem phase_for_by_month (d : date) :
  valid d ->
  phase_for d =
    Ok (if month d <? 4 then base_targets
        else if month d <? 6 then build_targets
        else if month d <? 8 then peak_targets
        else taper_targets) /\
  (forall d', valid d' -> month d' = month d -> phase_for d' = phase_for d).
Proof.
  intros Hv. split; [apply (phase_for_month d Hv) |].
  intros d' Hv' Heq.
  rewrite (phase_for_month d Hv), (phase_for_month d' Hv'), Heq. reflexivity.
Qed.

Lemma phase_for_by_month_witness :
  phase_for (mkdate 2025 5 31) = Ok build_targets /\
  phase_for (mkdate 1999 5 1) = phase_for (mkdate 2025 5 31).
Proof.
  destruct (phase_for_by_month (mkdate 2025 5 31) eq_refl) as [H1 H2].
  split; [exact H1 |]. apply H2; reflexivity.
Defined.

(** ** Integer parts *)

Lemma Qfloor_ge (z : Z) (x : Q) : z <= Qfloor x <-> (inject_Z z <= x)%Q.
Proof.
  pose proof (Qfloor_le x) as Hlo. pose proof (Qlt_floor x) as Hhi. split.
  - intros H. rewrite Zle_Qle in H. lra.
  - intros H. destruct (Z_le_gt_dec z (Qfloor x)) as [Hle | Hgt]; [exact Hle |].
    exfalso. assert (Hz : Qfloor x + 1 <= z) by lia.
    rewrite Zle_Qle in Hz. lra.
Qed.

(** ** Logging, deleting and listing workouts *)

Lemma fold_max_ge (xs : list Z) : forall x, In x xs -> x <= fold_right Z.max 0 xs.
Proof.
  induction xs as [| a xs IH]; intros x Hin; [destruct Hin |].
  destruct Hin as [<- | Hin]; simpl; [lia |].
  specialize (IH x Hin). lia.
Qed.

Lemma next_id_fresh (db : table) : ~ In (next_id db) (ids db).
Proof.
  intros Hin. apply fold_max_ge in Hin. unfold next_id, ids in *. lia.
Qed.

Lemma lstrip_head (s : string) (c : ascii) (s' : string) :
  lstrip s = String c s' -> is_space c = false.
Proof.
  induction s as [| c0 s IH]; simpl; [discriminate |].
  destruct (is_space c0) eqn:E; [exact IH |].
  intros [= <- _]. exact E.
Qed.

Lemma rstrip_head (c : ascii) (s : string) :
  is_space c = false -> exists r, rstrip (String c s) = String c r.
Proof.
  intros Hc. simpl. destruct (rstrip s); [rewrite Hc |]; eexists; reflexivity.
Qed.

Lemma rstrip_last (s : string) :
  forall r c, rstrip s = (r ++ String c "")%string -> is_space c = false.
Proof.
  induction s as [| c0 s IH]; intros r c; simpl.
  - destruct r; discriminate.
  - destruct (rstrip s) as [| c1 r1] eqn:E.
    + destruct (is_space c0) eqn:E0; [destruct r; discriminate |].
      destruct r as [| c2 r]; simpl; [intros [= <-]; exact E0 |].
      intros [= _ H]. destruct r; discriminate.
    + destruct r as [| c2 r]; simpl; [discriminate |].
      intros [= _ H]. apply (IH r c). exact H.
Qed.

Lemma strip_trimmed (s : string) : trimmed (strip s).
Proof.
  unfold trimmed, strip. split; [| apply rstrip_last].
  intros c s' H. destruct (lstrip s) as [| c0 l] eqn:E; [discriminate |].
  pose proof (lstrip_head s c0 l E) as Hc0.
  destruct (rstrip_head c0 l Hc0) as (r & Hr).
  rewrite Hr in H. injection H as <- _. exact Hc0.
Qed.

Section RequestProperties.

Variable strptime_date : string -> string + date.
Variable int_of_str : string -> string + Z.
Variable float_of_str : string -> string + Q.
Variable missing_field : string -> string.
Variable store_error : Workout.t -> string.

Lemma existsb_type_In (t : string) (l : list string) :
  existsb (String.eqb t) l = true <-> In t l.
Proof.
  rewrite List.existsb_exists. split.
  - intros (x & Hin & He). apply String.eqb_eq in He. now subst.
  - intros Hin. exists t. split; [exact Hin | apply String.eqb_refl].
Qed.

Lemma Qltb_false_le (x : Q) : Qltb x 0 = false -> (0 <= x)%Q.
Proof.
  unfold Qltb. rewrite negb_false_iff. apply Qle_bool_iff.
Qed.

(** Whatever [parse_workout] returns is a row that passed the four
    checks, with the key it was given and a trimmed note. *)
Lemma parse_workout_ok (form : gmap string string) (i : Z) (w : Workout.t) :
  parse_workout strptime_date int_of_str float_of_str missing_field form i = inr w ->
  row_ok w /\ Workout.id w = i /\
  (forall d s, form !! "session_date"%string = Some s ->
     strptime_date s = inr d -> Workout.session_date w = d) /\
  (exists s, form !! "session_date"%string = Some s /\
     strptime_date s = inr (Workout.session_date w)) /\
  (forall n, Workout.notes w = Some n -> n <> ""%string /\ trimmed n).
Proof.
  unfold parse_workout.
  destruct (form_item missing_field form "session_date") as [e | sd] eqn:Hsd;
    cbn [try_bind]; [discriminate |].
  destruct (strptime_date sd) as [e | d] eqn:Hd; cbn [try_bind]; [discriminate |].
  destruct (form_item missing_field form "type") as [e | t];
    cbn [try_bind]; [discriminate |].
  destruct (form_item missing_field form "duration_min") as [e | sdur];
    cbn [try_bind]; [discriminate |].
  destruct (int_of_str sdur) as [e | dur]; cbn [try_bind]; [discriminate |].
  destruct (form_float float_of_str form "distance_mi") as [e | dist];
    cbn [try_bind]; [discriminate |].
  destruct (form_float float_of_str form "incline_pct") as [e | inc];
    cbn [try_bind]; [discriminate |].
  destruct (form_float float_of_str form "pack_lb") as [e | pack];
    cbn [try_bind]; [discriminate |].
  destruct (form_int_or int_of_str form "rpe" 5) as [e | r];
    cbn [try_bind]; [discriminate |].
  cbv zeta.
  destruct (existsb (String.eqb t) _) eqn:Ht; cbn [negb]; [| discriminate].
  destruct (Z.leb_spec dur 0) as [Hdur | Hdur]; [discriminate |].
  destruct (Z.leb_spec 1 r) as [Hr1 | Hr1]; cbn [andb negb]; [| discriminate].
  destruct (Z.leb_spec r 10) as [Hr2 | Hr2]; cbn [andb negb]; [| discriminate].
  destruct (Qltb dist 0) eqn:H1; cbn [orb]; [discriminate |].
  destruct (Qltb inc 0) eqn:H2; cbn [orb]; [discriminate |].
  destruct (Qltb pack 0) eqn:H3; cbn [orb]; [discriminate |].
  intros [= <-]. cbn.
  apply existsb_type_In in Ht. apply Qltb_false_le in H1, H2, H3.
  unfold form_item in Hsd.
  destruct (form !! "session_date"%string) as [sd' |] eqn:Hf; [| discriminate].
  injection Hsd as ->.
  split; [unfold row_ok; cbn; repeat split; auto |].
  split; [reflexivity |]. split; [intros d' s [= <-] Hs; congruence |].
  split; [exists sd; auto |].
  intros n. unfold form_notes; cbv zeta.
  destruct (String.eqb_spec (strip (default ""%string (form !! "notes"%string))) "")
    as [He | Hne]; [discriminate |].
  intros [= <-]. split; [exact Hne | apply strip_trimmed].
Qed.

(** What [log_workout_submit] answers once the form has parsed: the
    RPE of a parsed row is between 1 and 10, so the store decides on
    the duration alone. *)
Lemma log_workout_submit_parsed
    (db : table) (form : gmap string string) (w : Workout.t) :
  parse_workout strptime_date int_of_str float_of_str missing_field
    form (next_id db) = inr w ->
  log_workout_submit strptime_date int_of_str float_of_str missing_field
    store_error db form =
  if sqlite_integer (Workout.duration_min w)
  then Redirect (db ++ [w]) ("Saved workout.", "success")%string "workouts"
  else Redirect db (("Could not save workout: " ++ store_error w)%string,
                    "error"%string) "log_workout_form".
Proof.
  intros Hp. unfold log_workout_submit. rewrite Hp. cbn [try_bind].
  destruct (parse_workout_ok form (next_id db) w Hp) as ((_ & _ & Hr & _) & _).
  unfold commit_row.
  assert (Hrpe : sqlite_integer (Workout.rpe w) = true).
  { unfold sqlite_integer. apply andb_true_iff.
    split; [apply Z.leb_le | apply Z.ltb_lt]; lia. }
  rewrite Hrpe, andb_true_r.
  destruct (sqlite_integer (Workout.duration_min w)); reflexivity.
Qed.

(** X18: [log_workout_submit] keeps the table well formed. It never
    answers 404; either it stores nothing and redirects to the form
    with an error message, or it appends one row that passed the four
    checks, has a key not yet in use and a note that is absent or
    trimmed and non-empty, and redirects to the list. Valid dates, the
    field invariants and the uniqueness of keys are preserved. *)
Theorem log_workout_submit_keeps_invariants
    (db : table) (form : gmap string string) :
  (forall s d, strptime_date s = inr d -> valid d) ->
  table_valid db -> table_ok db -> NoDup (ids db) ->
  exists db' flashed endpoint,
    log_workout_submit strptime_date int_of_str float_of_str missing_field
      store_error db form =
      Redirect db' flashed endpoint /\
    table_valid db' /\ table_ok db' /\ NoDup (ids db') /\
    ((db' = db /\ snd flashed = "error"%string /\
      endpoint = "log_workout_form"%string) \/
     (exists w,
        db' = db ++ [w] /\ flashed = ("Saved workout.", "success")%string /\
        endpoint = "workouts"%string /\
        row_ok w /\ ~ In (Workout.id w) (ids db) /\
        (forall n, Workout.notes w = Some n -> n <> ""%string /\ trimmed n))).
Proof.
  intros Hparse Hdb Hok Hnd.
  destruct (parse_workout strptime_date int_of_str float_of_str missing_field
              form (next_id db)) as [e | w] eqn:Hp.
  - unfold log_workout_submit. rewrite Hp. cbn [try_bind].
    do 3 eexists. split; [reflexivity |]. repeat (split; [assumption |]).
    left. auto.
  - rewrite (log_workout_submit_parsed db form w Hp).
    destruct (sqlite_integer (Workout.duration_min w)).
    2:{ do 3 eexists. split; [reflexivity |]. repeat (split; [assumption |]).
        left. auto. }
    destruct (parse_workout_ok form (next_id db) w Hp)
      as (Hrow & Hid & _ & (s & _ & Hs) & Hnotes).
    assert (Hfresh : ~ In (Workout.id w) (ids db))
      by (rewrite Hid; apply next_id_fresh).
    do 3 eexists. split; [reflexivity |].
    split; [apply Forall_app; split;
              [exact Hdb | constructor; [eapply Hparse, Hs | constructor]] |].
    split; [apply Forall_app; split;
              [exact Hok | constructor; [exact Hrow | constructor]] |].
    split.
    { unfold ids. rewrite map_app. cbn [map].
      apply NoDup_app. split; [exact Hnd |]. split; [| apply NoDup_singleton].
      intros x Hx Hx'. apply list_elem_of_In in Hx. apply list_elem_of_In in Hx'.
      destruct Hx' as [<- | []]. contradiction. }
    right. exists w. auto 10.
Qed.

(** The row that the checks of [parse_workout] let through. *)
Lemma parse_workout_checks
    (form : gmap string string) (i : Z)
    (sd t sdur : string) (d : date) (dur r : Z) (dist inc pack : Q) :
  form_item missing_field form "session_date" = inr sd ->
  strptime_date sd = inr d ->
  form_item missing_field form "type" = inr t ->
  form_item missing_field form "duration_min" = inr sdur ->
  int_of_str sdur = inr dur ->
  form_float float_of_str form "distance_mi" = inr dist ->
  form_float float_of_str form "incline_pct" = inr inc ->
  form_float float_of_str form "pack_lb" = inr pack ->
  form_int_or int_of_str form "rpe" 5 = inr r ->
  let w := Workout.mk i d t dur dist inc pack r (form_notes form) in
  let types := ["incline"; "flat"; "strength"; "recovery"]%string in
  let parsed := parse_workout strptime_date int_of_str float_of_str
                  missing_field form i in
  (row_ok w <-> parsed = inr w) /\
  (~ In t types -> parsed = inl "Invalid workout type."%string) /\
  (In t types -> dur <= 0 -> parsed = inl "Duration must be > 0."%string) /\
  (In t types -> 0 < dur -> ~ 1 <= r <= 10 ->
   parsed = inl "RPE must be 1-10."%string) /\
  (In t types -> 0 < dur -> 1 <= r <= 10 ->
   ~ (0 <= dist /\ 0 <= inc /\ 0 <= pack)%Q ->
   parsed = inl "Distance, incline, and pack must be ≥ 0."%string).
Proof.
  intros Hsd Hd Ht Hsdur Hdur Hdist Hinc Hpack Hr w types parsed.
  subst parsed w. unfold parse_workout.
  rewrite Hsd; cbn [try_bind]. rewrite Hd; cbn [try_bind].
  rewrite Ht; cbn [try_bind]. rewrite Hsdur; cbn [try_bind].
  rewrite Hdur; cbn [try_bind]. rewrite Hdist; cbn [try_bind].
  rewrite Hinc; cbn [try_bind]. rewrite Hpack; cbn [try_bind].
  rewrite Hr; cbn [try_bind]. cbv zeta. fold types.
  assert (Hneg : forall x : Q, Qltb x 0 = true <-> ~ (0 <= x)%Q).
  { intros x. rewrite Qltb_lt. split; [apply Qlt_not_le | apply Qnot_le_lt]. }
  unfold row_ok. cbn [Workout.type Workout.duration_min Workout.rpe
                      Workout.distance_mi Workout.incline_pct Workout.pack_lb].
  fold types.
  destruct (existsb (String.eqb t) types) eqn:Et; cbn [negb].
  2:{ assert (~ In t types)
        by (intros Hin; apply existsb_type_In in Hin; congruence).
      repeat split; try tauto; try discriminate. }
  apply existsb_type_In in Et.
  destruct (Z.leb_spec dur 0) as [Hle | Hgt].
  { repeat split; try tauto; try lia; try discriminate. }
  destruct (Z.leb_spec 1 r) as [Hr1 | Hr1]; cbn [andb negb].
  2:{ repeat split; try tauto; try lia; try discriminate. }
  destruct (Z.leb_spec r 10) as [Hr2 | Hr2]; cbn [andb negb].
  2:{ repeat split; try tauto; try lia; try discriminate. }
  destruct (Qltb dist 0) eqn:H1; cbn [orb].
  { apply Hneg in H1. repeat split; try tauto; try lia; try discriminate. }
  destruct (Qltb inc 0) eqn:H2; cbn [orb].
  { apply Hneg in H2. repeat split; try tauto; try lia; try discriminate. }
  destruct (Qltb pack 0) eqn:H3; cbn [orb].
  { apply Hneg in H3. repeat split; try tauto; try lia; try discriminate. }
  apply Qltb_false_le in H1, H2, H3.
  repeat split; try tauto; try lia; try discriminate.
Qed.

(** X19: when every field of the form parses, the row is stored exactly
    when it satisfies the field invariants and its duration fits the
    integer column of the store, with the parsed values, the next key
    and the trimmed note; otherwise nothing is stored. The message is
    that of the first check that fails, in the order type, duration,
    RPE, sign of distance, incline and pack, and that of the store when
    the checks pass and the duration does not fit. *)
Theorem log_workout_submit_accepts
    (db : table) (form : gmap string string)
    (sd t sdur : string) (d : date) (dur r : Z) (dist inc pack : Q) :
  form_item missing_field form "session_date" = inr sd ->
  strptime_date sd = inr d ->
  form_item missing_field form "type" = inr t ->
  form_item missing_field form "duration_min" = inr sdur ->
  int_of_str sdur = inr dur ->
  form_float float_of_str form "distance_mi" = inr dist ->
  form_float float_of_str form "incline_pct" = inr inc ->
  form_float float_of_str form "pack_lb" = inr pack ->
  form_int_or int_of_str form "rpe" 5 = inr r ->
  let w := Workout.mk (next_id db) d t dur dist inc pack r (form_notes form) in
  let types := ["incline"; "flat"; "strength"; "recovery"]%string in
  let rejected msg :=
    log_workout_submit strptime_date int_of_str float_of_str missing_field
      store_error db form =
    Redirect db (("Could not save workout: " ++ msg)%string, "error"%string)
      "log_workout_form" in
  (row_ok w /\ sqlite_integer dur = true <->
   log_workout_submit strptime_date int_of_str float_of_str missing_field
     store_error db form =
   Redirect (db ++ [w]) ("Saved workout.", "success")%string "workouts") /\
  (~ In t types -> rejected "Invalid workout type."%string) /\
  (In t types -> dur <= 0 -> rejected "Duration must be > 0."%string) /\
  (In t types -> 0 < dur -> ~ 1 <= r <= 10 ->
   rejected "RPE must be 1-10."%string) /\
  (In t types -> 0 < dur -> 1 <= r <= 10 ->
   ~ (0 <= dist /\ 0 <= inc /\ 0 <= pack)%Q ->
   rejected "Distance, incline, and pack must be ≥ 0."%string) /\
  (row_ok w -> sqlite_integer dur = false -> rejected (store_error w)).
Proof.
  intros Hsd Hd Ht Hsdur Hdur Hdist Hinc Hpack Hr w types rejected.
  destruct (parse_workout_checks form (next_id db) sd t sdur d dur r dist inc pack
              Hsd Hd Ht Hsdur Hdur Hdist Hinc Hpack Hr)
    as (Hrow & Htype & Hdu & Hrpe & Hsign).
  fold w types in Hrow, Htype, Hdu, Hrpe, Hsign.
  assert (Hrej : forall msg,
    parse_workout strptime_date int_of_str float_of_str missing_field
      form (next_id db) = inl msg -> rejected msg).
  { intros msg H. unfold rejected, log_workout_submit. rewrite H. reflexivity. }
  assert (Hsaved : row_ok w ->
    log_workout_submit strptime_date int_of_str float_of_str missing_field
      store_error db form =
    if sqlite_integer dur
    then Redirect (db ++ [w]) ("Saved workout.", "success")%string "workouts"
    else Redirect db (("Could not save workout: " ++ store_error w)%string,
                      "error"%string) "log_workout_form").
  { intros H. apply Hrow in H.
    exact (log_workout_submit_parsed db form w H). }
  split; [| repeat split; auto].
  - split.
    + intros [H Hfit]. rewrite (Hsaved H), Hfit. reflexivity.
    + intros H.
      destruct (parse_workout strptime_date int_of_str float_of_str missing_field
                  form (next_id db)) as [e | w'] eqn:Hp.
      * unfold log_workout_submit in H. rewrite Hp in H. cbn [try_bind] in H.
        discriminate H.
      * assert (Hw : w' = w).
        { pose proof (log_workout_submit_parsed db form w' Hp) as H'.
          rewrite H in H'.
          destruct (sqlite_integer (Workout.duration_min w')); [| discriminate H'].
          injection H' as H'. apply app_inj_tail in H' as [_ H']. now symmetry. }
        subst w'. pose proof (log_workout_submit_parsed db form w Hp) as H'.
        rewrite H in H'. change (Workout.duration_min w) with dur in H'.
        split; [apply Hrow; reflexivity |].
        destruct (sqlite_integer dur); [reflexivity | discriminate H'].
  - intros H Hfit. unfold rejected. rewrite (Hsaved H), Hfit. reflexivity.
Qed.

(** X21: logging a workout and deleting it again restores the table,
    and with it every aggregate. The row that the form parses to is
    stored when its duration fits the integer column of the store; the
    key it is given is not in use, so the deletion removes that row and
    no other. When the duration does not fit, nothing is stored and the
    table is as it was. *)
Theorem log_then_delete_restores
    (db : table) (form : gmap string string) (w : Workout.t) :
  parse_workout strptime_date int_of_str float_of_str missing_field
    form (next_id db) = inr w ->
  (sqlite_integer (Workout.duration_min w) = true ->
   log_workout_submit strptime_date int_of_str float_of_str missing_field
     store_error db form =
     Redirect (db ++ [w]) ("Saved workout.", "success")%string "workouts") /\
  delete_workout (db ++ [w]) (Workout.id w) =
    Redirect db ("Deleted workout.", "success")%string "workouts" /\
  (sqlite_integer (Workout.duration_min w) = false ->
   log_workout_submit strptime_date int_of_str float_of_str missing_field
     store_error db form =
     Redirect db (("Could not save workout: " ++ store_error w)%string,
                  "error"%string) "log_workout_form").
Proof.
  intros Hp. pose proof (log_workout_submit_parsed db form w Hp) as Hlog.
  split; [intros Hfit; rewrite Hlog, Hfit; reflexivity |].
  split; [| intros Hfit; rewrite Hlog, Hfit; reflexivity].
  destruct (parse_workout_ok form (next_id db) w Hp) as (_ & Hid & _).
  pose proof (next_id_fresh db) as Hfresh. rewrite <- Hid in Hfresh.
  unfold delete_workout.
  assert (Hfind : List.find (fun r => Workout.id r =? Workout.id w) (db ++ [w])
                  = Some w).
  { clear Hp Hid Hlog. induction db as [| r db IH]; simpl.
    - now rewrite Z.eqb_refl.
    - destruct (Z.eqb_spec (Workout.id r) (Workout.id w)) as [He | Hne].
      + exfalso. apply Hfresh. left. exact He.
      + apply IH. intros Hin. apply Hfresh. now right. }
  rewrite Hfind. f_equal.
  rewrite List.filter_app. simpl. rewrite Z.eqb_refl. simpl.
  rewrite app_nil_r. clear Hfind Hp Hid Hlog.
  induction db as [| r db IH]; simpl; [reflexivity |].
  destruct (Z.eqb_spec (Workout.id r) (Workout.id w)) as [He | Hne]; simpl.
  - exfalso. apply Hfresh. left. exact He.
  - f_equal. apply IH. intros Hin. apply Hfresh. now right.
Qed.

End RequestProperties.

Lemma log_workout_submit_keeps_invariants_witness :
  let db := [Workout.mk 1 (mkdate 2025 10 28) "flat" 45 2 0 10 5 None] in
  exists db' flashed endpoint,
    log_workout_submit sample_strptime sample_int sample_float sample_missing
      sample_store_error db sample_form = Redirect db' flashed endpoint /\
    table_valid db' /\ table_ok db' /\ NoDup (ids db') /\
    ((db' = db /\ snd flashed = "error"%string /\
      endpoint = "log_workout_form"%string) \/
     (exists w,
        db' = db ++ [w] /\ flashed = ("Saved workout.", "success")%string /\
        endpoint = "workouts"%string /\
        row_ok w /\ ~ In (Workout.id w) (ids db) /\
        (forall n, Workout.notes w = Some n -> n <> ""%string /\ trimmed n))).
Proof.
  intros db.
  apply (log_workout_submit_keeps_invariants
           sample_strptime sample_int sample_float sample_missing
           sample_store_error db sample_form).
  - intros s d. unfold sample_strptime.
    destruct (String.eqb s "2025-11-04"); [intros [= <-]; reflexivity | discriminate].
  - repeat constructor.
  - repeat constructor; simpl; auto; vm_compute; discriminate.
  - apply NoDup_singleton.
Defined.

Lemma log_workout_submit_accepts_witness :
  let w := Workout.mk (next_id []) (mkdate 2025 11 4) "incline" 90 3 20 25 7
             (form_notes sample_form) in
  (row_ok w /\ sqlite_integer 90 = true) /\
  log_workout_submit sample_strptime sample_int sample_float sample_missing
    sample_store_error [] sample_form =
  Redirect [w] ("Saved workout.", "success")%string "workouts".
Proof.
  intros w.
  destruct (log_workout_submit_accepts
              sample_strptime sample_int sample_float sample_missing
              sample_store_error
              [] sample_form "2025-11-04" "incline" "90" (mkdate 2025 11 4)
              90 7 3 20 25
              eq_refl eq_refl eq_refl eq_refl eq_refl eq_refl eq_refl eq_refl
              eq_refl) as [Hiff _].
  assert (Hrow : row_ok w).
  { unfold row_ok; cbn. repeat split; try lia; try discriminate. tauto. }
  split; [split; [exact Hrow | reflexivity] |].
  apply Hiff. split; [exact Hrow | reflexivity].
Defined.

Lemma log_then_delete_restores_witness :
  let db := [Workout.mk 1 (mkdate 2025 10 28) "flat" 45 2 0 10 5 None] in
  let w := Workout.mk 2 (mkdate 2025 11 4) "incline" 90 3 20 25 7
             (Some "felt strong"%string) in
  log_workout_submit sample_strptime sample_int sample_float sample_missing
    sample_store_error db sample_form =
    Redirect (db ++ [w]) ("Saved workout.", "success")%string "workouts" /\
  delete_workout (db ++ [w]) (Workout.id w) =
    Redirect db ("Deleted workout.", "success")%string "workouts".
Proof.
  intros db w.
  destruct (log_then_delete_restores
              sample_strptime sample_int sample_float sample_missing
              sample_store_error db sample_form w) as (Hlog & Hdel & _).
  - vm_compute. reflexivity.
  - split; [apply Hlog; reflexivity | exact Hdel].
Defined.

Lemma find_id_none (db : table) (k : Z) :
  ~ In k (ids db) -> List.find (fun w => Workout.id w =? k) db = None.
Proof.
  induction db as [| r db IH]; simpl; [reflexivity |]. intros Hn.
  destruct (Z.eqb_spec (Workout.id r) k) as [He | Hne]; [tauto |].
  apply IH. tauto.
Qed.

Lemma find_id_some (db : table) (k : Z) :
  In k (ids db) ->
  exists w, List.find (fun w => Workout.id w =? k) db = Some w /\ Workout.id w = k.
Proof.
  induction db as [| r db IH]; simpl; [tauto |]. intros Hin.
  destruct (Z.eqb_spec (Workout.id r) k) as [He | Hne]; [eauto |].
  apply IH. tauto.
Qed.

Lemma filter_other_ids (db : table) (k : Z) :
  let db' := List.filter (fun r => negb (Workout.id r =? k)) db in
  ~ In k (ids db') /\
  (forall w, In w db' <-> In w db /\ Workout.id w <> k) /\
  (NoDup (ids db) -> NoDup (ids db')) /\
  (NoDup (ids db) -> In k (ids db) -> length db = S (length db')).
Proof.
  cbv zeta. split; [| split; [| split]].
  - unfold ids. rewrite List.in_map_iff. intros (w & Hid & Hin).
    apply List.filter_In in Hin as [_ Hne].
    apply negb_true_iff, Z.eqb_neq in Hne. contradiction.
  - intros w. rewrite List.filter_In, negb_true_iff, Z.eqb_neq. reflexivity.
  - induction db as [| r db IH]; simpl; [auto |].
    intros Hnd. apply NoDup_cons in Hnd as [Hr Hnd].
    destruct (Z.eqb_spec (Workout.id r) k); simpl; [auto |].
    apply NoDup_cons. split; [| auto].
    intros Hin. apply Hr. apply list_elem_of_In. apply list_elem_of_In in Hin.
    unfold ids in Hin. apply List.in_map_iff in Hin as (w & Hw & Hin).
    apply List.filter_In in Hin as [Hin _].
    apply List.in_map_iff. eauto.
  - induction db as [| r db IH]; simpl; [tauto |].
    intros Hnd Hin. apply NoDup_cons in Hnd as [Hr Hnd].
    destruct (Z.eqb_spec (Workout.id r) k) as [He | Hne]; simpl.
    + f_equal. symmetry. clear IH Hin.
      assert (Hk : ~ In k (ids db))
        by (intros H; apply Hr; apply list_elem_of_In; now rewrite He).
      clear Hr Hnd He. induction db as [| r' db IH]; simpl; [reflexivity |].
      destruct (Z.eqb_spec (Workout.id r') k) as [He' | Hne']; simpl.
      * exfalso. apply Hk. now left.
      * f_equal. apply IH. intros H. apply Hk. now right.
    + f_equal. apply IH; [exact Hnd | tauto].
Qed.

(** X20: [delete_workout] answers 404 and leaves the table alone when
    no row has the key; otherwise it removes the rows with that key and
    keeps every other row, so the key is gone, well-formedness is kept
    and, keys being unique, the table is one row shorter. *)
Theorem delete_workout_removes (db : table) (k : Z) :
  (~ In k (ids db) -> delete_workout db k = NotFound) /\
  (In k (ids db) ->
   exists db',
     delete_workout db k =
       Redirect db' ("Deleted workout.", "success")%string "workouts" /\
     ~ In k (ids db') /\
     (forall w, In w db' <-> In w db /\ Workout.id w <> k) /\
     (table_valid db -> table_valid db') /\
     (table_ok db -> table_ok db') /\
     (NoDup (ids db) -> NoDup (ids db') /\ length db = S (length db'))).
Proof.
  split.
  - intros Hn. unfold delete_workout. now rewrite find_id_none.
  - intros Hin. destruct (find_id_some db k Hin) as (w & Hfind & Hid).
    unfold delete_workout. rewrite Hfind, Hid.
    destruct (filter_other_ids db k) as (H1 & H2 & H3 & H4).
    eexists. split; [reflexivity |]. split; [exact H1 |]. split; [exact H2 |].
    split; [| split].
    + unfold table_valid. rewrite !List.Forall_forall.
      intros H x Hx. apply H, H2, Hx.
    + unfold table_ok. rewrite !List.Forall_forall.
      intros H x Hx. apply H, H2, Hx.
    + intros Hnd. split; [now apply H3 | now apply H4].
Qed.

Lemma delete_workout_removes_witness :
  let r1 := Workout.mk 1 (mkdate 2025 10 28) "flat" 45 2 0 10 5 None in
  let r2 := Workout.mk 2 (mkdate 2025 11 4) "incline" 90 3 20 25 7 None in
  delete_workout [r1; r2] 3 = NotFound /\
  exists db',
    delete_workout [r1; r2] 1 =
      Redirect db' ("Deleted workout.", "success")%string "workouts" /\
    ~ In 1 (ids db') /\
    (forall w, In w db' <-> In w [r1; r2] /\ Workout.id w <> 1) /\
    (table_valid [r1; r2] -> table_valid db') /\
    (table_ok [r1; r2] -> table_ok db') /\
    (NoDup (ids [r1; r2]) -> NoDup (ids db') /\ length [r1; r2] = S (length db')).
Proof.
  intros r1 r2.
  destruct (delete_workout_removes [r1; r2] 3) as [H3 _].
  destruct (delete_workout_removes [r1; r2] 1) as [_ H1].
  split.
  - apply H3. simpl. lia.
  - apply H1. simpl. lia.
Defined.

(** *** The list of workouts *)

Lemma newer_false_not_older (a b : Workout.t) :
  newer b a = false -> not_older a b.
Proof.
  unfold newer, not_older. intros H. apply orb_false_iff in H as [H1 H2].
  apply not_true_iff_false in H1. rewrite ltb_fields in H1.
  split.
  - apply leb_fields. lia.
  - intros Heq. apply andb_false_iff in H2 as [He | Hi].
    + apply not_true_iff_false in He. rewrite eqb_eq in He. congruence.
    + apply Z.ltb_ge in Hi. exact Hi.
Qed.

Lemma newer_true_not_older (a b : Workout.t) : newer a b = true -> not_older a b.
Proof.
  unfold newer, not_older. rewrite orb_true_iff, andb_true_iff, eqb_eq, Z.ltb_lt.
  intros [H | [He Hi]].
  - split; [unfold PyDate.leb; now rewrite H |].
    intros Heq. rewrite Heq in H. apply ltb_fields in H. lia.
  - split; [| lia]. rewrite He. unfold PyDate.leb.
    replace (PyDate.eqb (Workout.session_date b) (Workout.session_date b)) with true
      by (symmetry; now apply eqb_eq).
    apply orb_true_r.
Qed.

Lemma not_older_trans (a b c : Workout.t) :
  not_older a b -> not_older b c -> not_older a c.
Proof.
  unfold not_older. rewrite !leb_fields.
  destruct (Workout.session_date a) as [ya ma da],
           (Workout.session_date b) as [yb mb db'],
           (Workout.session_date c) as [yc mc dc].
  simpl. intros [H1 H2] [H3 H4]. split; [lia |].
  intros [= -> -> ->].
  assert (yb = yc /\ mb = mc /\ db' = dc) as (-> & -> & ->) by lia.
  specialize (H2 eq_refl). specialize (H4 eq_refl). lia.
Qed.

Lemma insert_newest_perm (w : Workout.t) (rows : table) :
  Permutation (insert_newest w rows) (w :: rows).
Proof.
  induction rows as [| r rows IH]; simpl; [reflexivity |].
  destruct (newer r w); [| reflexivity].
  rewrite IH. apply perm_swap.
Qed.

Lemma order_by_newest_perm (rows : table) : Permutation (order_by_newest rows) rows.
Proof.
  induction rows as [| w rows IH]; simpl; [reflexivity |].
  rewrite insert_newest_perm. now constructor.
Qed.

Lemma insert_newest_sorted (w : Workout.t) (rows : table) :
  StronglySorted not_older rows -> StronglySorted not_older (insert_newest w rows).
Proof.
  induction 1 as [| r rows Hs IH Hall]; simpl.
  - repeat constructor.
  - destruct (newer r w) eqn:E.
    + constructor; [exact IH |].
      rewrite List.Forall_forall. intros x Hx.
      apply (Permutation_in _ (insert_newest_perm w rows)) in Hx.
      destruct Hx as [<- | Hx]; [now apply newer_true_not_older |].
      rewrite List.Forall_forall in Hall. auto.
    + pose proof (newer_false_not_older w r E) as Hwr.
      constructor; [now constructor |].
      constructor; [exact Hwr |].
      revert Hall. apply List.Forall_impl. intros x Hx.
      now apply (not_older_trans w r x).
Qed.

Lemma order_by_newest_sorted (rows : table) :
  StronglySorted not_older (order_by_newest rows).
Proof.
  induction rows as [| w rows IH]; simpl; [constructor |].
  now apply insert_newest_sorted.
Qed.

Lemma sorted_app_inv (l1 l2 : table) :
  StronglySorted not_older (l1 ++ l2) ->
  StronglySorted not_older l1 /\
  forall a b, In a l1 -> In b l2 -> not_older a b.
Proof.
  induction l1 as [| x l1 IH]; simpl; intros H.
  - split; [constructor | intros a b []].
  - apply StronglySorted_inv in H as [Hs Hall].
    destruct (IH Hs) as [Hs1 Hcross]. apply Forall_app in Hall as [Ha1 Ha2].
    split; [now constructor |].
    intros a b [<- | Ha] Hb; [| now apply Hcross].
    rewrite List.Forall_forall in Ha2. now apply Ha2.
Qed.

(** X22: [workouts] lists at most 200 rows of the table, newest first
    (by date, then by key): every listed row is not older than the rows
    listed after it and than every row left out; a table of at most 200
    rows is listed whole. *)
Theorem workouts_newest_first (db : table) :
  length (workouts db) = Nat.min 200 (length db) /\
  StronglySorted not_older (workouts db) /\
  exists rest,
    Permutation (workouts db ++ rest) db /\
    (forall a b, In a (workouts db) -> In b rest -> not_older a b) /\
    ((length db <= 200)%nat -> rest = []).
Proof.
  unfold workouts.
  pose proof (order_by_newest_perm db) as Hperm.
  pose proof (order_by_newest_sorted db) as Hsorted.
  rewrite <- (firstn_skipn 200 (order_by_newest db)) in Hsorted.
  destruct (sorted_app_inv _ _ Hsorted) as [Hs Hcross].
  split; [rewrite length_firstn, (Permutation_length Hperm); reflexivity |].
  split; [exact Hs |].
  exists (skipn 200 (order_by_newest db)).
  split; [rewrite firstn_skipn; exact Hperm |]. split; [exact Hcross |].
  intros Hlen. apply List.skipn_all2. rewrite (Permutation_length Hperm). exact Hlen.
Qed.

(** ** Aggregates after a new row *)

Lemma rows_between_app (db db2 : table) (lo hi : Z) :
  rows_between (db ++ db2) lo hi = rows_between db lo hi ++ rows_between db2 lo hi.
Proof. unfold rows_between. apply List.filter_app. Qed.

Lemma longest_snoc (rows : table) (w : Workout.t) :
  0 < Workout.duration_min w ->
  Forall (fun r => 0 < Workout.duration_min r) rows ->
  longest (rows ++ [w]) = Z.max (longest rows) (Workout.duration_min w).
Proof.
  intros Hw Hrows. rewrite longest_app.
  - reflexivity.
  - apply Forall_app. split; [exact Hrows | repeat constructor; exact Hw].
Qed.

(** ** The settings page *)

Lemma first_of_month_valid (y m : Z) :
  1 <= y <= 9999 -> 1 <= m <= 12 -> valid (mkdate y m 1).
Proof.
  intros Hy Hm. pose proof (new_first_of_month y m Hy Hm) as H.
  unfold PyDate.new in H. unfold valid; simpl.
  destruct (check_date_fields y m 1); [reflexivity | discriminate].
Qed.

Lemma new_year_out_of_range (y m d : Z) :
  9999 < y -> PyDate.new y m d = Raise ValueError.
Proof.
  intros Hy. unfold PyDate.new, check_date_fields, MINYEAR, MAXYEAR.
  replace (y <=? 9999) with false by (symmetry; apply Z.leb_gt; lia).
  now rewrite andb_false_r.
Qed.

Lemma add_days_zero (d : date) : valid d -> add_days d 0 = Ok d.
Proof.
  intros Hv. pose proof (toordinal_range d Hv).
  destruct (add_days_ok d 0) as (d' & Hd' & Hv' & Ho); [lia |].
  rewrite Hd'. f_equal. apply toordinal_inj; auto. lia.
Qed.

(** One round of the loop moves from the first of a month to the first
    of the next one, or raises when that is in year 10000. *)
Lemma next_month_step (d : date) :
  valid d -> day d = 1 ->
  (let* d1 := add_month d in replace_day d1 1) =
  (if (year d =? 9999) && (month d =? 12) then Raise ValueError
   else Ok (month_after d 1)).
Proof.
  intros Hv Hd. apply valid_fields in Hv as (Hy & Hm & _).
  unfold add_month, month_after; cbv zeta. rewrite Hd.
  destruct (Z.ltb_spec 12 (month d + 1)) as [H12 | H12].
  - replace (month d + 1 - 12) with 1 by lia.
    replace (Z.min (days_in_month (year d + 1) 1) 1) with 1 by reflexivity.
    replace (month d =? 12) with true by (symmetry; apply Z.eqb_eq; lia).
    rewrite andb_true_r.
    destruct (Z.eqb_spec (year d) 9999) as [He | Hne].
    + rewrite new_year_out_of_range by lia. reflexivity.
    + rewrite new_first_of_month by lia. cbn [rbind].
      rewrite add_days_zero by (apply first_of_month_valid; lia). cbn [rbind].
      unfold replace_day; simpl. rewrite new_first_of_month by lia.
      f_equal. f_equal; Z.div_mod_to_equations; lia.
  - replace (month d =? 12) with false by (symmetry; apply Z.eqb_neq; lia).
    rewrite andb_false_r.
    assert (Hmin : Z.min (days_in_month (year d) (month d + 1)) 1 = 1).
    { apply Z.min_r. unfold days_in_month.
      assert (Hm1 : 1 <= month d + 1 <= 12) by lia.
      destruct (is_leap (year d));
        destruct (month_cases _ Hm1) as [-> | [-> | [-> | [-> | [-> | [-> |
          [-> | [-> | [-> | [-> | [-> | ->]]]]]]]]]]]; simpl; lia. }
    rewrite Hmin, new_first_of_month by lia. cbn [rbind].
    rewrite add_days_zero by (apply first_of_month_valid; lia). cbn [rbind].
    unfold replace_day; simpl. rewrite new_first_of_month by lia.
    f_equal. f_equal; Z.div_mod_to_equations; lia.
Qed.

Lemma month_after_fields (d : date) (i : Z) :
  1 <= month d <= 12 -> 0 <= i ->
  day (month_after d i) = 1 /\ 1 <= month (month_after d i) <= 12 /\
  year d <= year (month_after d i).
Proof.
  intros Hm Hi. unfold month_after; simpl. split; [reflexivity |].
  Z.div_mod_to_equations; lia.
Qed.

Lemma month_after_succ (d : date) (i : Z) :
  1 <= month d <= 12 -> 0 <= i ->
  month_after (month_after d 1) i = month_after d (i + 1).
Proof.
  intros Hm Hi. unfold month_after; simpl.
  f_equal; Z.div_mod_to_equations; lia.
Qed.

Section SettingsProperties.

Variable strftime_b_Y : date -> string.

Lemma settings_loop_ok (n : nat) :
  forall d acc,
  valid d -> day d = 1 ->
  year d + (month d - 1 + Z.of_nat n) / 12 <= 9999 ->
  settings_loop strftime_b_Y n d acc =
  Ok (acc ++
      map (fun i => (strftime_b_Y (month_after d (Z.of_nat i)),
                     phase_of_month (month (month_after d (Z.of_nat i)))))
          (seq 0 n)).
Proof.
  induction n as [| n IH]; intros d acc Hv Hd Hr.
  - simpl. now rewrite app_nil_r.
  - pose proof Hv as Hv0. apply valid_fields in Hv0 as (Hy & Hm & _).
    cbn [settings_loop]. rewrite (phase_for_month d Hv); cbn [rbind].
    pose proof (next_month_step d Hv Hd) as Hstep.
    destruct (add_month d) as [d1 |] eqn:E1; cbn [rbind] in Hstep |- *.
    2:{ destruct ((year d =? 9999) && (month d =? 12)) eqn:E.
        - exfalso. apply andb_true_iff in E as [Ey Em].
          apply Z.eqb_eq in Ey, Em. Z.div_mod_to_equations; lia.
        - discriminate. }
    rewrite Hstep.
    destruct ((year d =? 9999) && (month d =? 12)) eqn:E.
    { exfalso. apply andb_true_iff in E as [Ey Em].
      apply Z.eqb_eq in Ey, Em. Z.div_mod_to_equations; lia. }
    cbn [rbind].
    destruct (month_after_fields d 1 Hm ltac:(lia)) as (Hd1 & Hm1 & Hy1).
    assert (Hy1' : year (month_after d 1) <= 9999).
    { unfold month_after; simpl. Z.div_mod_to_equations; lia. }
    rewrite IH.
    + assert (H0 : month_after d 0 = d).
      { unfold month_after. destruct d as [y m dd]. simpl in *. subst dd.
        f_equal; Z.div_mod_to_equations; lia. }
      rewrite <- app_assoc. do 2 f_equal. cbn [app seq map].
      change (Z.of_nat 0) with 0. rewrite H0. f_equal.
      rewrite <- List.seq_shift, List.map_map.
      apply List.map_ext. intros i.
      rewrite (month_after_succ d (Z.of_nat i) Hm ltac:(lia)).
      replace (Z.of_nat i + 1) with (Z.of_nat (S i)) by lia. reflexivity.
    + destruct (month_after d 1) as [y1 m1 d1'] eqn:Ema. simpl in *. subst d1'.
      apply first_of_month_valid; lia.
    + exact Hd1.
    + unfold month_after; simpl. Z.div_mod_to_equations; lia.
Qed.

Lemma settings_loop_raises (n : nat) :
  forall d acc,
  valid d -> day d = 1 ->
  9999 < year d + (month d - 1 + Z.of_nat n) / 12 ->
  settings_loop strftime_b_Y n d acc = Raise ValueError.
Proof.
  induction n as [| n IH]; intros d acc Hv Hd Hr.
  - exfalso. apply valid_fields in Hv as (Hy & Hm & _).
    simpl Z.of_nat in Hr. Z.div_mod_to_equations; lia.
  - pose proof Hv as Hv0. apply valid_fields in Hv0 as (Hy & Hm & _).
    cbn [settings_loop]. rewrite (phase_for_month d Hv); cbn [rbind].
    pose proof (next_month_step d Hv Hd) as Hstep.
    destruct ((year d =? 9999) && (month d =? 12)) eqn:E.
    + destruct (add_month d) as [d1 | e] eqn:E1; cbn [rbind] in Hstep |- *.
      * now rewrite Hstep.
      * injection Hstep as ->. reflexivity.
    + destruct (add_month d) as [d1 | e] eqn:E1; cbn [rbind] in Hstep |- *;
        [| discriminate].
      rewrite Hstep; cbn [rbind].
      destruct (month_after_fields d 1 Hm ltac:(lia)) as (Hd1 & Hm1 & Hy1).
      assert (Hy1' : year (month_after d 1) <= 9999).
      { apply andb_false_iff in E.
        unfold month_after; simpl.
        destruct E as [E | E]; apply Z.eqb_neq in E;
          Z.div_mod_to_equations; lia. }
      apply IH.
      * destruct (month_after d 1) as [y1 m1 d1'] eqn:Ema. simpl in *. subst d1'.
        apply first_of_month_valid; lia.
      * exact Hd1.
      * unfold month_after; simpl. Z.div_mod_to_equations; lia.
Qed.

(** X24: [settings] lists seven months, the month of [today] first and
    then the six that follow, each with its label and the phase of its
    month; since the loop also steps past the seventh month, the page
    raises [ValueError] from June 9999 on, and only then. *)
Theorem settings_seven_months (now : date) :
  valid now ->
  (year now + (month now + 6) / 12 <= 9999 ->
   exists phases,
     settings strftime_b_Y now = Ok phases /\
     length phases = 7%nat /\
     forall i, (i < 7)%nat ->
       nth_error phases i =
       Some (strftime_b_Y (month_after now (Z.of_nat i)),
             phase_of_month ((month now - 1 + Z.of_nat i) mod 12 + 1))) /\
  (9999 < year now + (month now + 6) / 12 ->
   settings strftime_b_Y now = Raise ValueError).
Proof.
  intros Hv. pose proof Hv as Hv0. apply valid_fields in Hv0 as (Hy & Hm & _).
  unfold settings, replace_day; cbv zeta.
  rewrite new_first_of_month by lia. cbn [rbind].
  assert (Hv1 : valid (mkdate (year now) (month now) 1))
    by (apply first_of_month_valid; lia).
  split.
  - intros Hr. rewrite settings_loop_ok; [| exact Hv1 | reflexivity |].
    2:{ cbn [year month]. replace (month now - 1 + Z.of_nat 7) with (month now + 6)
          by lia. exact Hr. }
    eexists. split; [reflexivity |]. cbn [app].
    split; [now rewrite length_map, length_seq |].
    intros i Hi. rewrite List.nth_error_map.
    rewrite (List.nth_error_nth' _ 0%nat) by (now rewrite length_seq).
    rewrite List.seq_nth by exact Hi. reflexivity.
  - intros Hr. apply settings_loop_raises; [exact Hv1 | reflexivity |].
    cbn [year month]. replace (month now - 1 + Z.of_nat 7) with (month now + 6)
      by lia. exact Hr.
Qed.

End SettingsProperties.

Lemma settings_seven_months_witness :
  (exists phases,
     settings strftime_b_d (mkdate 2025 11 4) = Ok phases /\
     length phases = 7%nat /\
     forall i, (i < 7)%nat ->
       nth_error phases i =
       Some (strftime_b_d (month_after (mkdate 2025 11 4) (Z.of_nat i)),
             phase_of_month ((11 - 1 + Z.of_nat i) mod 12 + 1))) /\
  settings strftime_b_d (mkdate 9999 6 1) = Raise ValueError.
Proof.
  destruct (settings_seven_months strftime_b_d (mkdate 2025 11 4) eq_refl)
    as [H _].
  destruct (settings_seven_months strftime_b_d (mkdate 9999 6 1) eq_refl)
    as [_ H'].
  split.
  - apply H. vm_compute. discriminate.
  - apply H'. reflexivity.
Defined.

(** ** The injury rule, in full *)

(** X25: the flag [injury_signal] is raised exactly when some row dated
    [today - 14] or later (rows dated after [today] included) has a note
    of which some stretch is, letter case aside, one of the six
    keywords. *)
Theorem injury_signal_rule (db : table) (today : date) :
  in_service today -> table_valid db ->
  exists flags,
    risk_flags db today = Ok flags /\
    (flags !! "injury_signal" =
       Some "Notes mention possible injury signals in the last 14 days."
     <->
     exists w n k pre mid post,
       In w db /\
       toordinal today - 14 <= toordinal (Workout.session_date w) /\
       Workout.notes w = Some n /\
       In k ["pain"; "knee"; "foot"; "shin"; "achilles"; "hip"]%string /\
       n = (pre ++ mid ++ post)%string /\ lower mid = k).
Proof.
  intros Hs Hdb.
  destruct (injury_signal_since_fourteen_days_ago db today Hs Hdb)
    as (flags & Hrf & Hyes & _).
  exists flags. split; [exact Hrf |]. rewrite Hyes. split.
  - intros (w & n & Hin & Hd & Hn & Hhit).
    apply note_hits_iff in Hhit as (k & pre & mid & post & Hk & Hsplit & Hlow).
    exists w, n, k, pre, mid, post. auto 10.
  - intros (w & n & k & pre & mid & post & Hin & Hd & Hn & Hk & Hsplit & Hlow).
    exists w, n. repeat (split; [assumption |]).
    apply note_hits_iff. exists k, pre, mid, post. auto.
Qed.

Lemma injury_signal_rule_witness :
  let today := mkdate 2025 11 4 in
  let db := [Workout.mk 1 (mkdate 2025 10 28) "flat" 45 2 0 10 5
               (Some "Left KNEE sore"%string)] in
  exists flags,
    risk_flags db today = Ok flags /\
    (flags !! "injury_signal" =
       Some "Notes mention possible injury signals in the last 14 days."
     <->
     exists w n k pre mid post,
       In w db /\
       toordinal today - 14 <= toordinal (Workout.session_date w) /\
       Workout.notes w = Some n /\
       In k ["pain"; "knee"; "foot"; "shin"; "achilles"; "hip"]%string /\
       n = (pre ++ mid ++ post)%string /\ lower mid = k).
Proof.
  intros today db. apply (injury_signal_rule db today).
  - split; [reflexivity |]. split; vm_compute; discriminate.
  - repeat constructor.
Defined.

(** * Properties in binary64 *)

(** ** Binary64 arithmetic *)

Section Rounding.

Import F64.
Local Open Scope Q_scope.

Lemma pow2_pos (e : Z) : 0 < pow2 e.
Proof. apply Qpower_0_lt. reflexivity. Qed.

Lemma pow2_plus (a b : Z) : pow2 (a + b) == pow2 a * pow2 b.
Proof. apply Qpower_plus. discriminate. Qed.

Lemma pow2_le (a b : Z) : (a <= b)%Z -> pow2 a <= pow2 b.
Proof. intros H. apply Qpower_le_compat_l; [exact H | discriminate]. Qed.

Lemma pow2_lt_inv (a b : Z) : pow2 a < pow2 b -> (a < b)%Z.
Proof.
  intros H. destruct (Z.lt_ge_cases a b) as [Hlt | Hge]; [exact Hlt |].
  apply pow2_le in Hge. lra.
Qed.

Lemma pow2_inject (k : Z) : (0 <= k)%Z -> pow2 k == inject_Z (2 ^ k).
Proof. intros H. unfold pow2. now rewrite Zpower_Qpower. Qed.

(** [2 ^ b] is a multiple of [2 ^ a] when [a <= b]. *)
Lemma pow2_multiple (a b : Z) :
  (a <= b)%Z -> pow2 b == inject_Z (2 ^ (b - a)) * pow2 a.
Proof.
  intros H. rewrite <- pow2_inject by lia. rewrite <- pow2_plus.
  now replace (b - a + a)%Z with b by lia.
Qed.

Lemma Qabs_num (x : Q) : Qabs x == inject_Z (Z.abs (Qnum x)) / inject_Z (Zpos (Qden x)).
Proof. destruct x as [n d]. simpl. apply Qmake_Qdiv. Qed.

(** The binade of a number other than zero. *)
Lemma ilog2_spec (x : Q) :
  ~ x == 0 -> pow2 (ilog2 x) <= Qabs x /\ Qabs x < pow2 (ilog2 x + 1).
Proof.
  intros Hx. unfold ilog2; cbv zeta.
  set (a := Z.abs (Qnum x)). set (d := Zpos (Qden x)).
  assert (Ha : (0 < a)%Z).
  { subst a. destruct x as [n dn]. unfold Qeq in Hx. simpl in *. lia. }
  destruct (Z.eqb_spec a 0) as [-> | _]; [lia |].
  assert (Hd : (0 < d)%Z) by (subst d; lia).
  destruct (Z.log2_spec a Ha) as [La Ua].
  destruct (Z.log2_spec d Hd) as [Ld Ud].
  set (la := Z.log2 a) in *. set (ld := Z.log2 d) in *.
  assert (Hla : (0 <= la)%Z) by apply Z.log2_nonneg.
  assert (Hld : (0 <= ld)%Z) by apply Z.log2_nonneg.
  assert (Qa : pow2 la <= inject_Z a /\ inject_Z a < pow2 (la + 1)).
  { rewrite !pow2_inject by lia. rewrite <- Zle_Qle, <- Zlt_Qlt.
    replace (la + 1)%Z with (Z.succ la) by lia. now split. }
  assert (Qd : pow2 ld <= inject_Z d /\ inject_Z d < pow2 (ld + 1)).
  { rewrite !pow2_inject by lia. rewrite <- Zle_Qle, <- Zlt_Qlt.
    replace (ld + 1)%Z with (Z.succ ld) by lia. now split. }
  assert (Hdq : 0 < inject_Z d) by (rewrite Zlt_Qlt in Hd; exact Hd).
  pose proof (Qabs_num x) as Habs. fold a d in Habs.
  assert (Hlow : pow2 (la - ld - 1) <= Qabs x).
  { rewrite Habs. apply Qle_shift_div_l; [exact Hdq |].
    apply Qle_trans with (pow2 (la - ld - 1) * pow2 (ld + 1)).
    - apply Qmult_le_l; [apply pow2_pos | lra].
    - rewrite <- pow2_plus. replace (la - ld - 1 + (ld + 1))%Z with la by lia.
      lra. }
  assert (Hup : Qabs x < pow2 (la - ld + 1)).
  { rewrite Habs. apply Qlt_shift_div_r; [exact Hdq |].
    apply Qlt_le_trans with (pow2 (la - ld + 1) * pow2 ld).
    - rewrite <- pow2_plus. replace (la - ld + 1 + ld)%Z with (la + 1)%Z by lia.
      lra.
    - apply Qmult_le_l; [apply pow2_pos | lra]. }
  destruct (Qle_bool (pow2 (la - ld)) (Qabs x)) eqn:Hk.
  - apply Qle_bool_iff in Hk. split; [exact Hk | exact Hup].
  - assert (Hlt : Qabs x < pow2 (la - ld)).
    { apply Qnot_le_lt. intros Hle. apply Qle_bool_iff in Hle. congruence. }
    replace (la - ld - 1 + 1)%Z with (la - ld)%Z by lia. split; assumption.
Qed.

(** Two numbers of growing magnitude lie in growing binades. *)
Lemma ilog2_mono (x y : Q) :
  ~ x == 0 -> Qabs x <= Qabs y -> (ilog2 x <= ilog2 y)%Z.
Proof.
  intros Hx Hxy.
  assert (Hy : ~ y == 0).
  { intros Hy. rewrite Hy in Hxy. change (Qabs 0) with 0 in Hxy.
    pose proof (Qabs_nonneg x) as Hn.
    assert (H0 : Qabs x == 0) by lra.
    apply Hx. revert H0. apply Qabs_case; intros; lra. }
  destruct (ilog2_spec x Hx) as [Lx _].
  destruct (ilog2_spec y Hy) as [_ Uy].
  assert (H : pow2 (ilog2 x) < pow2 (ilog2 y + 1)) by lra.
  apply pow2_lt_inv in H. lia.
Qed.

Lemma py_round_Z (z : Z) : py_round (inject_Z z) = z.
Proof.
  unfold py_round; cbv zeta. rewrite Qfloor_Z.
  destruct (Qcompare_spec (inject_Z z - inject_Z z) (1 # 2)) as [H | H | H];
    try reflexivity; exfalso; lra.
Qed.

Lemma round_to_mono (e : Z) (x y : Q) : x <= y -> round_to e x <= round_to e y.
Proof.
  intros H. unfold round_to. pose proof (pow2_pos e) as Hp.
  apply Qmult_le_compat_r; [| lra].
  rewrite <- Zle_Qle. apply py_round_mono.
  apply Qmult_le_compat_r; [exact H |].
  apply Qlt_le_weak, Qinv_lt_0_compat, Hp.
Qed.

(** Multiples of [2 ^ e] round to themselves. *)
Lemma round_to_multiple (e : Z) (z : Z) (x : Q) :
  x == inject_Z z * pow2 e -> round_to e x == x.
Proof.
  intros H. unfold round_to. pose proof (pow2_pos e) as Hp.
  rewrite (py_round_comp (x / pow2 e) (inject_Z z)).
  - rewrite py_round_Z. now rewrite H.
  - rewrite H. field. lra.
Qed.

Lemma round_to_zero (e : Z) : round_to e 0 == 0.
Proof. apply (round_to_multiple e 0). change (inject_Z 0) with 0. lra. Qed.

Lemma ilog2_at_zero (x : Q) : x == 0 -> ilog2 x = 0%Z.
Proof.
  intros H. unfold ilog2; cbv zeta.
  assert (Hn : Qnum x = 0%Z).
  { destruct x as [n d]. unfold Qeq in H. simpl in *. lia. }
  now rewrite Hn.
Qed.

Lemma ilog2_comp (x y : Q) : x == y -> ilog2 x = ilog2 y.
Proof.
  intros H. destruct (Qeq_dec x 0) as [Hx | Hx].
  - rewrite (ilog2_at_zero x Hx). symmetry. apply ilog2_at_zero.
    now rewrite <- H.
  - assert (Hy : ~ y == 0) by (now rewrite <- H).
    apply Z.le_antisymm; apply ilog2_mono; try assumption; rewrite H; lra.
Qed.

Lemma ulp_exp_comp (x y : Q) : x == y -> ulp_exp x = ulp_exp y.
Proof. intros H. unfold ulp_exp. now rewrite (ilog2_comp x y H). Qed.

Lemma round_to_comp (e : Z) (x y : Q) : x == y -> round_to e x = round_to e y.
Proof.
  intros H. unfold round_to. rewrite (py_round_comp (x / pow2 e) (y / pow2 e)).
  - reflexivity.
  - now rewrite H.
Qed.

Lemma nearest_comp (x y : Q) : x == y -> nearest x = nearest y.
Proof.
  intros H. unfold nearest.
  now rewrite (ulp_exp_comp x y H), (round_to_comp _ x y H).
Qed.

Lemma nearest_zero : nearest 0 == 0.
Proof. apply round_to_zero. Qed.

(** Rounding keeps the order. *)
Lemma nearest_mono (x y : Q) : x <= y -> nearest x <= nearest y.
Proof.
  intros Hxy. unfold nearest.
  destruct (Qlt_le_dec 0 x) as [Hx | Hx].
  - (* both positive *)
    assert (Nx : ~ x == 0) by lra. assert (Ny : ~ y == 0) by lra.
    destruct (ilog2_spec x Nx) as [Lx Ux]. destruct (ilog2_spec y Ny) as [Ly Uy].
    rewrite (Qabs_pos x) in Lx, Ux by lra. rewrite (Qabs_pos y) in Ly, Uy by lra.
    assert (Hl : (ilog2 x <= ilog2 y)%Z).
    { apply ilog2_mono; [exact Nx |]. rewrite !Qabs_pos by lra. exact Hxy. }
    destruct (Z.eq_dec (ulp_exp x) (ulp_exp y)) as [He | Hne].
    + rewrite He. now apply round_to_mono.
    + assert (Hlt : (ilog2 x < ilog2 y)%Z) by (unfold ulp_exp in *; lia).
      set (z := pow2 (ilog2 y)).
      assert (Hxz : x <= z).
      { apply Qle_trans with (pow2 (ilog2 x + 1)); [lra |]. apply pow2_le. lia. }
      apply Qle_trans with (round_to (ulp_exp x) z); [now apply round_to_mono |].
      apply Qle_trans with (round_to (ulp_exp y) z); [| now apply round_to_mono].
      rewrite (round_to_multiple (ulp_exp x) (2 ^ (ilog2 y - ulp_exp x)) z)
        by (apply pow2_multiple; unfold ulp_exp in *; lia).
      rewrite (round_to_multiple (ulp_exp y) (2 ^ (ilog2 y - ulp_exp y)) z)
        by (apply pow2_multiple; unfold ulp_exp in *; lia).
      apply Qle_refl.
  - destruct (Qlt_le_dec y 0) as [Hy | Hy].
    + (* both negative *)
      assert (Nx : ~ x == 0) by lra. assert (Ny : ~ y == 0) by lra.
      destruct (ilog2_spec x Nx) as [Lx Ux]. destruct (ilog2_spec y Ny) as [Ly Uy].
      rewrite (Qabs_neg x) in Lx, Ux by lra. rewrite (Qabs_neg y) in Ly, Uy by lra.
      assert (Hl : (ilog2 y <= ilog2 x)%Z).
      { apply ilog2_mono; [exact Ny |]. rewrite !Qabs_neg by lra. lra. }
      destruct (Z.eq_dec (ulp_exp x) (ulp_exp y)) as [He | Hne].
      * rewrite He. now apply round_to_mono.
      * assert (Hlt : (ilog2 y < ilog2 x)%Z) by (unfold ulp_exp in *; lia).
        set (z := - pow2 (ilog2 x)).
        assert (Hzy : z <= y).
        { assert (pow2 (ilog2 y + 1) <= pow2 (ilog2 x)) by (apply pow2_le; lia).
          unfold z. lra. }
        assert (Hxz : x <= z) by (unfold z; lra).
        assert (Hm : forall e, (e <= ilog2 x)%Z ->
                     z == inject_Z (- 2 ^ (ilog2 x - e)) * pow2 e).
        { intros e He. unfold z. rewrite (pow2_multiple e (ilog2 x) He).
          rewrite inject_Z_opp. ring. }
        apply Qle_trans with (round_to (ulp_exp x) z); [now apply round_to_mono |].
        apply Qle_trans with (round_to (ulp_exp y) z); [| now apply round_to_mono].
        assert (Ex : (ulp_exp x <= ilog2 x)%Z) by (unfold ulp_exp in *; lia).
        assert (Ey : (ulp_exp y <= ilog2 x)%Z) by (unfold ulp_exp in *; lia).
        rewrite (round_to_multiple (ulp_exp x) _ z (Hm _ Ex)).
        rewrite (round_to_multiple (ulp_exp y) _ z (Hm _ Ey)).
        apply Qle_refl.
    + (* zero lies between them *)
      apply Qle_trans with 0.
      * rewrite <- (round_to_zero (ulp_exp x)). now apply round_to_mono.
      * rewrite <- (round_to_zero (ulp_exp y)). now apply round_to_mono.
Qed.

(** Powers of two within the format round to themselves. *)
Lemma nearest_pow2 (k : Z) : (-1074 <= k)%Z -> nearest (pow2 k) == pow2 k.
Proof.
  intros Hk. unfold nearest.
  pose proof (pow2_pos k) as Hp.
  assert (N : ~ pow2 k == 0) by lra.
  destruct (ilog2_spec (pow2 k) N) as [L U].
  rewrite Qabs_pos in L, U by lra.
  assert (Hi : ilog2 (pow2 k) = k).
  { apply Z.le_antisymm.
    - destruct (Z.lt_ge_cases k (ilog2 (pow2 k))) as [H | H]; [| exact H].
      assert (pow2 (k + 1) <= pow2 (ilog2 (pow2 k))) by (apply pow2_le; lia).
      assert (pow2 k < pow2 (k + 1)).
      { rewrite pow2_plus. change (pow2 1) with 2. lra. }
      lra.
    - apply pow2_lt_inv in U. lia. }
  apply (round_to_multiple _ (2 ^ (k - ulp_exp (pow2 k)))).
  apply pow2_multiple. unfold ulp_exp. rewrite Hi. lia.
Qed.

End Rounding.

Section FloatOrder.

Import F64.
Local Open Scope Q_scope.

Lemma rnd_cases (x : Q) :
  (rnd x = PInf /\ pow2 1024 <= nearest x) \/
  (rnd x = NInf /\ nearest x <= - pow2 1024) \/
  (rnd x = Fin (Qred (nearest x)) /\
   - pow2 1024 < nearest x /\ nearest x < pow2 1024).
Proof.
  unfold rnd; cbv zeta.
  destruct (Qle_bool (pow2 1024) (nearest x)) eqn:H1.
  - left. split; [reflexivity | now apply Qle_bool_iff].
  - destruct (Qle_bool (nearest x) (- pow2 1024)) eqn:H2.
    + right; left. split; [reflexivity | now apply Qle_bool_iff].
    + right; right. split; [reflexivity |].
      split; apply Qnot_le_lt; intros H; apply Qle_bool_iff in H; congruence.
Qed.

Lemma rnd_comp (x y : Q) : x == y -> rnd x = rnd y.
Proof. intros H. unfold rnd. now rewrite (nearest_comp x y H). Qed.

Lemma leb_Fin (a b : Q) : leb (Fin a) (Fin b) = true <-> a <= b.
Proof. simpl. apply Qle_bool_iff. Qed.

(** Rounding keeps the order of the results as well. *)
Lemma rnd_mono (x y : Q) : x <= y -> leb (rnd x) (rnd y) = true.
Proof.
  intros H. apply nearest_mono in H. pose proof (pow2_pos 1024) as Hp.
  destruct (rnd_cases x) as [[-> Hx] | [[-> Hx] | [-> [Hx Hx']]]];
    destruct (rnd_cases y) as [[-> Hy] | [[-> Hy] | [-> [Hy Hy']]]];
    try reflexivity; try (exfalso; lra).
  apply leb_Fin. now rewrite !Qred_correct.
Qed.

Lemma nan_or_le_refl (x : F64.t) : nan_or_le x x.
Proof.
  destruct x as [q | | |]; unfold nan_or_le; auto.
  right; right. apply leb_Fin, Qle_refl.
Qed.

Lemma nan_or_le_rnd (x y : Q) : x <= y -> nan_or_le (rnd x) (rnd y).
Proof. intros H. right; right. now apply rnd_mono. Qed.

Lemma is_zero_pos (c : Q) : 0 < c -> is_zero (Fin c) = false.
Proof.
  intros H. simpl. destruct (Qeq_bool c 0) eqn:E; [| reflexivity].
  apply Qeq_bool_iff in E. lra.
Qed.

Lemma negative_pos (c : Q) : 0 < c -> negative (Fin c) = false.
Proof.
  intros H. simpl. apply negb_false_iff, Qle_bool_iff. lra.
Qed.

(** Dividing by a positive number keeps the order. *)
Lemma nan_or_le_quot (c : Q) (x y : F64.t) :
  0 < c -> nan_or_le x y -> nan_or_le (quot x (Fin c)) (quot y (Fin c)).
Proof.
  intros Hc [-> | [-> | H]]; [left; reflexivity | right; left |].
  - destruct x; reflexivity.
  - destruct x as [a | | |], y as [b | | |]; try discriminate H;
      unfold quot; rewrite ?(negative_pos c Hc); simpl;
      try (right; right; reflexivity).
    + apply nan_or_le_rnd. apply leb_Fin in H.
      apply Qmult_le_compat_r; [exact H |].
      apply Qlt_le_weak, Qinv_lt_0_compat, Hc.
    + right; right. destruct (rnd_cases (a / c)) as [[-> _] | [[-> _] | [-> _]]];
        reflexivity.
    + right; right. destruct (rnd_cases (b / c)) as [[-> _] | [[-> _] | [-> _]]];
        reflexivity.
Qed.

(** Multiplying by a positive number keeps the order. *)
Lemma nan_or_le_mul (c : Q) (x y : F64.t) :
  0 < c -> nan_or_le x y -> nan_or_le (mul x (Fin c)) (mul y (Fin c)).
Proof.
  intros Hc [-> | [-> | H]]; [left; reflexivity | right; left |].
  - destruct x; reflexivity.
  - destruct x as [a | | |], y as [b | | |]; try discriminate H;
      unfold mul; rewrite ?(negative_pos c Hc), ?(is_zero_pos c Hc); simpl;
      try (right; right; reflexivity).
    + apply nan_or_le_rnd. apply leb_Fin in H.
      apply Qmult_le_compat_r; [exact H | lra].
    + right; right. destruct (rnd_cases (a * c)) as [[-> _] | [[-> _] | [-> _]]];
        reflexivity.
    + right; right. destruct (rnd_cases (b * c)) as [[-> _] | [[-> _] | [-> _]]];
        reflexivity.
Qed.

Lemma leb_rnd_PInf (x : Q) : leb (rnd x) PInf = true.
Proof. destruct (rnd_cases x) as [[-> _] | [[-> _] | [-> _]]]; reflexivity. Qed.

Lemma leb_NInf_rnd (x : Q) : leb NInf (rnd x) = true.
Proof. destruct (rnd_cases x) as [[-> _] | [[-> _] | [-> _]]]; reflexivity. Qed.

(** Adding keeps the order, in both arguments. *)
Lemma nan_or_le_add (x y x' y' : F64.t) :
  nan_or_le x x' -> nan_or_le y y' -> nan_or_le (add x y) (add x' y').
Proof.
  intros [-> | [-> | Hx]]; [left; reflexivity | right; left; reflexivity |].
  intros [-> | [-> | Hy]];
    [left; destruct x; reflexivity | right; left; destruct x'; reflexivity |].
  destruct x as [a | | |], x' as [a' | | |]; try discriminate Hx;
    destruct y as [b | | |], y' as [b' | | |]; try discriminate Hy;
    simpl; unfold nan_or_le; auto;
    try (right; right; reflexivity);
    try (right; right; apply leb_rnd_PInf);
    try (right; right; apply leb_NInf_rnd).
  apply nan_or_le_rnd. apply leb_Fin in Hx. apply leb_Fin in Hy. lra.
Qed.

(** [round] keeps the order of the floats it accepts. *)
Lemma round_mono (x y : F64.t) (r r' : Z) :
  nan_or_le x y -> Engine64.round x = Ok r -> Engine64.round y = Ok r' ->
  (r <= r')%Z.
Proof.
  intros H Hx Hy.
  destruct x as [a | | |]; try discriminate Hx.
  destruct y as [b | | |]; try discriminate Hy.
  simpl in Hx, Hy. injection Hx as <-. injection Hy as <-.
  apply py_round_mono.
  destruct H as [H | [H | H]]; try discriminate H. now apply leb_Fin.
Qed.

End FloatOrder.

Section Blend.

Import F64.
Local Open Scope Q_scope.

Lemma of_Q_9000 : of_Q 9000 = Fin 9000.
Proof. vm_compute. reflexivity. Qed.

Lemma of_Q_30 : of_Q 30 = Fin 30.
Proof. vm_compute. reflexivity. Qed.

Lemma of_Q_90 : of_Q 90 = Fin 90.
Proof. vm_compute. reflexivity. Qed.

Lemma of_Q_100 : of_Q 100 = Fin 100.
Proof. vm_compute. reflexivity. Qed.

(** The floats written [0.4] and [0.3]. *)
Lemma of_Q_tenths :
  of_Q (4 # 10) = Fin (3602879701896397 # 9007199254740992) /\
  of_Q (3 # 10) = Fin (5404319552844595 # 18014398509481984).
Proof. split; vm_compute; reflexivity. Qed.

(** The blend is the rounding of [raw_blend], clamped. *)
Lemma readiness_blend_raw (tgt : PhaseTargets) (v p : F64.t) (l : Z) :
  Engine64.readiness_blend tgt v p l =
  let* ml := Engine64.of_int l in
  let* r := Engine64.round (raw_blend v p ml) in
  Ok (Z.max 0 (Z.min 100 r)).
Proof.
  unfold Engine64.readiness_blend, raw_blend; cbv zeta.
  rewrite of_Q_9000, of_Q_30, of_Q_90, of_Q_100.
  replace (if negb (String.eqb (name tgt) "Peak") then Fin 9000 else Fin 9000)
    with (Fin 9000) by (destruct (negb _); reflexivity).
  unfold Engine64.truediv.
  rewrite !is_zero_pos by reflexivity. cbn [rbind].
  destruct (Engine64.of_int l) as [ml |]; reflexivity.
Qed.

Lemma raw_blend_mono (v v' p p' ml ml' : F64.t) :
  nan_or_le v v' -> nan_or_le p p' -> nan_or_le ml ml' ->
  nan_or_le (raw_blend v p ml) (raw_blend v' p' ml').
Proof.
  intros Hv Hp Hl. unfold raw_blend; cbv zeta.
  destruct of_Q_tenths as [-> ->].
  apply nan_or_le_mul; [reflexivity |].
  repeat apply nan_or_le_add;
    (apply nan_or_le_mul; [reflexivity |]);
    (apply nan_or_le_quot; [reflexivity | assumption]).
Qed.

Lemma of_int_mono (l l' : Z) (ml ml' : F64.t) :
  (l <= l')%Z -> Engine64.of_int l = Ok ml -> Engine64.of_int l' = Ok ml' ->
  nan_or_le ml ml'.
Proof.
  intros H Hl Hl'. unfold Engine64.of_int in *.
  rewrite Zle_Qle in H. apply rnd_mono in H.
  destruct (rnd (inject_Z l)) as [a | | |]; try discriminate Hl.
  destruct (rnd (inject_Z l')) as [b | | |]; try discriminate Hl'.
  injection Hl as <-. injection Hl' as <-. right; right. exact H.
Qed.

Lemma readiness_blend_mono (tgt : PhaseTargets) (v v' p p' : F64.t) (l l' s s' : Z) :
  nan_or_le v v' -> nan_or_le p p' -> (l <= l')%Z ->
  Engine64.readiness_blend tgt v p l = Ok s ->
  Engine64.readiness_blend tgt v' p' l' = Ok s' ->
  (s <= s')%Z.
Proof.
  intros Hv Hp Hl. rewrite !readiness_blend_raw.
  destruct (Engine64.of_int l) as [ml |] eqn:El; [| discriminate].
  destruct (Engine64.of_int l') as [ml' |] eqn:El'; [| discriminate].
  cbn [rbind].
  destruct (Engine64.round (raw_blend v p ml)) as [r |] eqn:Er; [| discriminate].
  destruct (Engine64.round (raw_blend v' p' ml')) as [r' |] eqn:Er'; [| discriminate].
  cbn [rbind]. intros [= <-] [= <-].
  assert (r <= r')%Z; [| lia].
  apply (round_mono _ _ _ _
           (raw_blend_mono _ _ _ _ _ _ Hv Hp (of_int_mono _ _ _ _ Hl El El')) Er Er').
Qed.

(** *** Floats that cannot overflow *)

Lemma pow2_succ (k : Z) : pow2 (k + 1) == 2 * pow2 k.
Proof. rewrite pow2_plus. change (pow2 1) with 2. ring. Qed.

Lemma rnd_within (k : Z) (x : Q) :
  (-1074 <= k <= 1023)%Z -> 0 <= x <= pow2 k -> within k (rnd x).
Proof.
  intros Hk [H0 H1]. apply nearest_mono in H0, H1.
  rewrite nearest_zero in H0. rewrite (nearest_pow2 k) in H1 by lia.
  assert (Hlt : pow2 k < pow2 1024).
  { apply Qlt_le_trans with (pow2 (k + 1)); [| apply pow2_le; lia].
    rewrite pow2_succ. pose proof (pow2_pos k). lra. }
  pose proof (pow2_pos 1024) as Hp.
  destruct (rnd_cases x) as [[_ Hx] | [[_ Hx] | [-> _]]]; try (exfalso; lra).
  exists (Qred (nearest x)). split; [reflexivity |].
  rewrite Qred_correct. split; assumption.
Qed.

Lemma within_weaken (k k' : Z) (x : F64.t) :
  (k <= k')%Z -> within k x -> within k' x.
Proof.
  intros Hk (q & -> & H0 & H1). exists q. split; [reflexivity |].
  split; [exact H0 |]. apply Qle_trans with (pow2 k); [exact H1 |].
  now apply pow2_le.
Qed.

Lemma within_quot (k : Z) (c : Q) (x : F64.t) :
  (-1074 <= k <= 1023)%Z -> 1 <= c -> within k x -> within k (quot x (Fin c)).
Proof.
  intros Hk Hc (q & -> & H0 & H1). unfold quot.
  apply rnd_within; [exact Hk |].
  pose proof (pow2_pos k) as Hp. split.
  - apply Qle_shift_div_l; lra.
  - apply Qle_shift_div_r; [lra |].
    apply Qle_trans with (pow2 k * 1); [lra |].
    apply Qmult_le_l; lra.
Qed.

Lemma within_mul (k j : Z) (x y : F64.t) :
  (-1074 <= k + j <= 1023)%Z -> within k x -> within j y ->
  within (k + j) (mul x y).
Proof.
  intros Hk (q & -> & H0 & H1) (c & -> & C0 & C1). unfold mul.
  apply rnd_within; [exact Hk |]. split.
  - now apply Qmult_le_0_compat.
  - rewrite pow2_plus. apply Qmult_le_compat_nonneg; split; assumption.
Qed.

Lemma within_add (k : Z) (x y : F64.t) :
  (-1074 <= k + 1 <= 1023)%Z -> within k x -> within k y ->
  within (k + 1) (add x y).
Proof.
  intros Hk (q & -> & H0 & H1) (c & -> & C0 & C1). unfold add.
  apply rnd_within; [exact Hk |]. rewrite pow2_succ. lra.
Qed.

Lemma within_Fin (k : Z) (c : Q) : 0 <= c <= pow2 k -> within k (Fin c).
Proof. intros H. now exists c. Qed.

Lemma within_of_Q (k : Z) (c : Q) :
  (-1074 <= k <= 1023)%Z -> 0 <= c <= pow2 k -> within k (of_Q c).
Proof. apply rnd_within. Qed.

Lemma within_of_int (k : Z) (n : Z) :
  (0 <= k <= 1023)%Z -> (0 <= n <= 2 ^ k)%Z ->
  exists x, Engine64.of_int n = Ok x /\ within k x.
Proof.
  intros Hk [H0 H1]. unfold Engine64.of_int.
  destruct (rnd_within k (inject_Z n)) as (q & -> & Hq); [lia | |].
  - rewrite pow2_inject by lia. change 0 with (inject_Z 0).
    rewrite <- !Zle_Qle. now split.
  - exists (Fin q). split; [reflexivity |]. now exists q.
Qed.

Lemma within_round (k : Z) (x : F64.t) :
  within k x -> exists r, Engine64.round x = Ok r /\ (0 <= r)%Z.
Proof.
  intros (q & -> & H0 & _). exists (py_round q). split; [reflexivity |].
  change 0%Z with (py_round 0). now apply py_round_mono.
Qed.

(** Inputs up to [2 ^ 1000] leave the blend far from overflow. *)
Lemma raw_blend_within (v p ml : F64.t) :
  within 1000 v -> within 1000 p -> within 1000 ml ->
  within 1009 (raw_blend v p ml).
Proof.
  intros Hv Hp Hl. unfold raw_blend; cbv zeta.
  assert (T : forall c, 0 <= c <= 1 -> within 0 (of_Q c)).
  { intros c Hc. apply within_of_Q; [lia |]. change (pow2 0) with 1. exact Hc. }
  assert (D : forall c x, 1 <= c -> within 1000 x ->
              forall d, 0 <= d <= 1 -> within 1000 (mul (quot x (Fin c)) (of_Q d))).
  { intros c x Hc Hx d Hd.
    apply (within_mul 1000 0); [lia | | now apply T].
    apply within_quot; [lia | exact Hc | exact Hx]. }
  apply (within_mul 1002 7); [lia | |].
  - apply (within_add 1001); [lia | |].
    + apply (within_add 1000); [lia | |]; apply D; assumption || lra.
    + apply (within_weaken 1000); [lia |]. apply D; assumption || lra.
  - apply within_Fin. rewrite pow2_inject by lia.
    change (inject_Z (2 ^ 7)) with 128. lra.
Qed.

Lemma readiness_blend_clamped (tgt : PhaseTargets) (v p : F64.t) (l s : Z) :
  Engine64.readiness_blend tgt v p l = Ok s -> (0 <= s <= 100)%Z.
Proof.
  rewrite readiness_blend_raw.
  destruct (Engine64.of_int l) as [ml |]; [| discriminate]. cbn [rbind].
  destruct (Engine64.round _) as [r |]; [| discriminate]. cbn [rbind].
  intros [= <-]. lia.
Qed.

Lemma readiness_blend_returns (tgt : PhaseTargets) (v p : F64.t) (l : Z) :
  within 1000 v -> within 1000 p -> (0 <= l <= 2 ^ 1000)%Z ->
  exists s, Engine64.readiness_blend tgt v p l = Ok s /\ (0 <= s <= 100)%Z.
Proof.
  intros Hv Hp Hl. rewrite readiness_blend_raw.
  destruct (within_of_int 1000 l ltac:(lia) Hl) as (ml & -> & Hml). cbn [rbind].
  destruct (within_round _ _ (raw_blend_within _ _ _ Hv Hp Hml)) as (r & -> & Hr).
  cbn [rbind]. eexists. split; [reflexivity | lia].
Qed.

End Blend.

(** ** The readiness score in binary64 *)

Lemma readiness_blend_raises (tgt : PhaseTargets) (v p : F64.t) (l : Z) (e : exn) :
  Engine64.readiness_blend tgt v p l = Raise e ->
  e = OverflowError \/ e = ValueError.
Proof.
  rewrite readiness_blend_raw. unfold Engine64.of_int.
  destruct (F64.rnd (inject_Z l)) as [q | | |]; cbn [rbind];
    try (intros [= <-]; now left).
  destruct (raw_blend v p (F64.Fin q)) as [r | | |]; cbn [Engine64.round rbind];
    try discriminate; intros [= <-]; auto.
Qed.

Lemma readiness_score64_clamped (db : table) (now today : date) (s : Z) :
  Engine64.readiness_score db now today = Ok s -> 0 <= s <= 100.
Proof.
  unfold Engine64.readiness_score. intros H.
  repeat match type of H with
         | rbind ?m _ = Ok _ =>
             let a := fresh "a" in
             destruct m as [a |]; cbn [rbind] in H; [| discriminate];
             try (destruct a as [? ?])
         end.
  all: now apply readiness_blend_clamped in H.
Qed.

(** C8: the score in the arithmetic of the program.  As a function of
    the mean vertical, the mean pack and the longest session, the blend
    of [readiness_score] does not decrease when one of them grows and
    the other two are kept, wherever it returns; it returns, with a
    value between 0 and 100, on all inputs from 0 to [2 ^ 1000], a mean
    vertical of 50000 included; whatever it returns lies between 0 and
    100, and so does whatever [readiness_score] returns; and when it
    does not return it raises [OverflowError] or [ValueError]. *)
Theorem readiness_score_monotone_where_it_returns :
  (forall tgt v v' p l s s',
     F64.leb v v' = true ->
     Engine64.readiness_blend tgt v p l = Ok s ->
     Engine64.readiness_blend tgt v' p l = Ok s' -> s <= s') /\
  (forall tgt v p p' l s s',
     F64.leb p p' = true ->
     Engine64.readiness_blend tgt v p l = Ok s ->
     Engine64.readiness_blend tgt v p' l = Ok s' -> s <= s') /\
  (forall tgt v p l l' s s',
     l <= l' ->
     Engine64.readiness_blend tgt v p l = Ok s ->
     Engine64.readiness_blend tgt v p l' = Ok s' -> s <= s') /\
  (forall tgt v p l,
     within 1000 v -> within 1000 p -> 0 <= l <= 2 ^ 1000 ->
     exists s, Engine64.readiness_blend tgt v p l = Ok s /\ 0 <= s <= 100) /\
  (forall tgt p l,
     within 1000 p -> 0 <= l <= 2 ^ 1000 ->
     exists s,
       Engine64.readiness_blend tgt (F64.Fin 50000) p l = Ok s /\ 0 <= s <= 100) /\
  (forall tgt v p l s,
     Engine64.readiness_blend tgt v p l = Ok s -> 0 <= s <= 100) /\
  (forall tgt v p l e,
     Engine64.readiness_blend tgt v p l = Raise e ->
     e = OverflowError \/ e = ValueError) /\
  (forall db now today s,
     Engine64.readiness_score db now today = Ok s -> 0 <= s <= 100).
Proof.
  split; [| split; [| split; [| split; [| split; [| split; [| split]]]]]].
  - intros tgt v v' p l s s' Hv.
    apply readiness_blend_mono;
      [right; right; exact Hv | apply nan_or_le_refl | lia].
  - intros tgt v p p' l s s' Hp.
    apply readiness_blend_mono;
      [apply nan_or_le_refl | right; right; exact Hp | lia].
  - intros tgt v p l l' s s' Hl.
    apply readiness_blend_mono; [apply nan_or_le_refl .. | exact Hl].
  - intros tgt v p l. apply readiness_blend_returns.
  - intros tgt p l. apply readiness_blend_returns.
    apply within_Fin. split; [lra |].
    apply Qle_trans with (F64.pow2 16); [| apply pow2_le; lia].
    rewrite pow2_inject by lia. change (inject_Z (2 ^ 16)) with 65536%Q. lra.
  - intros tgt v p l s. apply readiness_blend_clamped.
  - intros tgt v p l e. apply readiness_blend_raises.
  - intros db now today s. apply readiness_score64_clamped.
Qed.

Lemma readiness_score_monotone_where_it_returns_witness :
  (16 <= 20) /\ (16 <= 19) /\ (16 <= 21) /\
  (exists s,
     Engine64.readiness_blend peak_targets (F64.Fin 3000) (F64.Fin 20) 60 = Ok s /\
     0 <= s <= 100) /\
  (exists s,
     Engine64.readiness_blend peak_targets (F64.Fin 50000) (F64.Fin 20) 60 = Ok s /\
     0 <= s <= 100) /\
  0 <= 23 <= 100.
Proof.
  destruct readiness_score_monotone_where_it_returns
    as (Hv & Hp & Hl & Hr & H5 & _ & _ & Hs).
  assert (W : forall q : Q, (0 <= q <= 65536)%Q -> within 1000 (F64.Fin q)).
  { intros q Hq. apply within_Fin. split; [apply Hq |].
    apply Qle_trans with (F64.pow2 16); [| apply pow2_le; lia].
    rewrite pow2_inject by lia. apply Hq. }
  split; [| split; [| split; [| split; [| split]]]].
  - apply (Hv peak_targets (F64.Fin 0) (F64.Fin 900) (F64.Fin 6) 30);
      vm_compute; reflexivity.
  - apply (Hp peak_targets (F64.Fin 0) (F64.Fin 6) (F64.Fin 9) 30);
      vm_compute; reflexivity.
  - apply (Hl peak_targets (F64.Fin 0) (F64.Fin 6) 30 45);
      [lia | vm_compute; reflexivity ..].
  - apply Hr; [apply W | apply W | split; [lia | vm_compute; discriminate]];
      split; vm_compute; discriminate.
  - apply H5; [apply W | split; [lia | vm_compute; discriminate]];
      split; vm_compute; discriminate.
  - apply (Hs [Workout.mk 1 (mkdate 2025 11 4) "incline" 60 2 10 6 9 None]
              (mkdate 2025 11 4) (mkdate 2025 11 4)).
    vm_compute. reflexivity.
Defined.

(** The largest float, 1.7976931348623157e308, as a pack weight in two
    of the last four weeks: the four means of the series add up to
    infinity, the blend is infinite, and [round] raises. *)
Lemma readiness_score_overflow_raises :
  let big := inject_Z (2 ^ 1024 - 2 ^ 971) in
  let today := mkdate 2025 11 4 in
  let db := [Workout.mk 1 (mkdate 2025 10 28) "incline" 60 2 10 big 5 None;
             Workout.mk 2 (mkdate 2025 11 4) "incline" 60 2 10 big 5 None] in
  table_valid db /\ table_ok db /\ in_service today /\
  F64.of_Q big = F64.Fin big /\
  (exists st,
     Engine64.last_n_weeks_series db today 4 = Ok st /\
     Engine64.sum (Engine64.packs st) = F64.PInf) /\
  Engine64.readiness_blend taper_targets (F64.Fin 528) F64.PInf 60 =
    Raise OverflowError /\
  Engine64.readiness_score db today today = Raise OverflowError /\
  ~ (exists s, Engine64.readiness_score db today today = Ok s /\ 0 <= s <= 100).
Proof.
  intros big today db.
  split; [repeat constructor |].
  split.
  { repeat (constructor;
            [repeat split;
             first [now left | vm_compute; discriminate | vm_compute; reflexivity] |]).
    constructor. }
  split; [split; [reflexivity | split; vm_compute; discriminate] |].
  split; [vm_compute; reflexivity |].
  split; [eexists; split; [vm_compute; reflexivity | vm_compute; reflexivity] |].
  split; [vm_compute; reflexivity |].
  assert (H : Engine64.readiness_score db today today = Raise OverflowError)
    by (vm_compute; reflexivity).
  split; [exact H |]. intros (s & Hs & _). congruence.
Qed.

(** ** The engine in binary64 *)

Section EngineFacts.

Import F64.
Local Open Scope Q_scope.

Lemma rnd_between (j k : Z) (x : Q) :
  (-1074 <= j <= k)%Z -> (k <= 1023)%Z -> pow2 j <= x <= pow2 k ->
  exists q, rnd x = Fin q /\ pow2 j <= q <= pow2 k.
Proof.
  intros Hj Hk [H0 H1]. apply nearest_mono in H0, H1.
  rewrite (nearest_pow2 j) in H0 by lia. rewrite (nearest_pow2 k) in H1 by lia.
  assert (Hlt : pow2 k < pow2 1024).
  { apply Qlt_le_trans with (pow2 (k + 1)); [| apply pow2_le; lia].
    rewrite pow2_succ. pose proof (pow2_pos k). lra. }
  pose proof (pow2_pos 1024) as Hp. pose proof (pow2_pos j) as Hpj.
  destruct (rnd_cases x) as [[_ Hx] | [[_ Hx] | [-> _]]]; try (exfalso; lra).
  exists (Qred (nearest x)). split; [reflexivity |].
  rewrite Qred_correct. split; assumption.
Qed.

Lemma inject_Z_pow2 (n k : Z) :
  (0 <= k)%Z -> (n <= 2 ^ k)%Z -> inject_Z n <= pow2 k.
Proof. intros Hk H. rewrite pow2_inject by lia. now rewrite <- Zle_Qle. Qed.

(** The conversion of a positive [int] far from overflow. *)
Lemma of_int_pos (k n : Z) :
  (0 <= k <= 1023)%Z -> (1 <= n <= 2 ^ k)%Z ->
  exists q, rnd (inject_Z n) = Fin q /\ 1 <= q <= pow2 k /\
            Engine64.of_int n = Ok (Fin q) /\ is_zero (Fin q) = false.
Proof.
  intros Hk [H1 H2].
  destruct (rnd_between 0 k (inject_Z n)) as (q & Hq & Hb); [lia | lia | |].
  - change (pow2 0) with 1. split; [| now apply inject_Z_pow2; lia].
    change 1 with (inject_Z 1). now rewrite <- Zle_Qle.
  - change (pow2 0) with 1 in Hb. exists q. split; [exact Hq |].
    split; [exact Hb |]. unfold Engine64.of_int. rewrite Hq.
    split; [reflexivity | apply is_zero_pos; lra].
Qed.

Lemma of_int_zero : Engine64.of_int 0 = Ok (Fin 0).
Proof. vm_compute. reflexivity. Qed.

Lemma of_int_nonneg (k n : Z) :
  (0 <= k <= 1023)%Z -> (0 <= n <= 2 ^ k)%Z ->
  Engine64.of_int n = Ok (rnd (inject_Z n)) /\ within k (rnd (inject_Z n)).
Proof.
  intros Hk Hn. destruct (within_of_int k n Hk Hn) as (x & Hx & Hw).
  unfold Engine64.of_int in Hx |- *.
  destruct (rnd (inject_Z n)) as [q | | |]; try discriminate Hx.
  injection Hx as <-. split; [reflexivity | exact Hw].
Qed.

Lemma truediv_pos (x : F64.t) (q : Q) :
  0 < q -> Engine64.truediv x (Fin q) = Ok (quot x (Fin q)).
Proof. intros H. unfold Engine64.truediv. now rewrite is_zero_pos. Qed.

(** *** The rows that the aggregation reads *)

Lemma selected_rows_eq (db : table) (start end_ : date) :
  table_valid db -> valid start -> valid end_ ->
  List.filter
    (fun w => PyDate.leb start (Workout.session_date w) &&
              PyDate.ltb (Workout.session_date w) end_) db =
  rows_between db (toordinal start) (toordinal end_ - 1).
Proof.
  intros Hdb Hs He. unfold rows_between. apply List.filter_ext_in.
  intros w Hin. pose proof (table_valid_In db w Hdb Hin) as Hw.
  rewrite leb_ord, ltb_ord by assumption. f_equal.
  apply eq_true_iff_eq. rewrite Z.ltb_lt, Z.leb_le. lia.
Qed.

Lemma selected_Forall (P : Workout.t -> Prop) (db : table) (lo hi : Z) :
  Forall P db -> Forall P (order_by_date (rows_between db lo hi)).
Proof.
  intros H. apply (Permutation_Forall (Permutation_sym (order_by_date_perm _))).
  unfold rows_between. rewrite List.Forall_forall in *.
  intros w Hin. apply List.filter_In in Hin as [Hin _]. auto.
Qed.

Lemma selected_length (db : table) (lo hi : Z) :
  (length (order_by_date (rows_between db lo hi)) <= length db)%nat.
Proof.
  rewrite (Permutation_length (order_by_date_perm _)).
  unfold rows_between. apply List.filter_length_le.
Qed.

Lemma row_stored_factor (w : Workout.t) :
  row_stored w ->
  (1 <= Workout.duration_min w * Z.max (Workout.rpe w) 1 <= 2 ^ 67)%Z.
Proof.
  intros [(_ & Hd & Hr & _) Hs]. unfold sqlite_integer in Hs.
  apply andb_true_iff in Hs as [_ Hs]. apply Z.ltb_lt in Hs.
  rewrite Z.max_l by lia.
  change (2 ^ 67)%Z with (2 ^ 63 * 16)%Z. nia.
Qed.

Lemma session_stress_stored (w : Workout.t) :
  row_stored w -> Engine64.session_stress w = Ok (stress64 w).
Proof.
  intros Hw. unfold Engine64.session_stress, stress64; cbv zeta.
  pose proof (row_stored_factor w Hw) as Hf.
  destruct (of_int_nonneg 67 (Workout.duration_min w * Z.max (Workout.rpe w) 1))
    as [-> _]; [lia | lia | reflexivity].
Qed.

Lemma mapM_stress_stored (rows : table) :
  Forall row_stored rows ->
  Engine64.mapM Engine64.session_stress rows = Ok (map stress64 rows).
Proof.
  induction 1 as [| w rows Hw _ IH]; [reflexivity |].
  cbn [Engine64.mapM map]. rewrite (session_stress_stored w Hw); cbn [rbind].
  rewrite IH. reflexivity.
Qed.

(** The value of [sum_week_metrics] on a table as the store holds it. *)
Lemma sum_week_metrics64_rows (db : table) (start end_ : date) :
  table_valid db -> table_stored db -> valid start -> valid end_ ->
  let rows :=
    order_by_date (rows_between db (toordinal start) (toordinal end_ - 1)) in
  exists m,
    Engine64.sum_week_metrics db start end_ = Ok m /\
    Engine64.vert m = total_vert64 rows /\
    Engine64.stress m = total_stress64 rows /\
    Engine64.avg_pack m = mean_pack64 rows /\
    Engine64.max_long m = longest rows /\
    Engine64.count m = rnd (inject_Z (Z.of_nat (length rows))).
Proof.
  intros Hdb [Hst Hlen] Hs He rows.
  unfold Engine64.sum_week_metrics; cbv zeta.
  rewrite (selected_rows_eq db start end_ Hdb Hs He). fold rows.
  assert (Hrows : Forall row_stored rows) by (apply selected_Forall, Hst).
  assert (Hl : (0 <= Z.of_nat (length rows) <= 2 ^ 53)%Z).
  { pose proof (selected_length db (toordinal start) (toordinal end_ - 1)).
    fold rows in H. lia. }
  rewrite (mapM_stress_stored rows Hrows); cbn [rbind].
  destruct (of_int_nonneg 53 _ ltac:(lia) Hl) as [Hcount _].
  assert (Havg :
    match rows with
    | [] => Ok (Fin 0)
    | _ :: _ =>
        let* n := Engine64.of_int (Z.of_nat (length rows)) in
        Engine64.truediv
          (Engine64.sum (map (fun w => of_Q (Workout.pack_lb w)) rows)) n
    end = Ok (mean_pack64 rows)).
  { unfold mean_pack64. destruct rows as [| r rs] eqn:E; [reflexivity |].
    destruct (of_int_pos 53 (Z.of_nat (length (r :: rs))) ltac:(lia))
      as (q & Hq & Hb & Hoi & Hz); [simpl length in *; lia |].
    rewrite Hoi; cbn [rbind]. rewrite Hq.
    apply truediv_pos. lra. }
  rewrite Havg; cbn [rbind]. rewrite Hcount; cbn [rbind].
  rewrite of_int_zero; cbn [rbind].
  eexists. split; [reflexivity |]. cbn. repeat split.
Qed.

End EngineFacts.

(** ** Risk flags in binary64 *)

Section RiskFlags64.

Import F64.
Local Open Scope Q_scope.

Lemma of_Q_consts :
  of_Q (125 # 100) = Fin (5 # 4) /\ of_Q 5 = Fin 5 /\ of_Q 7 = Fin 7 /\
  of_Q (7 # 10) = Fin (3152519739159347 # 4503599627370496).
Proof. repeat split; vm_compute; reflexivity. Qed.

(** The divisor of the ratios of the undertraining rule. *)
Lemma ratio64_ok (x : F64.t) (d : date) (tgt : PhaseTargets) :
  valid d -> phase_for d = Ok tgt ->
  (if negb (vert_min tgt =? 0)%Z
   then let* n := Engine64.of_int (Z.max (vert_min tgt) 1) in Engine64.truediv x n
   else Ok (Fin 0)) =
  Ok (quot x (Fin (inject_Z (vert_min tgt)))).
Proof.
  intros Hv Hp. destruct (phase_for_vert_min d tgt Hv Hp) as [Hin _].
  simpl in Hin. destruct Hin as [<- | [<- | [<- | [<- | []]]]]; reflexivity.
Qed.

(** The three week-over-week rules of [risk_flags] in terms of the rows
    of the two weeks, in the arithmetic of the program. *)
Lemma risk_flags64_weekly_rules (db : table) (today : date) :
  in_service today -> table_valid db -> table_stored db ->
  let tv := total_vert64 (week_rows_by_date db (monday_of today)) in
  let pv := total_vert64 (week_rows_by_date db (monday_of today - 7)) in
  let tp := mean_pack64 (week_rows_by_date db (monday_of today)) in
  let pp := mean_pack64 (week_rows_by_date db (monday_of today - 7)) in
  exists tgt flags,
    phase_for today = Ok tgt /\ (0 < vert_min tgt)%Z /\
    Engine64.risk_flags db today = Ok flags /\
    flags !! "overuse_vertical" =
      (if ltb (Fin 0) pv && ltb (mul pv (Fin (5 # 4))) tv
       then Some "Vertical increased >25% week-over-week."%string else None) /\
    flags !! "overuse_pack" =
      (if ltb (Fin 5) (sub tp pp)
       then Some "Average pack increased >5 lb week-over-week."%string else None) /\
    flags !! "undertraining" =
      (if ltb (quot tv (Fin (inject_Z (vert_min tgt)))) (of_Q (7 # 10)) &&
          ltb (quot pv (Fin (inject_Z (vert_min tgt)))) (of_Q (7 # 10))
       then Some "You hit <70% of weekly vertical target for 2 weeks."%string
       else None).
Proof.
  intros Hs Hdb Hst tv pv tp pp.
  pose proof Hs as Hs'. apply in_service_bounds in Hs' as (Hv & Hlo & Hd & Hhi).
  destruct (week_range_ok today Hv Hhi) as (ws & we & Hw & Hvs & Hve & Hos & Hoe).
  destruct (sub_days_ok ws 7) as (pws & Hpws & Hvpws & Hopws); [lia |].
  destruct (sub_days_ok we 7) as (pwe & Hpwe & Hvpwe & Hopwe); [lia |].
  destruct (sub_days_ok today 7) as (d7 & Hd7 & Hvd7 & Hod7); [lia |].
  destruct (sub_days_ok today 14) as (d14 & Hd14 & Hvd14 & Hod14); [lia |].
  destruct (sum_week_metrics64_rows db ws we Hdb Hst Hvs Hve)
    as (this & Hthis & Hv1 & _ & Hp1 & _).
  destruct (sum_week_metrics64_rows db pws pwe Hdb Hst Hvpws Hvpwe)
    as (prev & Hprev & Hv2 & _ & Hp2 & _).
  rewrite Hos, Hoe in Hv1, Hp1. rewrite Hopws, Hopwe, Hos, Hoe in Hv2, Hp2.
  replace (monday_of today + 7 - 1)%Z with (monday_of today + 6)%Z in Hv1, Hp1 by lia.
  replace (monday_of today + 7 - 7 - 1)%Z with (monday_of today - 7 + 6)%Z
    in Hv2, Hp2 by lia.
  change (order_by_date (rows_between db (monday_of today) (monday_of today + 6)))
    with (week_rows_by_date db (monday_of today)) in Hv1, Hp1.
  change (order_by_date
            (rows_between db (monday_of today - 7) (monday_of today - 7 + 6)))
    with (week_rows_by_date db (monday_of today - 7)) in Hv2, Hp2.
  fold tv in Hv1. fold pv in Hv2. fold tp in Hp1. fold pp in Hp2.
  pose proof (phase_for_eq today Hv) as Hphase.
  destruct (phase_for_vert_min today _ Hv Hphase) as [_ Hvm].
  eexists. eexists. split; [exact Hphase |]. split; [exact Hvm |].
  unfold Engine64.risk_flags.
  rewrite Hw; cbn [rbind]. rewrite Hpws; cbn [rbind]. rewrite Hpwe; cbn [rbind].
  rewrite Hthis; cbn [rbind]. rewrite Hprev; cbn [rbind].
  rewrite Hd7; cbn [rbind]. rewrite Hphase; cbn [rbind].
  rewrite !(ratio64_ok _ today _ Hv Hphase); cbn [rbind].
  rewrite Hd14; cbn [rbind].
  destruct of_Q_consts as (-> & -> & _ & _).
  rewrite Hv1, Hv2, Hp1, Hp2.
  split; [reflexivity |]. split; [| split].
  - rewrite !lookup_flag_if_ne by discriminate. rewrite lookup_flag_if_eq.
    rewrite lookup_empty. reflexivity.
  - rewrite !lookup_flag_if_ne by discriminate. rewrite lookup_flag_if_eq.
    rewrite lookup_flag_if_ne by discriminate. rewrite lookup_empty. reflexivity.
  - rewrite lookup_flag_if_ne by discriminate. rewrite lookup_flag_if_eq.
    rewrite !lookup_flag_if_ne by discriminate. rewrite lookup_empty. reflexivity.
Qed.

Lemma flag_iff (c : bool) (v : string) (P : Prop) :
  (c = true <-> P) ->
  ((if c then Some v else None) = Some v <-> P) /\
  ((if c then Some v else None) = None <-> ~ P).
Proof.
  intros H. destruct c.
  - split; [tauto |]. split; [discriminate | tauto].
  - split; [split; [discriminate | intros HP; apply H in HP; discriminate] |].
    split; [intros _ HP; apply H in HP; discriminate | reflexivity].
Qed.

(** X7: in the arithmetic of the program, the flag [overuse_vertical]
    is raised exactly when the vertical of the previous week, summed in
    the order of the dates, is positive and its product with 1.25,
    rounded, is below the vertical of this week; it is never raised
    after a week without vertical. *)
Theorem overuse_vertical_rule (db : table) (today : date) :
  in_service today -> table_valid db -> table_stored db ->
  let tv := total_vert64 (week_rows_by_date db (monday_of today)) in
  let pv := total_vert64 (week_rows_by_date db (monday_of today - 7)) in
  let raised :=
    ltb (Fin 0) pv = true /\ ltb (mul pv (Fin (5 # 4))) tv = true in
  exists flags,
    Engine64.risk_flags db today = Ok flags /\
    (flags !! "overuse_vertical" = Some "Vertical increased >25% week-over-week."
     <-> raised) /\
    (flags !! "overuse_vertical" = None <-> ~ raised) /\
    (week_rows db (monday_of today - 7) = [] ->
     flags !! "overuse_vertical" = None).
Proof.
  intros Hs Hdb Hst tv pv raised.
  destruct (risk_flags64_weekly_rules db today Hs Hdb Hst)
    as (tgt & flags & _ & _ & Hrf & Hflag & _).
  fold tv pv in Hflag. exists flags. split; [exact Hrf |]. rewrite Hflag.
  destruct (flag_iff (ltb (Fin 0) pv && ltb (mul pv (Fin (5 # 4))) tv)
              "Vertical increased >25% week-over-week." raised) as [H1 H2];
    [apply andb_true_iff |].
  split; [exact H1 |]. split; [exact H2 |].
  intros Hnil. apply H2. intros [Hpos _]. subst pv.
  unfold week_rows_by_date in Hpos. rewrite Hnil in Hpos. discriminate Hpos.
Qed.

(** X8: in the arithmetic of the program, the flag [overuse_pack] is
    raised exactly when the difference of the mean pack weights of this
    week and of the previous one, rounded, is above 5; the mean of a
    week is the rounded quotient of the sum of its pack weights, added
    in the order of the dates, by their number, and 0 without rows, so
    that two weeks without rows do not raise the flag. *)
Theorem overuse_pack_rule (db : table) (today : date) :
  in_service today -> table_valid db -> table_stored db ->
  let tp := mean_pack64 (week_rows_by_date db (monday_of today)) in
  let pp := mean_pack64 (week_rows_by_date db (monday_of today - 7)) in
  exists flags,
    Engine64.risk_flags db today = Ok flags /\
    (flags !! "overuse_pack" = Some "Average pack increased >5 lb week-over-week."
     <-> ltb (Fin 5) (sub tp pp) = true) /\
    (flags !! "overuse_pack" = None <-> ltb (Fin 5) (sub tp pp) = false) /\
    (week_rows db (monday_of today) = [] ->
     week_rows db (monday_of today - 7) = [] ->
     flags !! "overuse_pack" = None).
Proof.
  intros Hs Hdb Hst tp pp.
  destruct (risk_flags64_weekly_rules db today Hs Hdb Hst)
    as (tgt & flags & _ & _ & Hrf & _ & Hflag & _).
  fold tp pp in Hflag. exists flags. split; [exact Hrf |]. rewrite Hflag.
  assert (Hnil : week_rows db (monday_of today) = [] ->
                 week_rows db (monday_of today - 7) = [] ->
                 ltb (Fin 5) (sub tp pp) = false).
  { intros H1 H2. subst tp pp. unfold week_rows_by_date. rewrite H1, H2.
    vm_compute. reflexivity. }
  destruct (ltb (Fin 5) (sub tp pp)).
  - split; [tauto |]. split; [split; discriminate |].
    intros H1 H2. specialize (Hnil H1 H2). discriminate.
  - split; [split; discriminate |]. split; [tauto | reflexivity].
Qed.

(** A ratio that the program finds below [0.7] is below 7/10. *)
Lemma ratio64_below (a : Q) (vm : Z) :
  (0 < vm)%Z ->
  ltb (quot (Fin a) (Fin (inject_Z vm))) (of_Q (7 # 10)) = true ->
  a < (7 # 10) * inject_Z vm.
Proof.
  intros Hvm H.
  assert (Hc : 0 < inject_Z vm)
    by (change 0 with (inject_Z 0); rewrite <- Zlt_Qlt; exact Hvm).
  apply Qnot_le_lt. intros Hle.
  assert (Hq : 7 # 10 <= a / inject_Z vm) by (apply Qle_shift_div_l; assumption).
  apply rnd_mono in Hq. unfold quot, of_Q in H.
  destruct (rnd (7 # 10)) as [c | | |] eqn:Ec; try discriminate Hq;
    destruct (rnd (a / inject_Z vm)) as [r | | |]; try discriminate Hq;
    try discriminate H.
  simpl in H, Hq. rewrite Hq in H. discriminate H.
Qed.

(** X9: in the arithmetic of the program, the flag [undertraining] is
    raised exactly when the vertical of this week and that of the
    previous week, each divided by the lower vertical target of the
    phase of [today] and rounded, are both below the float [0.7]; that
    target is never zero, so the zero guard of the ratio is not taken.
    A week that raises the flag has a vertical below 70 % of the target,
    and a vertical of at least 70 % of the target never raises it. *)
Theorem undertraining_rule (db : table) (today : date) :
  in_service today -> table_valid db -> table_stored db ->
  let tv := total_vert64 (week_rows_by_date db (monday_of today)) in
  let pv := total_vert64 (week_rows_by_date db (monday_of today - 7)) in
  exists tgt flags,
    phase_for today = Ok tgt /\ (0 < vert_min tgt)%Z /\
    Engine64.risk_flags db today = Ok flags /\
    let below x :=
      ltb (quot x (Fin (inject_Z (vert_min tgt)))) (of_Q (7 # 10)) = true in
    let msg := "You hit <70% of weekly vertical target for 2 weeks."%string in
    (flags !! "undertraining" = Some msg <-> below tv /\ below pv) /\
    (flags !! "undertraining" = None <-> ~ (below tv /\ below pv)) /\
    (forall a b, tv = Fin a -> pv = Fin b ->
       flags !! "undertraining" = Some msg ->
       a < (7 # 10) * inject_Z (vert_min tgt) /\
       b < (7 # 10) * inject_Z (vert_min tgt)) /\
    (forall a, tv = Fin a \/ pv = Fin a ->
       (7 # 10) * inject_Z (vert_min tgt) <= a ->
       flags !! "undertraining" = None).
Proof.
  intros Hs Hdb Hst tv pv.
  destruct (risk_flags64_weekly_rules db today Hs Hdb Hst)
    as (tgt & flags & Hphase & Hvm & Hrf & _ & _ & Hflag).
  fold tv pv in Hflag. exists tgt, flags.
  split; [exact Hphase |]. split; [exact Hvm |]. split; [exact Hrf |].
  intros below msg. rewrite Hflag.
  destruct (flag_iff
              (ltb (quot tv (Fin (inject_Z (vert_min tgt)))) (of_Q (7 # 10)) &&
               ltb (quot pv (Fin (inject_Z (vert_min tgt)))) (of_Q (7 # 10)))
              msg (below tv /\ below pv)) as [H1 H2];
    [apply andb_true_iff |].
  split; [exact H1 |]. split; [exact H2 |]. split.
  - intros a b Ha Hb Hraised. apply H1 in Hraised as [Ht Hp].
    unfold below in Ht, Hp. rewrite Ha in Ht. rewrite Hb in Hp.
    split; now apply ratio64_below.
  - intros a Ha Hle. apply H2. intros [Ht Hp]. unfold below in Ht, Hp.
    destruct Ha as [Ha | Ha]; [rewrite Ha in Ht | rewrite Ha in Hp];
      [apply (ratio64_below a _ Hvm) in Ht | apply (ratio64_below a _ Hvm) in Hp];
      lra.
Qed.

End RiskFlags64.

(** ** Tables far from overflow *)

Section Moderate.

Import F64.
Local Open Scope Q_scope.

(** An integer below [2 ^ 53] times a power of two is a number of the
    format. *)
Lemma nearest_small_multiple (n k : Z) :
  (0 <= n < 2 ^ 53)%Z -> (-1074 <= k)%Z ->
  nearest (inject_Z n * pow2 k) == inject_Z n * pow2 k.
Proof.
  intros Hn Hk. set (x := inject_Z n * pow2 k).
  pose proof (pow2_pos k) as Hp.
  destruct (Z.eq_dec n 0%Z) as [-> | Hne].
  - assert (Hx : x == 0) by (unfold x; change (inject_Z 0) with 0; ring).
    rewrite (nearest_comp x 0 Hx), Hx. apply nearest_zero.
  - assert (Hn1 : 1 <= inject_Z n).
    { change 1 with (inject_Z 1). rewrite <- Zle_Qle. lia. }
    assert (Hn2 : inject_Z n < pow2 53).
    { rewrite pow2_inject by lia. rewrite <- Zlt_Qlt. lia. }
    assert (Hx0 : 0 < x) by (unfold x; apply Qmult_lt_0_compat; lra).
    assert (Nx : ~ x == 0) by lra.
    destruct (ilog2_spec x Nx) as [L U]. rewrite Qabs_pos in L, U by lra.
    assert (Hx2 : x < pow2 (53 + k)).
    { rewrite pow2_plus. unfold x. apply Qmult_lt_compat_r; assumption. }
    assert (Hi : (ilog2 x < 53 + k)%Z) by (apply pow2_lt_inv; lra).
    unfold nearest.
    assert (He : (ulp_exp x <= k)%Z) by (unfold ulp_exp; lia).
    apply (round_to_multiple _ (n * 2 ^ (k - ulp_exp x))).
    rewrite inject_Z_mult.
    transitivity (inject_Z n * (inject_Z (2 ^ (k - ulp_exp x)) * pow2 (ulp_exp x)));
      [| ring].
    unfold x at 1. apply Qmult_comp; [reflexivity | exact (pow2_multiple _ _ He)].
Qed.

(** A sum of fewer than [2 ^ 53] floats between 0 and [2 ^ k] is a float
    between 0 and [2 ^ (k + 53)]. *)
Lemma sum_within_acc (k : Z) (xs : list F64.t) :
  (-1074 <= k)%Z -> (k + 53 <= 1023)%Z -> Forall (within k) xs ->
  forall (i : Z) (a : Q),
    (0 <= i)%Z -> (i + Z.of_nat (length xs) < 2 ^ 53)%Z ->
    0 <= a <= inject_Z i * pow2 k ->
    exists q,
      fold_left add xs (Fin a) = Fin q /\
      0 <= q <= inject_Z (i + Z.of_nat (length xs)) * pow2 k.
Proof.
  intros Hk Hk' Hall. induction Hall as [| x xs (c & -> & C0 & C1) _ IH];
    intros i a Hi Hlen Ha.
  - exists a. simpl. split; [reflexivity |].
    simpl length. now replace (i + Z.of_nat 0)%Z with i by lia.
  - cbn [fold_left add]. simpl length in Hlen.
    assert (Hb : 0 <= a + c <= inject_Z (i + 1) * pow2 k).
    { rewrite inject_Z_plus. change (inject_Z 1) with 1. split; [lra |].
      ring_simplify. lra. }
    destruct Hb as [Hb0 Hb1]. apply nearest_mono in Hb0, Hb1.
    rewrite nearest_zero in Hb0.
    rewrite nearest_small_multiple in Hb1 by lia.
    assert (Hlt : inject_Z (i + 1) * pow2 k < pow2 1024).
    { apply Qlt_le_trans with (pow2 53 * pow2 k).
      - apply Qmult_lt_compat_r; [apply pow2_pos |].
        rewrite pow2_inject by lia. rewrite <- Zlt_Qlt. lia.
      - rewrite <- pow2_plus. apply pow2_le. lia. }
    pose proof (pow2_pos 1024) as Hp.
    destruct (rnd_cases (a + c)) as [[_ Hx] | [[_ Hx] | [-> _]]];
      try (exfalso; lra).
    destruct (IH (i + 1)%Z (Qred (nearest (a + c)))) as (q & Hq & Hb);
      [lia | lia | rewrite Qred_correct; split; assumption |].
    exists q. split; [exact Hq |]. simpl length.
    replace (i + Z.of_nat (S (length xs)))%Z
      with (i + 1 + Z.of_nat (length xs))%Z by lia.
    exact Hb.
Qed.

Lemma sum_within (k : Z) (xs : list F64.t) :
  (-1074 <= k)%Z -> (k + 53 <= 1023)%Z -> Forall (within k) xs ->
  (Z.of_nat (length xs) < 2 ^ 53)%Z ->
  within (k + 53) (Engine64.sum xs).
Proof.
  intros Hk Hk' Hall Hlen.
  destruct (sum_within_acc k xs Hk Hk' Hall 0%Z 0) as (q & Hq & H0 & H1);
    [lia | lia | change (inject_Z 0) with 0; lra |].
  exists q. split; [exact Hq |]. split; [exact H0 |].
  apply Qle_trans with (pow2 53 * pow2 k).
  - apply Qle_trans with (inject_Z (0 + Z.of_nat (length xs)) * pow2 k);
      [exact H1 |].
    apply Qmult_le_compat_r; [| apply Qlt_le_weak, pow2_pos].
    rewrite pow2_inject by lia. rewrite <- Zle_Qle. lia.
  - rewrite <- pow2_plus. apply pow2_le. lia.
Qed.

Lemma within_of_Q_300 (q : Q) : 0 <= q <= pow2 300 -> within 300 (of_Q q).
Proof. apply within_of_Q. lia. Qed.

Lemma within_const (k : Z) (c : Q) (z : Z) :
  (0 <= k <= 1023)%Z -> (0 <= z <= 2 ^ k)%Z -> c == inject_Z z ->
  within k (of_Q c).
Proof.
  intros Hk Hz Hc. apply within_of_Q; [lia |]. rewrite Hc.
  split; [change 0 with (inject_Z 0); rewrite <- Zle_Qle; lia |].
  apply inject_Z_pow2; lia.
Qed.

Lemma vertical_ft_within (w : Workout.t) :
  row_ok w -> row_moderate w -> within 613 (Engine64.vertical_ft w).
Proof.
  intros (_ & _ & _ & Hd & Hi & _) (Md & Mi & _). unfold Engine64.vertical_ft.
  apply (within_mul 313 300); [lia | |].
  - apply (within_mul 300 13); [lia | now apply within_of_Q_300 |].
    apply (within_const 13 5280 5280); [lia | lia | reflexivity].
  - rewrite of_Q_100. apply within_quot; [lia | lra |].
    now apply within_of_Q_300.
Qed.

Lemma stress64_within (w : Workout.t) :
  row_stored w -> row_moderate w -> within 368 (stress64 w).
Proof.
  intros Hw (_ & _ & Mp). pose proof (row_stored_factor w Hw) as Hf.
  destruct Hw as [(_ & _ & _ & _ & _ & Hp) _]. unfold stress64.
  apply (within_mul 67 301); [lia | |].
  - apply (of_int_nonneg 67); lia.
  - apply (within_add 300); [lia | |].
    + apply (within_const 300 1 1); [lia | lia | reflexivity].
    + replace (of_Q 40) with (Fin 40) by (vm_compute; reflexivity).
      apply within_quot; [lia | lra |]. now apply within_of_Q_300.
Qed.

End Moderate.

(** ** The rolling series in binary64 *)

Section Series64.

Import F64.
Local Open Scope Q_scope.

Lemma within_finite (k : Z) (x : F64.t) : within k x -> finite x.
Proof. intros (q & -> & _). now exists q. Qed.

Lemma stored_moderate_rows (db : table) (lo hi : Z) :
  table_stored db -> Forall row_moderate db ->
  let rows := order_by_date (rows_between db lo hi) in
  Forall (fun w => row_stored w /\ row_moderate w) rows /\
  (Z.of_nat (length rows) < 2 ^ 53)%Z.
Proof.
  intros [Hst Hlen] Hmod rows. split.
  - apply selected_Forall. apply List.Forall_and; assumption.
  - pose proof (selected_length db lo hi). fold rows in H. lia.
Qed.

(** On a table of moderate rows the aggregates of a window are far from
    overflow. *)
Lemma aggregates_within (db : table) (lo hi : Z) :
  table_stored db -> Forall row_moderate db ->
  let rows := order_by_date (rows_between db lo hi) in
  within 666 (total_vert64 rows) /\ within 421 (total_stress64 rows) /\
  within 353 (mean_pack64 rows).
Proof.
  intros Hst Hmod rows.
  destruct (stored_moderate_rows db lo hi Hst Hmod) as [Hrows Hlen].
  fold rows in Hrows, Hlen.
  split; [| split].
  - apply (sum_within 613); [lia | lia | | now rewrite length_map].
    apply Forall_map. revert Hrows. apply List.Forall_impl.
    intros w [[Hok _] Hm]. now apply vertical_ft_within.
  - apply (sum_within 368); [lia | lia | | now rewrite length_map].
    apply Forall_map. revert Hrows. apply List.Forall_impl.
    intros w [Hs Hm]. now apply stress64_within.
  - unfold mean_pack64. destruct rows as [| r rs] eqn:E.
    + exists 0. split; [reflexivity |]. pose proof (pow2_pos 353). lra.
    + destruct (of_int_pos 53 (Z.of_nat (length (r :: rs))) ltac:(lia))
        as (q & -> & Hb & _); [simpl length in *; lia |].
      apply within_quot; [lia | lra |].
      apply (sum_within 300); [lia | lia | | now rewrite length_map].
      apply Forall_map. revert Hrows. apply List.Forall_impl.
      intros w [[(_ & _ & _ & _ & _ & Hp) _] (_ & _ & Mp)].
      now apply within_of_Q_300.
Qed.

Lemma round1_within (k : Z) (x : F64.t) :
  (0 <= k)%Z -> (k + 1 <= 1023)%Z -> within k x ->
  within (k + 1) (Engine64.round1 x).
Proof.
  intros Hk Hk' (q & -> & H0 & H1). unfold Engine64.round1.
  apply rnd_within; [lia |].
  pose proof (py_round_error (q * 10)) as [E1 E2].
  assert (Hr : (0 <= py_round (q * 10))%Z).
  { change 0%Z with (py_round 0). apply py_round_mono. lra. }
  rewrite Zle_Qle in Hr. change (inject_Z 0) with 0 in Hr.
  assert (Hp : 1 <= pow2 k).
  { change 1 with (pow2 0). apply pow2_le. lia. }
  rewrite pow2_succ. unfold Qdiv. change (/ 10) with (1 # 10). split; lra.
Qed.

Lemma week_window (ws we : date) :
  (toordinal we = toordinal ws + 7)%Z ->
  forall db,
    order_by_date (rows_between db (toordinal ws) (toordinal we - 1)) =
    week_rows_by_date db (toordinal ws).
Proof.
  intros H db. unfold week_rows_by_date, week_rows.
  now replace (toordinal we - 1)%Z with (toordinal ws + 6)%Z by lia.
Qed.

(** The loop of the series on weeks of finite vertical. *)
Lemma series_loop64_snapshots (db : table) (start : date) (offs : list Z) :
  table_valid db -> table_stored db -> valid start ->
  forall acc,
  (forall i, In i offs ->
     (1 <= toordinal start - 7 * i)%Z /\
     (toordinal start - 7 * i + 7 <= MAXORDINAL)%Z) ->
  (forall i, In i offs ->
     finite (total_vert64 (week_rows_by_date db (toordinal start - 7 * i)))) ->
  Engine64.series_loop db start offs acc =
  Ok {| Engine64.weeks :=
          Engine64.weeks acc ++
          map (fun i => week_label (toordinal start - 7 * i)) offs;
        Engine64.verts :=
          Engine64.verts acc ++
          map (fun i => week_vert64 db (toordinal start - 7 * i)) offs;
        Engine64.packs :=
          Engine64.packs acc ++
          map (fun i => week_pack64 db (toordinal start - 7 * i)) offs;
        Engine64.stresses :=
          Engine64.stresses acc ++
          map (fun i => week_stress64 db (toordinal start - 7 * i)) offs |}.
Proof.
  intros Hdb Hst Hv. induction offs as [| i offs IH]; intros acc Hr Hfin.
  - simpl. rewrite !app_nil_r. now destruct acc.
  - destruct (Hr i (or_introl eq_refl)) as [Hlo Hhi].
    destruct (sub_days_ok start (7 * i)) as (ws & Hws & Hvws & Hows); [lia |].
    destruct (add_days_ok ws 7) as (we & Hwe & Hvwe & Howe); [lia |].
    destruct (sum_week_metrics64_rows db ws we Hdb Hst Hvws Hvwe)
      as (m & Hm & Hvert & Hstress & Hpack & _).
    rewrite (week_window ws we Howe) in Hvert, Hstress, Hpack.
    destruct (Hfin i (or_introl eq_refl)) as (q & Hq).
    cbn [Engine64.series_loop]. rewrite Hws; cbn [rbind]. rewrite Hwe; cbn [rbind].
    rewrite Hm; cbn [rbind]. rewrite Hvert, Hows, Hq. cbn [Engine64.round rbind].
    rewrite IH;
      [| intros j Hj; apply Hr; now right | intros j Hj; apply Hfin; now right].
    cbn [Engine64.weeks Engine64.verts Engine64.packs Engine64.stresses map].
    rewrite <- !app_assoc. cbn [app].
    unfold week_label, week_vert64, week_pack64, week_stress64.
    rewrite Hq, Hstress, Hpack, Hows. cbn [value].
    rewrite <- Hows, (date_of_toordinal ws Hvws).
    reflexivity.
Qed.

(** A week whose vertical is not finite stops the loop. *)
Lemma series_loop64_raises (db : table) (start : date) (offs : list Z) :
  table_valid db -> table_stored db -> valid start ->
  forall acc,
  (forall i, In i offs ->
     (1 <= toordinal start - 7 * i)%Z /\
     (toordinal start - 7 * i + 7 <= MAXORDINAL)%Z) ->
  (exists i, In i offs /\
     ~ finite (total_vert64 (week_rows_by_date db (toordinal start - 7 * i)))) ->
  exists e,
    Engine64.series_loop db start offs acc = Raise e /\
    (e = OverflowError \/ e = ValueError).
Proof.
  intros Hdb Hst Hv. induction offs as [| i offs IH]; intros acc Hr Hex.
  - destruct Hex as (i & [] & _).
  - destruct (Hr i (or_introl eq_refl)) as [Hlo Hhi].
    destruct (sub_days_ok start (7 * i)) as (ws & Hws & Hvws & Hows); [lia |].
    destruct (add_days_ok ws 7) as (we & Hwe & Hvwe & Howe); [lia |].
    destruct (sum_week_metrics64_rows db ws we Hdb Hst Hvws Hvwe)
      as (m & Hm & Hvert & _).
    rewrite (week_window ws we Howe) in Hvert.
    cbn [Engine64.series_loop]. rewrite Hws; cbn [rbind]. rewrite Hwe; cbn [rbind].
    rewrite Hm; cbn [rbind]. rewrite Hvert, Hows.
    destruct (total_vert64 (week_rows_by_date db (toordinal start - 7 * i)))
      as [q | | |] eqn:E; cbn [Engine64.round rbind];
      try (eexists; split; [reflexivity | auto]).
    apply IH; [intros j Hj; apply Hr; now right |].
    destruct Hex as (j & [<- | Hj] & Hnf).
    + exfalso. apply Hnf. rewrite E. now exists q.
    + exists j. auto.
Qed.

End Series64.

Section SeriesTheorems.

Import F64.
Local Open Scope Q_scope.

Lemma range_down_index (n i : Z) :
  In i (range_down n) ->
  exists k, (k < Z.to_nat n)%nat /\ i = (n - 1 - Z.of_nat k)%Z.
Proof.
  unfold range_down. rewrite List.in_map_iff.
  intros (k & <- & Hk). apply List.in_seq in Hk. exists k. split; [lia | reflexivity].
Qed.

Lemma range_down_member (n : Z) (k : nat) :
  (k < Z.to_nat n)%nat -> In (n - 1 - Z.of_nat k)%Z (range_down n).
Proof.
  intros Hk. unfold range_down. apply List.in_map_iff.
  exists k. split; [reflexivity | apply List.in_seq; lia].
Qed.

Lemma last_n_weeks_series64_value (db : table) (now : date) (n : Z) :
  table_valid db -> table_stored db ->
  valid now -> (monday_of now + 7 <= MAXORDINAL)%Z ->
  ((1 <= n)%Z -> (1 <= monday_of now - 7 * (n - 1))%Z) ->
  (forall k, (k < Z.to_nat n)%nat ->
     finite (total_vert64
               (week_rows_by_date db (monday_of now - 7 * (n - 1 - Z.of_nat k))))) ->
  Engine64.last_n_weeks_series db now n =
  Ok {| Engine64.weeks :=
          map (fun i => week_label (monday_of now - 7 * i)) (range_down n);
        Engine64.verts :=
          map (fun i => week_vert64 db (monday_of now - 7 * i)) (range_down n);
        Engine64.packs :=
          map (fun i => week_pack64 db (monday_of now - 7 * i)) (range_down n);
        Engine64.stresses :=
          map (fun i => week_stress64 db (monday_of now - 7 * i)) (range_down n) |}.
Proof.
  intros Hdb Hst Hv Hhi Hlo Hfin.
  destruct (week_range_ok now Hv Hhi) as (ws & we & Hw & Hvs & Hve & Hos & Hoe).
  unfold Engine64.last_n_weeks_series; cbv zeta. rewrite Hw; cbn [rbind].
  rewrite (series_loop64_snapshots db ws (range_down n) Hdb Hst Hvs).
  - rewrite Hos. reflexivity.
  - intros i Hi. apply range_down_In in Hi.
    pose proof (monday_of_bounds now Hv). rewrite Hos. split; nia.
  - intros i Hi. apply range_down_index in Hi as (k & Hk & ->).
    rewrite Hos. now apply Hfin.
Qed.

(** X11: [last_n_weeks_series n] in the arithmetic of the program, on a
    table as the store holds it.  When the vertical of each of the [n]
    weeks is finite, the call returns [n] snapshots, oldest first, one
    per Monday-anchored week and ending with the week of the clock:
    entry [k] is the week that starts [7 * (n - 1 - k)] days before the
    Monday of the current week, with its label, its vertical rounded to
    an integer and its mean pack and stress rounded to one decimal.
    When the vertical of one of the weeks is infinite or not a number,
    the call raises [OverflowError] or [ValueError]. *)
Theorem last_n_weeks_series_snapshots (db : table) (now : date) (n : Z) :
  table_valid db -> table_stored db ->
  valid now -> (monday_of now + 7 <= MAXORDINAL)%Z ->
  (0 <= n)%Z -> ((1 <= n)%Z -> (1 <= monday_of now - 7 * (n - 1))%Z) ->
  let rows k :=
    week_rows_by_date db (monday_of now - 7 * (n - 1 - Z.of_nat k)) in
  ((forall k, (k < Z.to_nat n)%nat -> finite (total_vert64 (rows k))) ->
   exists s,
     Engine64.last_n_weeks_series db now n = Ok s /\
     length (Engine64.weeks s) = Z.to_nat n /\
     length (Engine64.verts s) = Z.to_nat n /\
     length (Engine64.packs s) = Z.to_nat n /\
     length (Engine64.stresses s) = Z.to_nat n /\
     forall k, (k < Z.to_nat n)%nat ->
       nth_error (Engine64.weeks s) k =
         Some (week_label (monday_of now - 7 * (n - 1 - Z.of_nat k))) /\
       nth_error (Engine64.verts s) k =
         Some (py_round (value (total_vert64 (rows k)))) /\
       nth_error (Engine64.packs s) k =
         Some (Engine64.round1 (mean_pack64 (rows k))) /\
       nth_error (Engine64.stresses s) k =
         Some (Engine64.round1 (total_stress64 (rows k)))) /\
  ((exists k, (k < Z.to_nat n)%nat /\ ~ finite (total_vert64 (rows k))) ->
   exists e,
     Engine64.last_n_weeks_series db now n = Raise e /\
     (e = OverflowError \/ e = ValueError)).
Proof.
  intros Hdb Hst Hv Hhi Hn Hlo rows. split.
  - intros Hfin.
    eexists. split; [apply last_n_weeks_series64_value; assumption |].
    cbn [Engine64.weeks Engine64.verts Engine64.packs Engine64.stresses].
    rewrite !length_map, range_down_length.
    repeat (split; [reflexivity |]). intros k Hk.
    rewrite !List.nth_error_map, (range_down_nth n k Hk). repeat split.
  - intros (k & Hk & Hnf).
    destruct (week_range_ok now Hv Hhi) as (ws & we & Hw & Hvs & Hve & Hos & Hoe).
    unfold Engine64.last_n_weeks_series; cbv zeta. rewrite Hw; cbn [rbind].
    apply (series_loop64_raises db ws (range_down n) Hdb Hst Hvs).
    + intros i Hi. apply range_down_In in Hi.
      pose proof (monday_of_bounds now Hv). rewrite Hos. split; nia.
    + exists (n - 1 - Z.of_nat k)%Z. split; [now apply range_down_member |].
      rewrite Hos. exact Hnf.
Qed.

(** The decimal that [round1] passes through. *)
Lemma round1_decimal (x : F64.t) (q : Q) :
  x = Fin q ->
  exists z : Z,
    Engine64.round1 x = rnd (inject_Z z / 10) /\
    - (1 # 20) <= inject_Z z / 10 - q <= 1 # 20.
Proof.
  intros ->. exists (py_round (q * 10)). split; [reflexivity |].
  pose proof (py_round_error (q * 10)) as [H1 H2].
  unfold Qdiv. change (/ 10) with (1 # 10). split; lra.
Qed.

(** X12: on a table of rows with distance, incline and pack weight up to
    [2 ^ 300], the series is returned and is accurate to its rounding:
    each reported vertical is within 1/2 of the weekly vertical that the
    program has summed, and each reported mean pack and stress is the
    float nearest to a decimal with one digit after the point that is
    within 0.05 of the value summed. *)
Theorem last_n_weeks_series_rounding (db : table) (now : date) (n : Z) :
  table_valid db -> table_stored db -> Forall row_moderate db ->
  valid now -> (monday_of now + 7 <= MAXORDINAL)%Z ->
  (0 <= n)%Z -> ((1 <= n)%Z -> (1 <= monday_of now - 7 * (n - 1))%Z) ->
  exists s,
    Engine64.last_n_weeks_series db now n = Ok s /\
    forall k v p st, (k < Z.to_nat n)%nat ->
      let rows :=
        week_rows_by_date db (monday_of now - 7 * (n - 1 - Z.of_nat k)) in
      nth_error (Engine64.verts s) k = Some v ->
      nth_error (Engine64.packs s) k = Some p ->
      nth_error (Engine64.stresses s) k = Some st ->
      finite (total_vert64 rows) /\ finite (mean_pack64 rows) /\
      finite (total_stress64 rows) /\
      - (1 # 2) <= inject_Z v - value (total_vert64 rows) <= 1 # 2 /\
      (exists z : Z,
         p = rnd (inject_Z z / 10) /\
         - (1 # 20) <= inject_Z z / 10 - value (mean_pack64 rows) <= 1 # 20) /\
      (exists z : Z,
         st = rnd (inject_Z z / 10) /\
         - (1 # 20) <= inject_Z z / 10 - value (total_stress64 rows) <= 1 # 20).
Proof.
  intros Hdb Hst Hmod Hv Hhi Hn Hlo.
  assert (Hw : forall mon,
            within 666 (total_vert64 (week_rows_by_date db mon)) /\
            within 421 (total_stress64 (week_rows_by_date db mon)) /\
            within 353 (mean_pack64 (week_rows_by_date db mon)))
    by (intros mon; apply (aggregates_within db mon (mon + 6) Hst Hmod)).
  eexists. split.
  { apply last_n_weeks_series64_value; try assumption.
    intros k _. destruct (Hw (monday_of now - 7 * (n - 1 - Z.of_nat k))%Z)
      as (H1 & _). exact (within_finite _ _ H1). }
  cbn [Engine64.verts Engine64.packs Engine64.stresses].
  intros k v p st Hk. cbv zeta.
  rewrite !List.nth_error_map, (range_down_nth n k Hk). cbn [option_map].
  intros [= <-] [= <-] [= <-].
  destruct (Hw (monday_of now - 7 * (n - 1 - Z.of_nat k))%Z) as (H1 & H2 & H3).
  pose proof (within_finite _ _ H1) as F1.
  pose proof (within_finite _ _ H2) as F2.
  pose proof (within_finite _ _ H3) as F3.
  split; [exact F1 |]. split; [exact F3 |]. split; [exact F2 |].
  split; [apply py_round_error |].
  unfold week_pack64, week_stress64.
  destruct F2 as (q2 & E2). destruct F3 as (q3 & E3).
  rewrite E2, E3. cbn [value].
  split; [apply (round1_decimal (Fin q3)) | apply (round1_decimal (Fin q2))];
    reflexivity.
Qed.

End SeriesTheorems.

(** ** The readiness score on stored tables *)

Section Readiness64.

Import F64.
Local Open Scope Q_scope.

Lemma add_days_cases (d : date) (k : Z) :
  (1 <= toordinal d + k <= MAXORDINAL)%Z \/ add_days d k = Raise OverflowError.
Proof.
  destruct (Z_le_gt_dec 1 (toordinal d + k)) as [H1 | H1];
    [destruct (Z_le_gt_dec (toordinal d + k) MAXORDINAL) as [H2 | H2] |];
    [left; lia | right; apply add_days_overflow; lia ..].
Qed.

Lemma sub_days_cases (d : date) (k : Z) :
  (1 <= toordinal d - k <= MAXORDINAL)%Z \/ sub_days d k = Raise OverflowError.
Proof.
  destruct (add_days_cases d (- k)) as [H | H]; [left; lia | right; exact H].
Qed.

Lemma week_range_cases (d : date) :
  valid d ->
  (monday_of d + 7 <= MAXORDINAL)%Z \/ week_range d = Raise OverflowError.
Proof.
  intros Hv. destruct (Z_le_gt_dec (monday_of d + 7) MAXORDINAL) as [H | H];
    [now left | right; apply week_range_overflow; [exact Hv | lia]].
Qed.

(** Whatever stops the loop of the series is an [OverflowError] or a
    [ValueError]. *)
Lemma series_loop64_exn (db : table) (start : date) (offs : list Z) :
  table_valid db -> table_stored db -> valid start ->
  forall acc e,
    Engine64.series_loop db start offs acc = Raise e ->
    e = OverflowError \/ e = ValueError.
Proof.
  intros Hdb Hst Hv. induction offs as [| i offs IH]; intros acc e;
    [discriminate |].
  cbn [Engine64.series_loop].
  destruct (sub_days_cases start (7 * i)) as [Hr | ->];
    [| cbn [rbind]; intros [= <-]; now left].
  destruct (sub_days_ok start (7 * i) Hr) as (ws & -> & Hvws & Hows).
  cbn [rbind].
  destruct (add_days_cases ws 7) as [Hr' | ->];
    [| cbn [rbind]; intros [= <-]; now left].
  destruct (add_days_ok ws 7 Hr') as (we & -> & Hvwe & Howe). cbn [rbind].
  destruct (sum_week_metrics64_rows db ws we Hdb Hst Hvws Hvwe) as (m & -> & _).
  cbn [rbind].
  destruct (Engine64.vert m) as [q | | |]; cbn [Engine64.round rbind];
    try (intros [= <-]; auto).
  apply IH.
Qed.

Lemma last_n_weeks_series64_exn (db : table) (now : date) (n : Z) (e : exn) :
  table_valid db -> table_stored db -> valid now ->
  Engine64.last_n_weeks_series db now n = Raise e ->
  e = OverflowError \/ e = ValueError.
Proof.
  intros Hdb Hst Hv. unfold Engine64.last_n_weeks_series; cbv zeta.
  destruct (week_range_cases now Hv) as [Hhi | ->];
    [| cbn [rbind]; intros [= <-]; now left].
  destruct (week_range_ok now Hv Hhi) as (ws & we & -> & Hvs & _).
  cbn [rbind]. apply series_loop64_exn; assumption.
Qed.

Lemma of_int_exn (n : Z) (e : exn) :
  Engine64.of_int n = Raise e -> e = OverflowError.
Proof.
  unfold Engine64.of_int. destruct (rnd (inject_Z n)); congruence.
Qed.

Lemma of_int_ge_1 (n : Z) (x : F64.t) :
  (1 <= n)%Z -> Engine64.of_int n = Ok x -> is_zero x = false.
Proof.
  intros Hn. unfold Engine64.of_int.
  assert (H : leb (rnd 1) (rnd (inject_Z n)) = true).
  { apply rnd_mono. change 1 with (inject_Z 1). now rewrite <- Zle_Qle. }
  replace (rnd 1) with (Fin 1) in H by (vm_compute; reflexivity).
  destruct (rnd (inject_Z n)) as [q | | |]; try discriminate.
  intros [= <-]. apply leb_Fin in H. apply is_zero_pos. lra.
Qed.

Lemma int_truediv_exn (a b : Z) (e : exn) :
  (1 <= b)%Z -> Engine64.int_truediv a b = Raise e -> e = OverflowError.
Proof.
  intros Hb. unfold Engine64.int_truediv.
  replace (b =? 0)%Z with false by (symmetry; apply Z.eqb_neq; lia).
  destruct (rnd _); congruence.
Qed.

(** The longest session of stored rows fits a column of the store. *)
Lemma longest_stored (rows : table) :
  Forall row_stored rows -> (0 <= longest rows <= 2 ^ 63)%Z.
Proof.
  intros H. destruct (longest_spec rows) as (L0 & _ & L2).
  destruct rows as [| r rs]; [rewrite L0 by reflexivity; lia |].
  destruct L2 as (w & Hin & <-); [discriminate |].
  rewrite List.Forall_forall in H. destruct (H w Hin) as [(_ & Hd & _) Hs].
  unfold sqlite_integer in Hs. apply andb_true_iff in Hs as [_ Hs].
  apply Z.ltb_lt in Hs. lia.
Qed.

Lemma rows_between_stored (db : table) (lo hi : Z) :
  Forall row_stored db -> Forall row_stored (rows_between db lo hi).
Proof.
  unfold rows_between. rewrite !List.Forall_forall.
  intros H w Hin. apply List.filter_In in Hin as [Hin _]. auto.
Qed.

Lemma week_vert64_bounds (db : table) (mon : Z) :
  within 666 (total_vert64 (week_rows_by_date db mon)) ->
  (0 <= week_vert64 db mon <= 2 ^ 666 + 1)%Z.
Proof.
  intros (q & Hq & H0 & H1). unfold week_vert64. rewrite Hq. cbn [value].
  split.
  - change 0%Z with (py_round 0). now apply py_round_mono.
  - pose proof (py_round_bounds q) as [_ Hb].
    apply Qfloor_resp_le in H1. rewrite pow2_inject, Qfloor_Z in H1 by lia. lia.
Qed.

(** On moderate rows the score is returned whenever its dates are in
    range. *)
Lemma readiness_score64_moderate (db : table) (now today : date) :
  valid now -> valid today -> table_valid db -> table_stored db ->
  Forall row_moderate db ->
  let in_range :=
    (1 <= monday_of now - 21 /\ monday_of now + 7 <= MAXORDINAL /\
     1 <= monday_of today - 28 /\ monday_of today + 7 <= MAXORDINAL)%Z in
  (in_range ->
   exists s, Engine64.readiness_score db now today = Ok s /\ (0 <= s <= 100)%Z) /\
  (~ in_range -> Engine64.readiness_score db now today = Raise OverflowError).
Proof.
  intros Hvn Hvt Hdb Hst Hmod in_range. subst in_range.
  pose proof (phase_for_eq today Hvt) as Hphase.
  assert (Hw : forall mon,
            within 666 (total_vert64 (week_rows_by_date db mon)) /\
            within 421 (total_stress64 (week_rows_by_date db mon)) /\
            within 353 (mean_pack64 (week_rows_by_date db mon)))
    by (intros mon; apply (aggregates_within db mon (mon + 6) Hst Hmod)).
  unfold Engine64.readiness_score.
  destruct (Z_le_gt_dec (monday_of now + 7) MAXORDINAL) as [Hnhi | Hnhi].
  2:{ split; [lia | intros _]. unfold Engine64.last_n_weeks_series; cbv zeta.
      rewrite (week_range_overflow now Hvn) by lia. reflexivity. }
  destruct (Z_le_gt_dec 1 (monday_of now - 21)) as [Hnlo | Hnlo].
  2:{ split; [lia | intros _]. unfold Engine64.last_n_weeks_series; cbv zeta.
      destruct (week_range_ok now Hvn Hnhi) as (ws & we & -> & _ & _ & Hos & _).
      cbn [rbind]. change (range_down 4) with [3; 2; 1; 0]%Z.
      cbn [Engine64.series_loop]. rewrite sub_days_overflow by lia.
      reflexivity. }
  rewrite (last_n_weeks_series64_value db now 4 Hdb Hst Hvn Hnhi)
    by (try lia; intros k _; apply (within_finite 666), Hw).
  cbn [rbind Engine64.verts Engine64.packs].
  change (range_down 4) with [3; 2; 1; 0]%Z. cbn [map length].
  change (Z.max (Z.of_nat 4) 1) with 4%Z.
  set (m3 := (monday_of now - 7 * 3)%Z). set (m2 := (monday_of now - 7 * 2)%Z).
  set (m1 := (monday_of now - 7 * 1)%Z). set (m0 := (monday_of now - 7 * 0)%Z).
  (* the mean of the four verticals *)
  pose proof (week_vert64_bounds db m3 (proj1 (Hw m3))) as B3.
  pose proof (week_vert64_bounds db m2 (proj1 (Hw m2))) as B2.
  pose proof (week_vert64_bounds db m1 (proj1 (Hw m1))) as B1.
  pose proof (week_vert64_bounds db m0 (proj1 (Hw m0))) as B0.
  set (a := py_sumZ [week_vert64 db m3; week_vert64 db m2;
                     week_vert64 db m1; week_vert64 db m0]).
  assert (Ha : (0 <= a <= 2 ^ 669)%Z).
  { subst a. unfold py_sumZ. cbn [fold_left].
    change (2 ^ 669)%Z with (8 * 2 ^ 666)%Z.
    assert (0 < 2 ^ 666)%Z by (apply Z.pow_pos_nonneg; lia).
    remember (2 ^ 666)%Z as P. lia. }
  assert (Hav : exists v, Engine64.int_truediv a 4 = Ok v /\ within 1000 v).
  { unfold Engine64.int_truediv. cbn [Z.eqb].
    destruct (rnd_within 669 (inject_Z a / inject_Z 4)) as (q & Hq & Hb);
      [lia | |].
    - assert (Q0 : 0 <= inject_Z a)
        by (change 0 with (inject_Z 0); rewrite <- Zle_Qle; lia).
      assert (Q1 : inject_Z a <= pow2 669) by (apply inject_Z_pow2; lia).
      change (inject_Z 4) with 4. unfold Qdiv. change (/ 4) with (1 # 4).
      split; lra.
    - rewrite Hq. eexists. split; [reflexivity |].
      apply (within_weaken 669); [lia |]. now exists q. }
  destruct Hav as (v & -> & Wv). cbn [rbind].
  (* the mean of the four mean packs *)
  replace (Engine64.of_int 4) with (Ok (Fin 4)) by (vm_compute; reflexivity).
  cbn [rbind]. rewrite truediv_pos by reflexivity. cbn [rbind].
  assert (Wp : within 1000
                 (quot (Engine64.sum [week_pack64 db m3; week_pack64 db m2;
                                      week_pack64 db m1; week_pack64 db m0])
                       (Fin 4))).
  { apply (within_weaken 407); [lia |]. apply within_quot; [lia | lra |].
    apply (sum_within 354); [lia | lia | | reflexivity].
    repeat constructor; apply (round1_within 353); try lia; apply Hw. }
  (* the dates of the longest-session window *)
  destruct (Z_le_gt_dec (monday_of today + 7) MAXORDINAL) as [Hthi | Hthi].
  2:{ split; [lia | intros _].
      rewrite (week_range_overflow today Hvt) by lia. reflexivity. }
  destruct (week_range_ok today Hvt Hthi)
    as (ws & we & -> & Hvs & Hve & Hos & Hoe).
  cbn [rbind].
  destruct (Z_le_gt_dec 1 (monday_of today - 28)) as [Htlo | Htlo].
  2:{ split; [lia | intros _]. rewrite sub_days_overflow by lia. reflexivity. }
  destruct (sub_days_ok ws 28) as (s4 & -> & Hvs4 & Hos4); [lia |].
  cbn [rbind]. rewrite Hphase; cbn [rbind].
  rewrite (filter_closed_window db s4 today Hdb Hvs4 Hvt), sql_max_or_zero.
  split; [intros _ | tauto].
  apply readiness_blend_returns; [exact Wv | exact Wp |].
  pose proof (longest_stored _ (rows_between_stored db (toordinal s4)
                                  (toordinal today) (proj1 Hst))) as Hl.
  split; [lia |]. apply Z.le_trans with (2 ^ 63)%Z; [lia |].
  apply Z.pow_le_mono_r; lia.
Qed.

(** X15: [readiness_score] in the arithmetic of the program, on a table
    as the store holds it.  On rows with distance, incline and pack
    weight up to [2 ^ 300] it returns a value between 0 and 100 whenever
    the four weeks of the series (counted from the clock) and the five
    weeks of the longest-session window (counted from [today]) lie in
    the range of [date], and raises [OverflowError] otherwise.  On every
    stored table, what it raises is [OverflowError] or [ValueError]: no
    mean and no anchor divides by zero. *)
Theorem readiness_score_returns_or_overflows (db : table) (now today : date) :
  valid now -> valid today -> table_valid db -> table_stored db ->
  let in_range :=
    (1 <= monday_of now - 21 /\ monday_of now + 7 <= MAXORDINAL /\
     1 <= monday_of today - 28 /\ monday_of today + 7 <= MAXORDINAL)%Z in
  (Forall row_moderate db -> in_range ->
   exists s, Engine64.readiness_score db now today = Ok s /\ (0 <= s <= 100)%Z) /\
  (Forall row_moderate db -> ~ in_range ->
   Engine64.readiness_score db now today = Raise OverflowError) /\
  (forall e, Engine64.readiness_score db now today = Raise e ->
     e = OverflowError \/ e = ValueError).
Proof.
  intros Hvn Hvt Hdb Hst in_range. subst in_range.
  pose proof (phase_for_eq today Hvt) as Hphase.
  split; [intros Hmod; now apply readiness_score64_moderate |].
  split; [intros Hmod; now apply readiness_score64_moderate |].
  intros e. unfold Engine64.readiness_score.
  destruct (Engine64.last_n_weeks_series db now 4) as [series |] eqn:Es;
    cbn [rbind];
    [| intros [= <-]; now apply (last_n_weeks_series64_exn db now 4)].
  destruct (Engine64.int_truediv _ _) as [v |] eqn:Ev; cbn [rbind];
    [| intros [= <-]; left; eapply int_truediv_exn; [| exact Ev]; lia].
  destruct (Engine64.of_int _) as [n4 |] eqn:En; cbn [rbind];
    [| intros [= <-]; left; apply (of_int_exn _ _ En)].
  unfold Engine64.truediv at 1.
  erewrite of_int_ge_1; [| | exact En]; [| lia]. cbn [rbind].
  destruct (week_range_cases today Hvt) as [Hthi | ->];
    [| cbn [rbind]; intros [= <-]; now left].
  destruct (week_range_ok today Hvt Hthi) as (ws & we & -> & Hvs & _).
  cbn [rbind].
  destruct (sub_days_cases ws 28) as [Hr | ->];
    [| cbn [rbind]; intros [= <-]; now left].
  destruct (sub_days_ok ws 28 Hr) as (s4 & -> & _). cbn [rbind].
  rewrite Hphase; cbn [rbind]. apply readiness_blend_raises.
Qed.

End Readiness64.

(** ** The dashboard in binary64 *)

Section Dashboard64.

Import F64.
Local Open Scope Q_scope.

Lemma target_mid64 (d : date) (tgt : PhaseTargets) :
  valid d -> phase_for d = Ok tgt ->
  let mid := ((vert_min tgt + vert_max tgt) / 2)%Z in
  (mid =? 0)%Z = false /\
  Engine64.of_int mid = Ok (Fin (inject_Z mid)) /\ 1 <= inject_Z mid.
Proof.
  intros Hv H. destruct (phase_for_vert_min d tgt Hv H) as [Hin _].
  simpl in Hin.
  destruct Hin as [<- | [<- | [<- | [<- | []]]]];
    (split; [reflexivity | split; [vm_compute; reflexivity | vm_compute; discriminate]]).
Qed.

Lemma py_int_nonneg (q : Q) : 0 <= q -> py_int q = Qfloor q /\ (0 <= Qfloor q)%Z.
Proof.
  intros H. unfold py_int.
  replace (Qle_bool 0 q) with true by (symmetry; now apply Qle_bool_iff).
  split; [reflexivity |]. now apply Qfloor_ge.
Qed.

(** The percentage of the weekly vertical against the midpoint of the
    band, as the program computes it from a vertical far from overflow. *)
Lemma weekly_progress64 (v : F64.t) (mid : Z) :
  within 666 v -> 1 <= inject_Z mid ->
  exists p,
    Engine64.int (mul (quot v (Fin (inject_Z mid))) (of_Q 100)) = Ok p /\
    (0 <= p)%Z /\
    (inject_Z mid <= value v -> (100 <= p)%Z).
Proof.
  intros (a & -> & A0 & A1) Hm. cbn [value].
  destruct (rnd_within 666 (a / inject_Z mid) ltac:(lia)) as (r & Hr & R0 & R1).
  { pose proof (pow2_pos 666). split.
    - apply Qle_shift_div_l; lra.
    - apply Qle_shift_div_r; [lra |].
      apply Qle_trans with (pow2 666 * 1); [lra |]. apply Qmult_le_l; lra. }
  destruct (rnd_within 673 (r * 100) ltac:(lia)) as (p & Hp & P0 & P1).
  { split; [lra |]. change 673%Z with (666 + 7)%Z. rewrite pow2_plus.
    apply Qmult_le_compat_nonneg; split; try lra.
    rewrite pow2_inject by lia. change (inject_Z (2 ^ 7)) with 128. lra. }
  rewrite of_Q_100. unfold quot. rewrite Hr. unfold mul. rewrite Hp.
  cbn [Engine64.int]. destruct (py_int_nonneg p P0) as [-> Hf].
  eexists. split; [reflexivity |]. split; [exact Hf |].
  intros Hge. apply Qfloor_ge. change (inject_Z 100) with 100.
  assert (H1 : 1 <= a / inject_Z mid) by (apply Qle_shift_div_l; lra).
  apply rnd_mono in H1. rewrite Hr in H1.
  replace (rnd 1) with (Fin 1) in H1 by (vm_compute; reflexivity).
  apply leb_Fin in H1.
  assert (H2 : 100 <= r * 100) by lra.
  apply rnd_mono in H2. rewrite Hp in H2.
  replace (rnd 100) with (Fin 100) in H2 by (vm_compute; reflexivity).
  now apply leb_Fin in H2.
Qed.

(** X17: the dashboard in the arithmetic of the program, on a table as
    the store holds it with distance, incline and pack weight up to
    [2 ^ 300].  With the three clock readings in range, the page is
    built; the week shown runs from the Monday of [today] to the Sunday
    six days later and contains [today]; the flags, the score and the
    series are those of [risk_flags], [readiness_score] and
    [last_n_weeks_series 12]; and the weekly progress lies between 0
    and 100 and is 100 whenever the vertical of the week reaches the
    midpoint of the vertical band of the phase. *)
Theorem dashboard_context (db : table) (now now_score now_series : date) :
  table_valid db -> table_stored db -> Forall row_moderate db ->
  in_service now -> in_service now_score ->
  valid now_series -> (78 <= monday_of now_series)%Z ->
  (monday_of now_series + 7 <= MAXORDINAL)%Z ->
  exists ctx,
    Engine64.dashboard db now now_score now_series = Ok ctx /\
    Engine64.today ctx = now /\
    toordinal (Engine64.week_start ctx) = monday_of now /\
    toordinal (Engine64.week_end ctx) = (monday_of now + 6)%Z /\
    isoweekday (Engine64.week_end ctx) = 7%Z /\
    PyDate.leb (Engine64.week_start ctx) now = true /\
    PyDate.leb now (Engine64.week_end ctx) = true /\
    phase_for now = Ok (Engine64.target ctx) /\
    Engine64.risk_flags db now = Ok (Engine64.flags ctx) /\
    Engine64.readiness_score db now_score now = Ok (Engine64.readiness ctx) /\
    Engine64.last_n_weeks_series db now_series 12 = Ok (Engine64.series ctx) /\
    Engine64.vert (Engine64.metrics ctx) =
      total_vert64 (week_rows_by_date db (monday_of now)) /\
    (0 <= Engine64.weekly_progress ctx <= 100)%Z /\
    let mid :=
      ((vert_min (Engine64.target ctx) + vert_max (Engine64.target ctx)) / 2)%Z in
    (inject_Z mid <= value (total_vert64 (week_rows_by_date db (monday_of now))) ->
     Engine64.weekly_progress ctx = 100%Z).
Proof.
  intros Hdb Hst Hmod Hs Hss Hvser Hserlo Hserhi.
  pose proof (in_service_bounds now Hs) as (Hv & Hlo & Hd & Hhi).
  pose proof (in_service_bounds now_score Hss) as (Hvsc & Hlosc & _ & Hhisc).
  destruct (week_range_ok now Hv Hhi) as (ws & we & Hw & Hvs & Hve & Hos & Hoe).
  destruct (sum_week_metrics64_rows db ws we Hdb Hst Hvs Hve)
    as (m & Hm & Hvert & _).
  rewrite (week_window ws we ltac:(lia)), Hos in Hvert.
  destruct (risk_flags64_weekly_rules db now Hs Hdb Hst)
    as (tgt & flags & Hphase & _ & Hrf & _).
  destruct (readiness_score64_moderate db now_score now Hvsc Hv Hdb Hst Hmod)
    as [Hscore _].
  destruct Hscore as (score & Hscore & _); [lia |].
  assert (Hw666 : forall mon, within 666 (total_vert64 (week_rows_by_date db mon)))
    by (intros mon; apply (aggregates_within db mon (mon + 6) Hst Hmod)).
  pose proof (last_n_weeks_series64_value db now_series 12 Hdb Hst Hvser Hserhi
                ltac:(lia)
                (fun k _ => within_finite 666 _ (Hw666 _))) as Hser.
  destruct (sub_days_ok we 1) as (wend & Hwend & Hvwend & Howend); [lia |].
  destruct (target_mid64 now tgt Hv Hphase) as (Hmid0 & Hmid & Hmid1).
  set (mid := ((vert_min tgt + vert_max tgt) / 2)%Z) in *.
  destruct (weekly_progress64 (Engine64.vert m) mid) as (p & Hp & Hp0 & Hp100);
    [rewrite Hvert; apply Hw666 | exact Hmid1 |].
  eexists. split.
  { unfold Engine64.dashboard; cbv zeta. rewrite Hw; cbn [rbind].
    rewrite Hm; cbn [rbind]. rewrite Hphase; cbn [rbind]. rewrite Hrf; cbn [rbind].
    rewrite Hscore; cbn [rbind]. rewrite Hser; cbn [rbind].
    fold mid. rewrite Hmid0, Hmid; cbn [rbind].
    rewrite truediv_pos by lra. cbn [rbind]. rewrite Hp; cbn [rbind].
    rewrite Hwend; cbn [rbind]. reflexivity. }
  cbn [Engine64.today Engine64.week_start Engine64.week_end Engine64.target
       Engine64.flags Engine64.readiness Engine64.series Engine64.metrics
       Engine64.weekly_progress].
  fold mid.
  split; [reflexivity |]. split; [exact Hos |]. split; [lia |].
  split.
  { unfold isoweekday; cbv zeta. rewrite Howend, Hoe.
    pose proof (monday_of_is_monday now).
    destruct (Z.eqb_spec ((monday_of now + 7 - 1) mod 7) 0);
      Z.div_mod_to_equations; lia. }
  split; [apply leb_iff; auto; lia |]. split; [apply leb_iff; auto; lia |].
  split; [exact Hphase |]. split; [exact Hrf |]. split; [exact Hscore |].
  split; [exact Hser |]. split; [exact Hvert |].
  split; [lia |].
  intros Hge. rewrite Hvert in Hp100. specialize (Hp100 Hge). lia.
Qed.

End Dashboard64.

(** ** Examples in binary64 *)

Ltac stored_rows :=
  repeat (constructor;
          [repeat split;
           first [vm_compute; reflexivity | vm_compute; discriminate
                 | simpl; tauto] |]);
  try constructor.

Lemma overuse_vertical_rule_witness :
  let today := mkdate 2025 11 4 in
  let db := [Workout.mk 1 (mkdate 2025 10 28) "incline" 60 (1 # 8) 7 0 5 None;
             Workout.mk 2 (mkdate 2025 11 3) "incline" 60 (5 # 32) 7 0 5 None] in
  let tv := total_vert64 (week_rows_by_date db (monday_of today)) in
  let pv := total_vert64 (week_rows_by_date db (monday_of today - 7)) in
  let raised :=
    F64.ltb (F64.Fin 0) pv = true /\
    F64.ltb (F64.mul pv (F64.Fin (5 # 4))) tv = true in
  exists flags,
    Engine64.risk_flags db today = Ok flags /\
    (flags !! "overuse_vertical" = Some "Vertical increased >25% week-over-week."
     <-> raised) /\
    (flags !! "overuse_vertical" = None <-> ~ raised) /\
    (week_rows db (monday_of today - 7) = [] ->
     flags !! "overuse_vertical" = None).
Proof.
  intros today db. apply (overuse_vertical_rule db today).
  - split; [reflexivity |]. split; vm_compute; discriminate.
  - repeat constructor.
  - split; [stored_rows | vm_compute; reflexivity].
Defined.

Lemma overuse_pack_rule_witness :
  let today := mkdate 2025 11 4 in
  let db := [Workout.mk 1 (mkdate 2025 10 28) "incline" 60 1 10 10 5 None;
             Workout.mk 2 (mkdate 2025 11 3) "incline" 60 1 10 20 5 None] in
  let tp := mean_pack64 (week_rows_by_date db (monday_of today)) in
  let pp := mean_pack64 (week_rows_by_date db (monday_of today - 7)) in
  exists flags,
    Engine64.risk_flags db today = Ok flags /\
    (flags !! "overuse_pack" = Some "Average pack increased >5 lb week-over-week."
     <-> F64.ltb (F64.Fin 5) (F64.sub tp pp) = true) /\
    (flags !! "overuse_pack" = None
     <-> F64.ltb (F64.Fin 5) (F64.sub tp pp) = false) /\
    (week_rows db (monday_of today) = [] ->
     week_rows db (monday_of today - 7) = [] ->
     flags !! "overuse_pack" = None).
Proof.
  intros today db. apply (overuse_pack_rule db today).
  - split; [reflexivity |]. split; vm_compute; discriminate.
  - repeat constructor.
  - split; [stored_rows | vm_compute; reflexivity].
Defined.

Lemma undertraining_rule_witness :
  let today := mkdate 2025 11 4 in
  let db := [Workout.mk 1 (mkdate 2025 10 28) "incline" 60 1 10 10 5 None] in
  let tv := total_vert64 (week_rows_by_date db (monday_of today)) in
  let pv := total_vert64 (week_rows_by_date db (monday_of today - 7)) in
  exists tgt flags,
    phase_for today = Ok tgt /\ 0 < vert_min tgt /\
    Engine64.risk_flags db today = Ok flags /\
    let below x :=
      F64.ltb (F64.quot x (F64.Fin (inject_Z (vert_min tgt)))) (F64.of_Q (7 # 10))
      = true in
    let msg := "You hit <70% of weekly vertical target for 2 weeks."%string in
    (flags !! "undertraining" = Some msg <-> below tv /\ below pv) /\
    (flags !! "undertraining" = None <-> ~ (below tv /\ below pv)) /\
    (forall a b, tv = F64.Fin a -> pv = F64.Fin b ->
       flags !! "undertraining" = Some msg ->
       (a < (7 # 10) * inject_Z (vert_min tgt) /\
        b < (7 # 10) * inject_Z (vert_min tgt))%Q) /\
    (forall a, tv = F64.Fin a \/ pv = F64.Fin a ->
       ((7 # 10) * inject_Z (vert_min tgt) <= a)%Q ->
       flags !! "undertraining" = None).
Proof.
  intros today db. apply (undertraining_rule db today).
  - split; [reflexivity |]. split; vm_compute; discriminate.
  - repeat constructor.
  - split; [stored_rows | vm_compute; reflexivity].
Defined.

Lemma last_n_weeks_series_snapshots_witness :
  let now := mkdate 2025 11 4 in
  let db := [Workout.mk 1 (mkdate 2025 10 28) "incline" 90 3 20 25 7 None] in
  exists s,
    Engine64.last_n_weeks_series db now 12 = Ok s /\
    length (Engine64.weeks s) = 12%nat /\
    nth_error (Engine64.weeks s) 10 = Some "Oct 27"%string /\
    nth_error (Engine64.verts s) 10 = Some 3168 /\
    nth_error (Engine64.packs s) 10 = Some (F64.Fin 25) /\
    nth_error (Engine64.stresses s) 10 = Some (F64.of_Q (10238 # 10)).
Proof.
  intros now db.
  destruct (last_n_weeks_series_snapshots db now 12) as [H _].
  - repeat constructor.
  - split; [stored_rows | vm_compute; reflexivity].
  - reflexivity.
  - vm_compute. discriminate.
  - lia.
  - intros _. vm_compute. discriminate.
  - destruct H as (s & Hs & Hl & _ & _ & _ & Hk).
    + intros k Hk. apply (within_finite 666).
      apply (aggregates_within db _ (_ + 6)).
      * split; [stored_rows | vm_compute; reflexivity].
      * repeat constructor; vm_compute; discriminate.
    + exists s. split; [exact Hs |]. split; [exact Hl |].
      destruct (Hk 10%nat) as (H1 & H2 & H3 & H4); [vm_compute; lia |].
      rewrite H1, H2, H3, H4. repeat split; vm_compute; reflexivity.
Defined.

Lemma last_n_weeks_series_rounding_witness :
  let now := mkdate 2025 11 4 in
  let db := [Workout.mk 1 (mkdate 2025 10 28) "incline" 90 3 20 25 7 None] in
  exists s,
    Engine64.last_n_weeks_series db now 4 = Ok s /\
    forall k v p st, (k < Z.to_nat 4)%nat ->
      let rows :=
        week_rows_by_date db (monday_of now - 7 * (4 - 1 - Z.of_nat k)) in
      nth_error (Engine64.verts s) k = Some v ->
      nth_error (Engine64.packs s) k = Some p ->
      nth_error (Engine64.stresses s) k = Some st ->
      finite (total_vert64 rows) /\ finite (mean_pack64 rows) /\
      finite (total_stress64 rows) /\
      (- (1 # 2) <= inject_Z v - value (total_vert64 rows) <= 1 # 2)%Q /\
      (exists z : Z,
         p = F64.rnd (inject_Z z / 10) /\
         (- (1 # 20) <= inject_Z z / 10 - value (mean_pack64 rows) <= 1 # 20)%Q) /\
      (exists z : Z,
         st = F64.rnd (inject_Z z / 10) /\
         (- (1 # 20) <= inject_Z z / 10 - value (total_stress64 rows) <= 1 # 20)%Q).
Proof.
  intros now db. apply (last_n_weeks_series_rounding db now 4).
  - repeat constructor.
  - split; [stored_rows | vm_compute; reflexivity].
  - repeat constructor; vm_compute; discriminate.
  - reflexivity.
  - vm_compute. discriminate.
  - lia.
  - intros _. vm_compute. discriminate.
Defined.

Lemma readiness_score_returns_or_overflows_witness :
  let db := [Workout.mk 1 (mkdate 2025 11 4) "incline" 60 2 10 6 9 None] in
  (exists s,
     Engine64.readiness_score db (mkdate 2025 11 4) (mkdate 2025 11 4) = Ok s /\
     0 <= s <= 100) /\
  Engine64.readiness_score db (mkdate 2025 11 4) (mkdate 1 1 28) =
    Raise OverflowError.
Proof.
  intros db.
  assert (Hdb : table_valid db) by repeat constructor.
  assert (Hst : table_stored db)
    by (split; [stored_rows | vm_compute; reflexivity]).
  assert (Hmod : Forall row_moderate db)
    by (repeat constructor; vm_compute; discriminate).
  destruct (readiness_score_returns_or_overflows db
              (mkdate 2025 11 4) (mkdate 2025 11 4) eq_refl eq_refl Hdb Hst)
    as [H _].
  destruct (readiness_score_returns_or_overflows db
              (mkdate 2025 11 4) (mkdate 1 1 28) eq_refl eq_refl Hdb Hst)
    as (_ & H' & _).
  split.
  - apply H; [exact Hmod |]. repeat split; vm_compute; discriminate.
  - apply H'; [exact Hmod |].
    intros (_ & _ & H28 & _). vm_compute in H28. apply H28. reflexivity.
Defined.

Lemma dashboard_context_witness :
  let now := mkdate 2025 11 4 in
  let db := [Workout.mk 1 (mkdate 2025 11 3) "incline" 90 3 20 25 7 None] in
  exists ctx,
    Engine64.dashboard db now now now = Ok ctx /\
    Engine64.today ctx = now /\
    toordinal (Engine64.week_start ctx) = monday_of now /\
    toordinal (Engine64.week_end ctx) = monday_of now + 6 /\
    isoweekday (Engine64.week_end ctx) = 7 /\
    PyDate.leb (Engine64.week_start ctx) now = true /\
    PyDate.leb now (Engine64.week_end ctx) = true /\
    phase_for now = Ok (Engine64.target ctx) /\
    Engine64.risk_flags db now = Ok (Engine64.flags ctx) /\
    Engine64.readiness_score db now now = Ok (Engine64.readiness ctx) /\
    Engine64.last_n_weeks_series db now 12 = Ok (Engine64.series ctx) /\
    Engine64.vert (Engine64.metrics ctx) =
      total_vert64 (week_rows_by_date db (monday_of now)) /\
    0 <= Engine64.weekly_progress ctx <= 100 /\
    let mid :=
      (vert_min (Engine64.target ctx) + vert_max (Engine64.target ctx)) / 2 in
    ((inject_Z mid <= value (total_vert64 (week_rows_by_date db (monday_of now))))%Q ->
     Engine64.weekly_progress ctx = 100).
Proof.
  intros now db.
  assert (Hs : in_service now)
    by (split; [reflexivity | split; vm_compute; discriminate]).
  apply (dashboard_context db now now now).
  - repeat constructor.
  - split; [stored_rows | vm_compute; reflexivity].
  - repeat constructor; vm_compute; discriminate.
  - exact Hs.
  - exact Hs.
  - reflexivity.
  - vm_compute. discriminate.
  - vm_compute. discriminate.
Defined.

(** ** The arithmetic of the model against the floats of the machine *)

(** Sample operations computed by [F64] and by the primitive floats of
    the prover, which are the binary64 numbers of the hardware. *)
Lemma F64_agrees_with_primitive_floats :
  F64.add (of_float 0.5) (of_float 0.25) = of_float (0.5 + 0.25) /\
  F64.mul (of_float 1.5) (of_float 5280) = of_float (1.5 * 5280) /\
  F64.quot (of_float 6.25) (of_float 100) = of_float (6.25 / 100) /\
  F64.quot (of_float 1) (of_float 3) = of_float (1 / 3) /\
  F64.quot (of_float 7) (of_float 10) = of_float (7 / 10) /\
  F64.mul (of_float (1 / 3)) (of_float 3) = of_float (1 / 3 * 3) /\
  F64.add (of_float (1 / 10)) (of_float (2 / 10)) = of_float (1 / 10 + 2 / 10) /\
  F64.mul (of_float 0x1p-600) (of_float 0x1.8p-470) =
    of_float (0x1p-600 * 0x1.8p-470) /\
  F64.mul (of_float 0x1p-600) (of_float 0x1.8p-480) =
    of_float (0x1p-600 * 0x1.8p-480) /\
  F64.mul (of_float 0x1p600) (of_float 0x1p600) = of_float (0x1p600 * 0x1p600) /\
  F64.add (of_float 0x1.fffffffffffffp1023) (of_float 0x1p970) =
    of_float (0x1.fffffffffffffp1023 + 0x1p970) /\
  F64.add (of_float 0x1.fffffffffffffp1023) (of_float 0x1p969) =
    of_float (0x1.fffffffffffffp1023 + 0x1p969) /\
  F64.sub (of_float 1) (of_float infinity) = of_float (1 - infinity) /\
  F64.sub (of_float infinity) (of_float infinity) = of_float (infinity - infinity) /\
  F64.quot (of_float infinity) (of_float 9000) = of_float (infinity / 9000) /\
  F64.mul (of_float nan) (of_float 3) = of_float (nan * 3) /\
  F64.of_Q (1 # 10) = of_float (1 / 10) /\
  F64.of_Q (7 # 10) = of_float (7 / 10) /\
  F64.of_Q (4 # 10) = of_float (4 / 10) /\
  F64.of_Q (3 # 10) = of_float (3 / 10) /\
  F64.of_Q (125 # 100) = of_float 1.25.
Proof. repeat split; vm_compute; reflexivity. Qed.

(** The inputs on which the arithmetic of the program and exact
    arithmetic part: the flags at the thresholds, the rounding of the
    score at a tie, and the overflow of a weekly vertical. *)
Lemma binary64_examples :
  let row i d dist inc pack := Workout.mk i d "incline" 60 dist inc pack 5 None in
  let raised (r : result (gmap string string)) (k : string) :=
    match r with
    | Ok flags => match flags !! k with Some _ => true | None => false end
    | Raise _ => false
    end in
  let today := mkdate 2025 11 4 in
  (* 0.125 mi, then 0.15625 mi, at 7 % *)
  raised (Engine64.risk_flags
            [row 1 (mkdate 2025 10 28) (1 # 8)%Q 7%Q 0%Q;
             row 2 (mkdate 2025 11 3) (5 # 32)%Q 7%Q 0%Q] today) "overuse_vertical"
    = true /\
  (* packs of 5, 5 and 6 lb, then 10, 10 and 11 lb *)
  raised (Engine64.risk_flags
            [row 1 (mkdate 2025 10 27) 0%Q 0%Q 5%Q; row 2 (mkdate 2025 10 28) 0%Q 0%Q 5%Q;
             row 3 (mkdate 2025 10 29) 0%Q 0%Q 6%Q; row 4 (mkdate 2025 11 3) 0%Q 0%Q 10%Q;
             row 5 (mkdate 2025 11 3) 0%Q 0%Q 10%Q; row 6 (mkdate 2025 11 4) 0%Q 0%Q 11%Q]
            today) "overuse_pack" = true /\
  (* 1.9886363636363635 mi at 10 % in both weeks of a Base phase *)
  raised (Engine64.risk_flags
            [row 1 (mkdate 2025 1 6) (19886363636363635 # 10000000000000000)%Q 10%Q 0%Q;
             row 2 (mkdate 2025 1 13) (19886363636363635 # 10000000000000000)%Q 10%Q 0%Q]
            (mkdate 2025 1 14)) "undertraining" = false /\
  (* one session of 60 min with a pack of 6 lb *)
  Engine64.readiness_blend taper_targets (F64.Fin 0) (F64.of_Q (15 # 10)) 60 = Ok 21 /\
  (* 1e305 mi at 100 %, and at 0 % *)
  Engine64.readiness_score [row 1 (mkdate 2025 11 3) (inject_Z (10 ^ 305)) 100%Q 0%Q]
    today today = Raise OverflowError /\
  Engine64.readiness_score [row 1 (mkdate 2025 11 3) (inject_Z (10 ^ 305)) 0%Q 0%Q]
    today today = Raise ValueError.
Proof. intros row raised today. repeat split; vm_compute; reflexivity. Qed.

(** ** Windows and new rows in binary64 *)

Section Windows64.

Import F64.
Local Open Scope Q_scope.

(** A count of rows is a number of the format. *)
Lemma rnd_count (n : Z) :
  (0 <= n < 2 ^ 53)%Z -> exists q, rnd (inject_Z n) = Fin q /\ q == inject_Z n.
Proof.
  intros Hn.
  pose proof (nearest_small_multiple n 0 Hn ltac:(lia)) as He.
  assert (Hx : nearest (inject_Z n) == inject_Z n).
  { rewrite (nearest_comp (inject_Z n) (inject_Z n * pow2 0))
      by (change (pow2 0) with 1; ring).
    rewrite He. change (pow2 0) with 1. ring. }
  assert (Hb : 0 <= inject_Z n < pow2 53).
  { rewrite pow2_inject by lia. change 0 with (inject_Z 0).
    rewrite <- Zle_Qle, <- Zlt_Qlt. lia. }
  assert (Hlt : pow2 53 < pow2 1024).
  { apply Qlt_le_trans with (pow2 54); [| apply pow2_le; lia].
    change 54%Z with (53 + 1)%Z. rewrite pow2_succ.
    pose proof (pow2_pos 53). lra. }
  pose proof (pow2_pos 1024) as Hp.
  destruct (rnd_cases (inject_Z n)) as [[_ H] | [[_ H] | [-> _]]];
    try (exfalso; lra).
  exists (Qred (nearest (inject_Z n))). split; [reflexivity |].
  now rewrite Qred_correct.
Qed.

Lemma rnd_count_add (n1 n2 : Z) :
  (0 <= n1)%Z -> (0 <= n2)%Z -> (n1 + n2 < 2 ^ 53)%Z ->
  rnd (inject_Z (n1 + n2)) = add (rnd (inject_Z n1)) (rnd (inject_Z n2)).
Proof.
  intros H1 H2 H.
  destruct (rnd_count n1) as (q1 & -> & E1); [lia |].
  destruct (rnd_count n2) as (q2 & -> & E2); [lia |].
  cbn [add]. apply rnd_comp. rewrite E1, E2, inject_Z_plus. reflexivity.
Qed.

(** X2: windows compose in what is counted. When a window is cut at a
    date inside it, on a table as the store holds it, the number of
    rows of the whole is the sum of those of the two parts and the
    longest session is the longer of the two.  (The sums of floats of
    the two parts need not add up to that of the whole: every addition
    rounds.) *)
Theorem sum_week_metrics_split (db : table) (a b c : date) :
  table_valid db -> table_stored db -> valid a -> valid b -> valid c ->
  (toordinal a <= toordinal b <= toordinal c)%Z ->
  exists m m1 m2,
    Engine64.sum_week_metrics db a c = Ok m /\
    Engine64.sum_week_metrics db a b = Ok m1 /\
    Engine64.sum_week_metrics db b c = Ok m2 /\
    Engine64.count m = add (Engine64.count m1) (Engine64.count m2) /\
    Engine64.max_long m = Z.max (Engine64.max_long m1) (Engine64.max_long m2).
Proof.
  intros Hdb Hst Ha Hb Hc Hord.
  destruct (sum_week_metrics64_rows db a c Hdb Hst Ha Hc)
    as (m & Hm & _ & _ & _ & Hl & Hn).
  destruct (sum_week_metrics64_rows db a b Hdb Hst Ha Hb)
    as (m1 & Hm1 & _ & _ & _ & Hl1 & Hn1).
  destruct (sum_week_metrics64_rows db b c Hdb Hst Hb Hc)
    as (m2 & Hm2 & _ & _ & _ & Hl2 & Hn2).
  pose proof (rows_between_split db (toordinal a) (toordinal b)
                (toordinal c - 1) ltac:(lia)) as Hperm.
  set (r := rows_between db (toordinal a) (toordinal c - 1)) in *.
  set (r1 := rows_between db (toordinal a) (toordinal b - 1)) in *.
  set (r2 := rows_between db (toordinal b) (toordinal c - 1)) in *.
  assert (Hlen : length r = (length r1 + length r2)%nat)
    by (rewrite (Permutation_length Hperm); apply length_app).
  assert (Hle : (length r <= length db)%nat)
    by (unfold r, rows_between; apply List.filter_length_le).
  exists m, m1, m2. repeat (split; [assumption |]). split.
  - rewrite Hn, Hn1, Hn2.
    rewrite !(Permutation_length (order_by_date_perm _)). fold r r1 r2.
    rewrite Hlen, Nat2Z.inj_add. destruct Hst as [_ Hst].
    apply rnd_count_add; lia.
  - rewrite Hl, Hl1, Hl2. unfold longest.
    rewrite !(py_max_default_perm _ _ 0
                (Permutation_map Workout.duration_min (order_by_date_perm _))).
    fold r r1 r2.
    rewrite (py_max_default_perm _ _ 0
               (Permutation_map Workout.duration_min Hperm)).
    apply longest_app, table_ok_durations, Forall_app.
    destruct Hst as [Hst _].
    assert (Hok : table_ok db)
      by (eapply List.Forall_impl; [| exact Hst]; intros w [H _]; exact H).
    split; apply rows_between_ok, Hok.
Qed.

(** The selection of [sum_week_metrics] on a table with one more row. *)
Lemma selected_app (db : table) (w : Workout.t) (start end_ : date) :
  let sel := fun w => PyDate.leb start (Workout.session_date w) &&
                      PyDate.ltb (Workout.session_date w) end_ in
  List.filter sel (db ++ [w]) =
  List.filter sel db ++ (if sel w then [w] else []).
Proof. intros sel. rewrite List.filter_app. reflexivity. Qed.

(** X23: what a new row does to the aggregates. A row dated outside
    the window changes nothing, whatever the table holds; a row dated
    inside it, on a table as the store holds it, adds one to the count
    and raises the longest session to its duration if that is longer. *)
Theorem sum_week_metrics_after_insert
    (db : table) (w : Workout.t) (start end_ : date) :
  (~ date_in start end_ (Workout.session_date w) ->
   Engine64.sum_week_metrics (db ++ [w]) start end_ =
   Engine64.sum_week_metrics db start end_) /\
  (date_in start end_ (Workout.session_date w) ->
   table_valid (db ++ [w]) -> table_stored (db ++ [w]) ->
   valid start -> valid end_ ->
   exists m m',
     Engine64.sum_week_metrics db start end_ = Ok m /\
     Engine64.sum_week_metrics (db ++ [w]) start end_ = Ok m' /\
     Engine64.count m' = add (Engine64.count m) (Fin 1) /\
     Engine64.max_long m' =
       Z.max (Engine64.max_long m) (Workout.duration_min w)).
Proof.
  split.
  - intros Hout. unfold Engine64.sum_week_metrics; cbv zeta.
    rewrite (selected_app db w start end_); cbv zeta.
    destruct (PyDate.leb start (Workout.session_date w) &&
              PyDate.ltb (Workout.session_date w) end_) eqn:E.
    + exfalso. apply Hout. apply andb_true_iff in E. exact E.
    + rewrite app_nil_r. reflexivity.
  - intros Hin Hdb' Hst' Hs He.
    assert (Hdb : table_valid db) by (apply Forall_app in Hdb'; tauto).
    assert (Hst : table_stored db).
    { destruct Hst' as [H1 H2]. apply Forall_app in H1 as [H1 _].
      split; [exact H1 |]. rewrite length_app in H2. lia. }
    assert (Hw : row_stored w).
    { destruct Hst' as [H1 _]. apply Forall_app in H1 as [_ H1].
      now inversion H1. }
    assert (Hvw : valid (Workout.session_date w)).
    { apply Forall_app in Hdb' as [_ H1]. now inversion H1. }
    destruct (sum_week_metrics64_rows db start end_ Hdb Hst Hs He)
      as (m & Hm & _ & _ & _ & Hl & Hn).
    destruct (sum_week_metrics64_rows (db ++ [w]) start end_ Hdb' Hst' Hs He)
      as (m' & Hm' & _ & _ & _ & Hl' & Hn').
    rewrite rows_between_app in Hl', Hn'.
    apply (date_in_ord start end_ _ Hs He Hvw) in Hin.
    assert (Hsel : rows_between [w] (toordinal start) (toordinal end_ - 1) = [w]).
    { unfold rows_between. simpl.
      destruct (Z.leb_spec (toordinal start) (toordinal (Workout.session_date w)));
        [| lia].
      destruct (Z.leb_spec (toordinal (Workout.session_date w)) (toordinal end_ - 1));
        [reflexivity | lia]. }
    rewrite Hsel in Hl', Hn'.
    set (rows := rows_between db (toordinal start) (toordinal end_ - 1)) in *.
    assert (Hle : (length rows <= length db)%nat)
      by (unfold rows, rows_between; apply List.filter_length_le).
    exists m, m'. split; [exact Hm |]. split; [exact Hm' |]. split.
    + rewrite Hn, Hn'. rewrite !(Permutation_length (order_by_date_perm _)).
      rewrite length_app, Nat2Z.inj_add. simpl length.
      destruct Hst' as [_ Hlen]. rewrite length_app in Hlen. simpl length in Hlen.
      rewrite rnd_count_add by lia. f_equal.
    + rewrite Hl, Hl'. unfold longest.
      rewrite !(py_max_default_perm _ _ 0
                  (Permutation_map Workout.duration_min (order_by_date_perm _))).
      apply longest_snoc; [apply Hw |].
      apply table_ok_durations, rows_between_ok.
      destruct Hst as [Hst _].
      eapply List.Forall_impl; [| exact Hst]. intros r [H _]; exact H.
Qed.

End Windows64.

Lemma sum_week_metrics_split_witness :
  let db := [Workout.mk 1 (mkdate 2025 11 4) "incline" 90 3 20 25 7 None;
             Workout.mk 2 (mkdate 2025 11 8) "flat" 45 2 0 10 5 None] in
  exists m m1 m2,
    Engine64.sum_week_metrics db (mkdate 2025 11 3) (mkdate 2025 11 10) = Ok m /\
    Engine64.sum_week_metrics db (mkdate 2025 11 3) (mkdate 2025 11 6) = Ok m1 /\
    Engine64.sum_week_metrics db (mkdate 2025 11 6) (mkdate 2025 11 10) = Ok m2 /\
    Engine64.count m = F64.add (Engine64.count m1) (Engine64.count m2) /\
    Engine64.max_long m = Z.max (Engine64.max_long m1) (Engine64.max_long m2).
Proof.
  intros db.
  apply (sum_week_metrics_split db
           (mkdate 2025 11 3) (mkdate 2025 11 6) (mkdate 2025 11 10)).
  - repeat constructor.
  - split; [stored_rows | vm_compute; reflexivity].
  - reflexivity.
  - reflexivity.
  - reflexivity.
  - vm_compute. split; discriminate.
Defined.

Lemma sum_week_metrics_after_insert_witness :
  let db := [Workout.mk 1 (mkdate 2025 11 3) "flat" 45 2 0 10 5 None] in
  let w := Workout.mk 2 (mkdate 2025 11 4) "incline" 90 3 20 25 7 None in
  let late := Workout.mk 2 (mkdate 2025 11 10) "incline" 90 3 20 25 7 None in
  Engine64.sum_week_metrics (db ++ [late]) (mkdate 2025 11 3) (mkdate 2025 11 10) =
  Engine64.sum_week_metrics db (mkdate 2025 11 3) (mkdate 2025 11 10) /\
  exists m m',
    Engine64.sum_week_metrics db (mkdate 2025 11 3) (mkdate 2025 11 10) = Ok m /\
    Engine64.sum_week_metrics (db ++ [w]) (mkdate 2025 11 3) (mkdate 2025 11 10) = Ok m' /\
    Engine64.count m' = F64.add (Engine64.count m) (F64.Fin 1) /\
    Engine64.max_long m' = Z.max (Engine64.max_long m) (Workout.duration_min w).
Proof.
  intros db w late. split.
  - apply (sum_week_metrics_after_insert db late
             (mkdate 2025 11 3) (mkdate 2025 11 10)).
    intros [_ H]. vm_compute in H. discriminate.
  - apply (sum_week_metrics_after_insert db w
             (mkdate 2025 11 3) (mkdate 2025 11 10)).
    + split; reflexivity.
    + repeat constructor.
    + split; [stored_rows | vm_compute; reflexivity].
    + reflexivity.
    + reflexivity.
Defined.
